(** * libdns/inwx: the INWX provider for libdns, modelled in Rocq

    The development follows the two Go files of the package:
    - [provider.go]: the four public operations ([GetRecords],
      [AppendRecords], [SetRecords], [DeleteRecords]), the session
      handling ([getClient], [removeClient]) and the record codec
      ([libdnsRecord], [inwxRecord]);
    - the JSON-RPC client: [call], [checkResponse], [ensureMinTTL],
      [login], [unlock], [logout] and the record calls.

    What the package imports and does not define (the libdns record
    parser, the HTTP and JSON machinery, the one-time-password
    generator) is kept abstract in two type classes, [LibDNS] and
    [Remote]; the code of the package itself is translated function by
    function on top of them. *)

From Stdlib Require Import String Ascii List ZArith NArith Bool Lia.
From Stdlib Require Import DecimalString DecimalN.
Import ListNotations.

Local Open Scope string_scope.
Local Open Scope Z_scope.

(** ** Go base types and the few library functions the package uses *)

(** [strings.HasSuffix]. *)
Definition HasSuffix (s suffix : string) : bool :=
  (String.length suffix <=? String.length s)%nat
  && String.eqb
       (substring (String.length s - String.length suffix)
                  (String.length suffix) s)
       suffix.

(** [strings.TrimSuffix]: [s] without the trailing [suffix], or [s]
    itself when it does not end with it. *)
Definition TrimSuffix (s suffix : string) : string :=
  if HasSuffix s suffix
  then substring 0 (String.length s - String.length suffix) s
  else s.

(** [fmt.Sprintf("%d", n)] for an unsigned operand. *)
Definition itoa (n : N) : string :=
  NilEmpty.string_of_uint (N.to_uint n).

(** [fmt.Sprintf("%d %s", n, s)]. *)
Definition Sprintf_d_s (n : N) (s : string) : string :=
  itoa n ++ " " ++ s.

(** [fmt.Sprintf("%d %d %s", a, b, s)]. *)
Definition Sprintf_d_d_s (a b : N) (s : string) : string :=
  itoa a ++ " " ++ itoa b ++ " " ++ s.

(** [fmt.Sprintf("%d %d %d %s", a, b, c, s)]. *)
Definition Sprintf_d_d_d_s (a b c : N) (s : string) : string :=
  itoa a ++ " " ++ itoa b ++ " " ++ itoa c ++ " " ++ s.

(** [time.Duration] is an [int64] count of nanoseconds; arithmetic on
    it wraps around. *)
Definition wrap64 (z : Z) : Z :=
  (z + 2 ^ 63) mod 2 ^ 64 - 2 ^ 63.

Definition int64_range (z : Z) : Prop :=
  - 2 ^ 63 <= z < 2 ^ 63.

(** [time.Second]. *)
Definition Second : Z := 1000000000.

(** [int(d.Seconds())]: the duration in seconds, the fraction dropped.
    [Seconds] goes through [float64]; for a whole number of seconds the
    conversion is exact, and that is the only case the theorems below
    rely on. *)
Definition Seconds_int (d : Z) : Z := Z.quot d Second.

(** [time.Duration(n) * time.Second]. *)
Definition Duration_of_seconds (n : Z) : Z := wrap64 (n * Second).

(** ** The libdns record model ([github.com/libdns/libdns]) *)

(** [libdns.RR]: the canonical (name, ttl, type, data) quadruple. *)
Module RR.
Record t : Type := mk
  { Name : string;
    TTL : Z;
    Type_ : string;
    Data : string }.
End RR.

(** [libdns.MX]. [Preference] is a [uint16]. *)
Module MX.
Record t : Type := mk
  { Name : string;
    TTL : Z;
    Preference : N;
    Target : string }.
End MX.

(** [libdns.SRV]. [Priority], [Weight] and [Port] are [uint16]. *)
Module SRV.
Record t : Type := mk
  { Service : string;
    Transport : string;
    Name : string;
    TTL : Z;
    Priority : N;
    Weight : N;
    Port : N;
    Target : string }.
End SRV.

(** [libdns.Record] is an interface with the single method [RR()].
    The package looks at the dynamic type of a record in one place
    only, the type switch of [inwxRecord], which tells [libdns.MX] and
    [libdns.SRV] from everything else; every other implementation
    ([libdns.RR] itself, [TXT], [CNAME], [NS], [Address], [CAA],
    [ServiceBinding]) is used through [RR()] alone and is represented
    here by the quadruple that method returns. *)
Inductive Record : Type :=
| RecRR (rr : RR.t)
| RecMX (rec : MX.t)
| RecSRV (rec : SRV.t).

(** The [RR()] method. For [MX] the data is "preference target", for
    [SRV] it is "priority weight port target" and the owner name is
    "_service._transport.name". *)
Definition RR_of (record : Record) : RR.t :=
  match record with
  | RecRR rr => rr
  | RecMX rec =>
      RR.mk (MX.Name rec) (MX.TTL rec) "MX"
            (Sprintf_d_s (MX.Preference rec) (MX.Target rec))
  | RecSRV rec =>
      RR.mk ("_" ++ SRV.Service rec ++ "._" ++ SRV.Transport rec
                 ++ "." ++ SRV.Name rec)
            (SRV.TTL rec) "SRV"
            (Sprintf_d_d_d_s (SRV.Priority rec) (SRV.Weight rec)
                             (SRV.Port rec) (SRV.Target rec))
  end.

(** ** The wire structs of the client *)

Module nameserverRecord.
Record t : Type := mk
  { ID : string;
    Name : string;
    Type_ : string;
    Content : string;
    TTL : Z;
    Priority : N }.
End nameserverRecord.

Module nameserverInfoRequest.
Record t : Type := mk
  { Domain : string;
    Name : string;
    Type_ : string;
    Content : string;
    TTL : Z;
    Priority : N }.
End nameserverInfoRequest.

Module nameserverInfoResponse.
Record t : Type := mk
  { RoID : Z;
    Domain : string;
    Type_ : string;
    Count : Z;
    Records : list nameserverRecord.t }.
End nameserverInfoResponse.

Module nameserverCreateRecordRequest.
Record t : Type := mk
  { Domain : string;
    Name : string;
    Type_ : string;
    Content : string;
    TTL : Z;
    Priority : N }.
End nameserverCreateRecordRequest.

Module nameserverCreateRecordResponse.
Record t : Type := mk { ID : string }.
End nameserverCreateRecordResponse.

Module nameserverUpdateRecordRequest.
Record t : Type := mk
  { ID : string;
    Name : string;
    Type_ : string;
    Content : string;
    TTL : Z;
    Priority : N }.
End nameserverUpdateRecordRequest.

Module nameserverDeleteRecordRequest.
Record t : Type := mk { ID : string }.
End nameserverDeleteRecordRequest.

Module accountLoginRequest.
Record t : Type := mk { User : string; Pass : string }.
End accountLoginRequest.

Module accountLoginResponse.
Record t : Type := mk { TFA : string }.
End accountLoginResponse.

Module accountUnlockRequest.
Record t : Type := mk { TAN : string }.
End accountUnlockRequest.

(** [errorResponse]: the error value [checkResponse] builds. *)
Module errorResponse.
Record t : Type := mk
  { Code : Z;
    Message : string;
    ReasonCode : string;
    Reason : string }.
End errorResponse.

(** ** Errors and results *)

(** Go's [error] values, kept structured: a formatted message is a
    function of the values it was built from, so the constructor
    carries those values. *)
Inductive error : Type :=
| ErrLibrary (msg : string)
    (* an error of an imported package: HTTP, JSON, cookie jar, OTP, the libdns parser *)
| ErrResponse (e : errorResponse.t)
    (* the *errorResponse of checkResponse *)
| ErrIDNotSet
    (* "record cannot be updated because the ID is not set" *)
| ErrMoreThanOne (record : Record)
    (* "unexpectedly found more than 1 record for %v" *)
| ErrParsing (record : nameserverRecord.t) (err : error)
    (* "parsing INWX DNS record %+v: %v" *)
| ErrPanic (msg : string).
    (* a run-time panic: nil dereference, index out of range *)

Inductive result (A : Type) : Type :=
| Ok (a : A)
| Err (e : error).

Arguments Ok {A} a.
Arguments Err {A} e.

Definition is_ok {A : Type} (r : result A) : bool :=
  match r with Ok _ => true | Err _ => false end.

(** ** The record codec of [provider.go] *)

(** What the codec takes from libdns. *)
Class LibDNS : Type :=
  { (* libdns.RelativeName(fqdn, zone) *)
    RelativeName : string -> string -> string;
    (* (libdns.RR).Parse() *)
    Parse : RR.t -> result Record }.

(** [getDomain]. *)
Definition getDomain (zone : string) : string :=
  TrimSuffix zone ".".

(** The [libdns.RR] literal that [libdnsRecord] builds and hands to
    [Parse]. *)
Definition libdnsRR `{LibDNS} (record : nameserverRecord.t) (zone : string)
  : RR.t :=
  let name := RelativeName (nameserverRecord.Name record) (getDomain zone) in
  let ttl := Duration_of_seconds (nameserverRecord.TTL record) in
  let data :=
    if String.eqb (nameserverRecord.Type_ record) "MX"
       || String.eqb (nameserverRecord.Type_ record) "SRV"
    then Sprintf_d_s (nameserverRecord.Priority record)
                     (nameserverRecord.Content record)
    else nameserverRecord.Content record in
  RR.mk name ttl (nameserverRecord.Type_ record) data.

(** [libdnsRecord]: native record to libdns record. *)
Definition libdnsRecord `{LibDNS} (record : nameserverRecord.t) (zone : string)
  : result Record :=
  Parse (libdnsRR record zone).

(** [inwxRecord]: libdns record to native record. The [ID] is left at
    its zero value. *)
Definition inwxRecord (record : Record) : nameserverRecord.t :=
  let rr := RR_of record in
  let inwxRecord :=
    nameserverRecord.mk "" (RR.Name rr) (RR.Type_ rr) (RR.Data rr)
                        (Seconds_int (RR.TTL rr)) 0%N in
  match record with
  | RecMX rec =>
      nameserverRecord.mk
        (nameserverRecord.ID inwxRecord)
        (nameserverRecord.Name inwxRecord)
        (nameserverRecord.Type_ inwxRecord)
        (MX.Target rec)
        (nameserverRecord.TTL inwxRecord)
        (MX.Preference rec)
  | RecSRV rec =>
      nameserverRecord.mk
        (nameserverRecord.ID inwxRecord)
        (nameserverRecord.Name inwxRecord)
        (nameserverRecord.Type_ inwxRecord)
        (Sprintf_d_d_s (SRV.Weight rec) (SRV.Port rec) (SRV.Target rec))
        (nameserverRecord.TTL inwxRecord)
        (SRV.Priority rec)
  | RecRR _ => inwxRecord
  end.

(** [compareRecords] of the package's tests: two records are
    content-equivalent when their canonical quadruples agree. *)
Definition compareRecords (lhs rhs : Record) : bool :=
  String.eqb (RR.Type_ (RR_of lhs)) (RR.Type_ (RR_of rhs))
  && String.eqb (RR.Name (RR_of lhs)) (RR.Name (RR_of rhs))
  && String.eqb (RR.Data (RR_of lhs)) (RR.Data (RR_of rhs))
  && Z.eqb (RR.TTL (RR_of lhs)) (RR.TTL (RR_of rhs)).

(** The type switch of [inwxRecord] and the test on the type tag of
    [libdnsRecord] agree on [record]: it is a [libdns.MX] or a
    [libdns.SRV], or a record of another kind whose type tag is neither
    "MX" nor "SRV". *)
Definition typeSwitchAgrees (record : Record) : bool :=
  match record with
  | RecRR rr =>
      negb (String.eqb (RR.Type_ rr) "MX" || String.eqb (RR.Type_ rr) "SRV")
  | RecMX _ | RecSRV _ => true
  end.

(** A duration of a whole number of seconds. *)
Definition wholeSeconds (d : Z) : Prop :=
  exists k : Z, d = k * Second.

(** ** The JSON-RPC client *)

(** The parameters of a call: one constructor per request struct the
    client passes to [call]; [ParamsNil] is the [nil] of [logout]. *)
Inductive Params : Type :=
| ParamsInfo (request : nameserverInfoRequest.t)
| ParamsCreateRecord (request : nameserverCreateRecordRequest.t)
| ParamsUpdateRecord (request : nameserverUpdateRecordRequest.t)
| ParamsDeleteRecord (request : nameserverDeleteRecordRequest.t)
| ParamsLogin (request : accountLoginRequest.t)
| ParamsUnlock (request : accountUnlockRequest.t)
| ParamsNil.

(** One use of [call], as an observer of the wire sees it. *)
Record Call : Type := mkCall
  { callEndpoint : string;
    callMethod : string;
    callParams : Params }.

(** [response]: the decoded envelope. [P] is the type of the
    re-marshalled [resData]. *)
Module response.
Record t (P : Type) : Type := mk
  { Code : Z;
    Message : string;
    ReasonCode : string;
    Reason : string;
    ResponseData : P }.
Arguments mk {P}.
Arguments Code {P}.
Arguments Message {P}.
Arguments ReasonCode {P}.
Arguments Reason {P}.
Arguments ResponseData {P}.
End response.

(** What the client takes from the outside: the remote end with the
    network and the clock ([World]), [net/http], [encoding/json] and
    [pquerna/otp/totp]. *)
Class Remote : Type :=
  { World : Type;
    (* *http.Client, cookie jar included *)
    HTTPClient : Type;
    (* the bytes json.Marshal(response.ResponseData) yields *)
    Payload : Type;
    (* cookiejar.New(nil) and the http.Client literal of newClient *)
    newHTTPClient : World -> result HTTPClient;
    (* one request/response exchange of call, from json.Marshal of the
       request body to json.Marshal of the decoded resData: an error of
       any step, or the decoded envelope *)
    roundTrip : HTTPClient -> string -> string -> Params -> World ->
                result (response.t Payload) * World;
    (* json.Unmarshal into the three response structs *)
    unmarshalInfo : Payload -> result nameserverInfoResponse.t;
    unmarshalCreateRecord : Payload -> result nameserverCreateRecordResponse.t;
    unmarshalLogin : Payload -> result accountLoginResponse.t;
    (* totp.GenerateCode(sharedSecret, time.Now()) *)
    GenerateCode : string -> World -> result string }.

(** [client]. *)
Record client `{Remote} : Type := mkClient
  { httpClient : HTTPClient;
    endpointUrl : string }.

(** [Provider]. The mutex [clientMu] has no content in a sequential
    run and is left out. *)
Module Provider.
Record t `{Remote} : Type := mk
  { Username : string;
    Password : string;
    SharedSecret : string;
    EndpointURL : string;
    client : option client }.
End Provider.

(** The state a method runs in: the receiver [p], the world, and the
    calls made so far. *)
Record State `{Remote} : Type := mkState
  { provider : Provider.t;
    world : World;
    log : list Call }.

(** A method that may fail and may change the state. *)
Definition M `{Remote} (A : Type) : Type := State -> result A * State.

Definition ret `{Remote} {A : Type} (a : A) : M A :=
  fun s => (Ok a, s).

Definition throw `{Remote} {A : Type} (e : error) : M A :=
  fun s => (Err e, s).

Definition bind `{Remote} {A B : Type} (m : M A) (f : A -> M B) : M B :=
  fun s =>
    match m s with
    | (Ok a, s') => f a s'
    | (Err e, s') => (Err e, s')
    end.

Notation "x <- c1 ;; c2" := (bind c1 (fun x => c2))
  (at level 61, c1 at next level, right associativity).

(** A [for ... range] loop over [xs] that threads the variables the
    body assigns to; an early [return] of an error is a [throw]. *)
Fixpoint forRange `{Remote} {A B : Type}
  (xs : list A) (body : A -> B -> M B) (acc : B) : M B :=
  match xs with
  | [] => ret acc
  | x :: rest => acc' <- body x acc ;; forRange rest body acc'
  end.

(** [defer f()]: [deferred] runs when [body] has returned; what it
    returns is dropped and the function's results stay those of
    [body]. *)
Definition defer `{Remote} {A B : Type} (deferred : M B) (body : M A) : M A :=
  fun s =>
    let '(r, s1) := body s in
    (r, snd (deferred s1)).

(** [endpointURL]. *)
Definition endpointURL : string := "https://api.domrobot.com/jsonrpc/".

(** [newClient]. *)
Definition newClient `{Remote} (endpointURL : string) : M client :=
  fun s =>
    match newHTTPClient (world s) with
    | Err err => (Err err, s)
    | Ok httpClient => (Ok (mkClient _ httpClient endpointURL), s)
    end.

(** [checkResponse]: [None] is the [nil] error. *)
Definition checkResponse {P : Type} (r : response.t P) : option error :=
  let c := response.Code r in
  if (1000 <=? c) && (c <=? 1500)
  then None
  else Some (ErrResponse
               (errorResponse.mk (response.Code r) (response.Message r)
                                 (response.ReasonCode r) (response.Reason r))).

(** [fmt.Sprintf("%d", n)] for a signed operand. *)
Definition itoaZ (n : Z) : string :=
  NilEmpty.string_of_int (Z.to_int n).

(** [errorResponse.Error]. *)
Definition errorResponse_Error (r : errorResponse.t) : string :=
  if negb (String.eqb (errorResponse.Reason r) "")
  then "(" ++ itoaZ (errorResponse.Code r) ++ ") " ++ errorResponse.Message r
       ++ ". Reason: (" ++ errorResponse.ReasonCode r ++ ") "
       ++ errorResponse.Reason r
  else "(" ++ itoaZ (errorResponse.Code r) ++ ") " ++ errorResponse.Message r.

(** [ensureMinTTL]. *)
Definition ensureMinTTL (ttl : Z) : Z :=
  if ttl <? 300 then 300 else ttl.

(** [client.call]. It returns the payload together with the error of
    [checkResponse]; every caller tests the error first and drops the
    payload when there is one, which is what [result] keeps. Each use
    is appended to the log. *)
Definition call `{Remote} (c : client) (method : string) (params : Params)
  : M Payload :=
  fun s =>
    let '(r, w) :=
      roundTrip (httpClient c) (endpointUrl c) method params (world s) in
    let s' :=
      mkState _ (provider s) w
              (log s ++ [mkCall (endpointUrl c) method params])%list in
    match r with
    | Err err => (Err err, s')
    | Ok response =>
        match checkResponse response with
        | Some err => (Err err, s')
        | None => (Ok (response.ResponseData response), s')
        end
    end.

(** [json.Unmarshal(response, &data)] as a step of a method. *)
Definition unmarshal `{Remote} {A : Type} (r : result A) : M A :=
  fun s => (r, s).

(** [client.getRecords]. *)
Definition getRecords `{Remote} (c : client) (domain : string)
  : M (list nameserverRecord.t) :=
  response <- call c "nameserver.info"
                (ParamsInfo (nameserverInfoRequest.mk domain "" "" "" 0 0%N)) ;;
  data <- unmarshal (unmarshalInfo response) ;;
  ret (nameserverInfoResponse.Records data).

(** The request [findRecords] sends. *)
Definition findRecordsRequest (record : nameserverRecord.t) (domain : string)
  (matchContent : bool) : nameserverInfoRequest.t :=
  let request :=
    nameserverInfoRequest.mk domain (nameserverRecord.Name record)
                             (nameserverRecord.Type_ record) "" 0 0%N in
  if matchContent
  then nameserverInfoRequest.mk
         (nameserverInfoRequest.Domain request)
         (nameserverInfoRequest.Name request)
         (nameserverInfoRequest.Type_ request)
         (nameserverRecord.Content record)
         (nameserverInfoRequest.TTL request)
         (nameserverInfoRequest.Priority request)
  else request.

(** [client.findRecords]. *)
Definition findRecords `{Remote} (c : client) (record : nameserverRecord.t)
  (domain : string) (matchContent : bool) : M (list nameserverRecord.t) :=
  response <- call c "nameserver.info"
                (ParamsInfo (findRecordsRequest record domain matchContent)) ;;
  data <- unmarshal (unmarshalInfo response) ;;
  ret (nameserverInfoResponse.Records data).

(** The request [createRecord] sends. *)
Definition createRecordRequest (record : nameserverRecord.t) (domain : string)
  : nameserverCreateRecordRequest.t :=
  nameserverCreateRecordRequest.mk
    domain
    (nameserverRecord.Name record)
    (nameserverRecord.Type_ record)
    (nameserverRecord.Content record)
    (ensureMinTTL (nameserverRecord.TTL record))
    (nameserverRecord.Priority record).

(** [client.createRecord]. *)
Definition createRecord `{Remote} (c : client) (record : nameserverRecord.t)
  (domain : string) : M string :=
  response <- call c "nameserver.createRecord"
                (ParamsCreateRecord (createRecordRequest record domain)) ;;
  data <- unmarshal (unmarshalCreateRecord response) ;;
  ret (nameserverCreateRecordResponse.ID data).

(** The request [updateRecord] sends. *)
Definition updateRecordRequest (record : nameserverRecord.t)
  : nameserverUpdateRecordRequest.t :=
  nameserverUpdateRecordRequest.mk
    (nameserverRecord.ID record)
    (nameserverRecord.Name record)
    (nameserverRecord.Type_ record)
    (nameserverRecord.Content record)
    (ensureMinTTL (nameserverRecord.TTL record))
    (nameserverRecord.Priority record).

(** [client.updateRecord]. *)
Definition updateRecord `{Remote} (c : client) (record : nameserverRecord.t)
  : M unit :=
  if String.eqb (nameserverRecord.ID record) ""
  then throw ErrIDNotSet
  else
    _ <- call c "nameserver.updateRecord"
           (ParamsUpdateRecord (updateRecordRequest record)) ;;
    ret tt.

(** [client.deleteRecord]. *)
Definition deleteRecord `{Remote} (c : client) (record : nameserverRecord.t)
  : M unit :=
  _ <- call c "nameserver.deleteRecord"
         (ParamsDeleteRecord
            (nameserverDeleteRecordRequest.mk (nameserverRecord.ID record))) ;;
  ret tt.

(** [client.unlock]. *)
Definition unlock `{Remote} (c : client) (tan : string) : M unit :=
  _ <- call c "account.unlock"
         (ParamsUnlock (accountUnlockRequest.mk tan)) ;;
  ret tt.

(** [client.logout]. *)
Definition logout `{Remote} (c : client) : M unit :=
  _ <- call c "account.logout" ParamsNil ;;
  ret tt.

(** [totp.GenerateCode(sharedSecret, time.Now())] as a step of a
    method. *)
Definition generateCode `{Remote} (sharedSecret : string) : M string :=
  fun s => (GenerateCode sharedSecret (world s), s).

(** [client.login]. *)
Definition login `{Remote} (c : client)
  (username password sharedSecret : string) : M unit :=
  response <- call c "account.login"
                (ParamsLogin (accountLoginRequest.mk username password)) ;;
  data <- unmarshal (unmarshalLogin response) ;;
  if String.eqb (accountLoginResponse.TFA data) "GOOGLE-AUTH"
  then
    tan <- generateCode sharedSecret ;;
    _ <- unlock c tan ;;
    ret tt
  else ret tt.

(** ** The provider of [provider.go] *)

(** [p.client = c]. *)
Definition setClient `{Remote} (c : option client) (s : State) : State :=
  mkState _
    (Provider.mk _
       (Provider.Username (provider s))
       (Provider.Password (provider s))
       (Provider.SharedSecret (provider s))
       (Provider.EndpointURL (provider s))
       c)
    (world s) (log s).

(** A read of [p.client] that is used as a receiver or returned as
    the client to work with. A nil pointer there makes the first call
    through it panic; the model raises the panic at the read. *)
Definition currentClient `{Remote} : M client :=
  fun s =>
    match Provider.client (provider s) with
    | Some c => (Ok c, s)
    | None => (Err (ErrPanic "nil pointer dereference"), s)
    end.

(** [getEndpointURL]. *)
Definition getEndpointURL `{Remote} (p : Provider.t) : string :=
  if String.eqb (Provider.EndpointURL p) ""
  then endpointURL
  else Provider.EndpointURL p.

(** [getClient]. [p.client] is assigned before the error of
    [newClient] is looked at. *)
Definition getClient `{Remote} : M client :=
  fun s =>
    match Provider.client (provider s) with
    | None =>
        let '(r, s1) := newClient (getEndpointURL (provider s)) s in
        match r with
        | Err err => (Err err, setClient None s1)
        | Ok c =>
            let s2 := setClient (Some c) s1 in
            match
              login c (Provider.Username (provider s2))
                    (Provider.Password (provider s2))
                    (Provider.SharedSecret (provider s2)) s2
            with
            | (Err err, s3) => (Err err, s3)
            | (Ok _, s3) => currentClient s3
            end
        end
    | Some _ => currentClient s
    end.

(** [removeClient]. The error [logout] returns is not looked at. *)
Definition removeClient `{Remote} : M unit :=
  fun s =>
    match Provider.client (provider s) with
    | None => (Ok tt, s)
    | Some c =>
        let '(_, s1) := logout c s in
        (Ok tt, setClient None s1)
    end.

(** The body of the loop of [GetRecords]. *)
Definition GetRecords_body `{Remote} `{LibDNS} (zone : string)
  (inwxRec : nameserverRecord.t) (results : list Record) : M (list Record) :=
  match libdnsRecord inwxRec zone with
  | Err err => throw (ErrParsing inwxRec err)
  | Ok result => ret (results ++ [result])%list
  end.

(** [GetRecords] from the test of [err] on: what runs between the
    [defer] and the deferred call. [r] is what [getClient] returned. *)
Definition GetRecords_rest `{Remote} `{LibDNS} (zone : string)
  (r : result client) : M (list Record) :=
  match r with
  | Err err => throw err
  | Ok c =>
      inwxRecords <- getRecords c (getDomain zone) ;;
      forRange inwxRecords (GetRecords_body zone) []
  end.

(** [GetRecords]. *)
Definition GetRecords `{Remote} `{LibDNS} (zone : string) : M (list Record) :=
  fun s =>
    let '(r, s1) := getClient s in
    defer removeClient (GetRecords_rest zone r) s1.

(** The body of the loop of [AppendRecords]. *)
Definition AppendRecords_body `{Remote} (c : client) (zone : string)
  (record : Record) (results : list Record) : M (list Record) :=
  _ <- createRecord c (inwxRecord record) (getDomain zone) ;;
  ret (results ++ [record])%list.

(** [AppendRecords] from the test of [err] on. *)
Definition AppendRecords_rest `{Remote} (zone : string) (records : list Record)
  (r : result client) : M (list Record) :=
  match r with
  | Err err => throw err
  | Ok c => forRange records (AppendRecords_body c zone) []
  end.

(** [AppendRecords]. *)
Definition AppendRecords `{Remote} (zone : string) (records : list Record)
  : M (list Record) :=
  fun s =>
    let '(r, s1) := getClient s in
    defer removeClient (AppendRecords_rest zone records r) s1.

(** [inwxRecord.ID = id]. *)
Definition setID (record : nameserverRecord.t) (id : string)
  : nameserverRecord.t :=
  nameserverRecord.mk id
    (nameserverRecord.Name record)
    (nameserverRecord.Type_ record)
    (nameserverRecord.Content record)
    (nameserverRecord.TTL record)
    (nameserverRecord.Priority record).

(** The body of the loop of [SetRecords]. The lookup goes through
    [p.client], the writes through the local [client]. *)
Definition SetRecords_body `{Remote} (c : client) (zone : string)
  (record : Record) (results : list Record) : M (list Record) :=
  pclient <- currentClient ;;
  matches <- findRecords pclient (inwxRecord record) (getDomain zone) false ;;
  if (List.length matches =? 0)%nat
  then
    _ <- createRecord c (inwxRecord record) (getDomain zone) ;;
    ret (results ++ [record])%list
  else if (1 <? List.length matches)%nat
  then throw (ErrMoreThanOne record)
  else
    match matches with
    | [] => throw (ErrPanic "index out of range")
    | m :: _ =>
        let inwxRecord' := setID (inwxRecord record) (nameserverRecord.ID m) in
        _ <- updateRecord c inwxRecord' ;;
        ret (results ++ [record])%list
    end.

(** [SetRecords] from the test of [err] on. *)
Definition SetRecords_rest `{Remote} (zone : string) (records : list Record)
  (r : result client) : M (list Record) :=
  match r with
  | Err err => throw err
  | Ok c => forRange records (SetRecords_body c zone) []
  end.

(** [SetRecords]. *)
Definition SetRecords `{Remote} (zone : string) (records : list Record)
  : M (list Record) :=
  fun s =>
    let '(r, s1) := getClient s in
    defer removeClient (SetRecords_rest zone records r) s1.

(** The body of the inner loop of [DeleteRecords]. *)
Definition DeleteRecords_inner `{Remote} (c : client) (record : Record)
  (inwxRec : nameserverRecord.t) (results : list Record) : M (list Record) :=
  _ <- deleteRecord c inwxRec ;;
  ret (results ++ [record])%list.

(** The body of the outer loop of [DeleteRecords]. *)
Definition DeleteRecords_body `{Remote} (c : client) (zone : string)
  (record : Record) (results : list Record) : M (list Record) :=
  pclient <- currentClient ;;
  exactMatches <- findRecords pclient (inwxRecord record) (getDomain zone) true ;;
  forRange exactMatches (DeleteRecords_inner c record) results.

(** [DeleteRecords] from the test of [err] on. *)
Definition DeleteRecords_rest `{Remote} (zone : string) (records : list Record)
  (r : result client) : M (list Record) :=
  match r with
  | Err err => throw err
  | Ok c => forRange records (DeleteRecords_body c zone) []
  end.

(** [DeleteRecords]. *)
Definition DeleteRecords `{Remote} (zone : string) (records : list Record)
  : M (list Record) :=
  fun s =>
    let '(r, s1) := getClient s in
    defer removeClient (DeleteRecords_rest zone records r) s1.

(** ** The calls an observer of the wire sees *)

(** The lookup of [findRecords] for [record] in [zone]. *)
Definition findCall `{Remote} (c : client) (zone : string) (record : Record)
  (matchContent : bool) : Call :=
  mkCall (endpointUrl c) "nameserver.info"
    (ParamsInfo
       (findRecordsRequest (inwxRecord record) (getDomain zone) matchContent)).

(** The create call for [record] in [zone]. *)
Definition createCall `{Remote} (c : client) (zone : string) (record : Record)
  : Call :=
  mkCall (endpointUrl c) "nameserver.createRecord"
    (ParamsCreateRecord
       (createRecordRequest (inwxRecord record) (getDomain zone))).

(** The update call that writes [record] over the remote record [id]. *)
Definition updateCall `{Remote} (c : client) (id : string) (record : Record)
  : Call :=
  mkCall (endpointUrl c) "nameserver.updateRecord"
    (ParamsUpdateRecord (updateRecordRequest (setID (inwxRecord record) id))).

(** The delete call for the remote record [m]. *)
Definition deleteCall `{Remote} (c : client) (m : nameserverRecord.t) : Call :=
  mkCall (endpointUrl c) "nameserver.deleteRecord"
    (ParamsDeleteRecord
       (nameserverDeleteRecordRequest.mk (nameserverRecord.ID m))).

(** The login, unlock and logout calls. *)
Definition loginCall `{Remote} (c : client) (username password : string)
  : Call :=
  mkCall (endpointUrl c) "account.login"
    (ParamsLogin (accountLoginRequest.mk username password)).

Definition unlockCall `{Remote} (c : client) (tan : string) : Call :=
  mkCall (endpointUrl c) "account.unlock"
    (ParamsUnlock (accountUnlockRequest.mk tan)).

Definition logoutCall `{Remote} (c : client) : Call :=
  mkCall (endpointUrl c) "account.logout" ParamsNil.

(** ** A reference libdns and a scripted remote

    Concrete instances of the two classes: the theorems hold for every
    instance, and these are the ones they are run on. *)

(** The white space of [strings.Fields], ASCII part. *)
Definition isSpace (c : ascii) : bool :=
  let n := nat_of_ascii c in
  ((9 <=? n) && (n <=? 13) || (n =? 32))%nat.

(** [strings.Fields]: the maximal runs of non-space characters;
    [field] is the run being read. *)
Fixpoint Fields_from (s : string) (field : string) : list string :=
  match s with
  | EmptyString => if String.eqb field "" then [] else [field]
  | String c rest =>
      if isSpace c
      then if String.eqb field ""
           then Fields_from rest ""
           else field :: Fields_from rest ""
      else Fields_from rest (field ++ String c "")
  end.

Definition Fields (s : string) : list string := Fields_from s "".

(** [strconv.ParseUint(s, 10, 16)]. *)
Definition ParseUint16 (s : string) : result N :=
  match s with
  | EmptyString => Err (ErrLibrary "invalid syntax")
  | _ =>
      match NilEmpty.uint_of_string s with
      | None => Err (ErrLibrary "invalid syntax")
      | Some d =>
          let n := N.of_uint d in
          if (n <=? 65535)%N then Ok n
          else Err (ErrLibrary "value out of range")
      end
  end.

(** [strings.Cut(s, ".")]; [before] is the part already read. *)
Fixpoint cutDot_from (s : string) (before : string) : option (string * string) :=
  match s with
  | EmptyString => None
  | String c rest =>
      if Ascii.eqb c "."%char then Some (before, rest)
      else cutDot_from rest (before ++ String c "")
  end.

(** [strings.TrimPrefix(s, "_")]. *)
Definition trimUnderscore (s : string) : string :=
  match s with
  | String c rest => if Ascii.eqb c "_"%char then rest else s
  | EmptyString => s
  end.

(** Modelled from the spec: the generic-record parser of libdns, which
    is not part of this package, "decomposes by type-specific grammar"
    and fails when the data does not match the grammar of the declared
    type. MX: two fields, "preference target". *)
Definition toMX (rr : RR.t) : result Record :=
  match Fields (RR.Data rr) with
  | [preference; target] =>
      match ParseUint16 preference with
      | Err err => Err err
      | Ok p => Ok (RecMX (MX.mk (RR.Name rr) (RR.TTL rr) p target))
      end
  | _ => Err (ErrLibrary "malformed MX value; expected: 'preference target'")
  end.

(** Modelled from the spec: SRV, four fields, "priority weight port
    target", under an owner name "_service._transport.name". *)
Definition toSRV (rr : RR.t) : result Record :=
  match Fields (RR.Data rr) with
  | [priority; weight; port; target] =>
      match ParseUint16 priority, ParseUint16 weight, ParseUint16 port with
      | Ok p, Ok w, Ok q =>
          match cutDot_from (RR.Name rr) "" with
          | Some (service, rest) =>
              match cutDot_from rest "" with
              | Some (transport, name) =>
                  Ok (RecSRV (SRV.mk (trimUnderscore service)
                                     (trimUnderscore transport)
                                     name (RR.TTL rr) p w q target))
              | None => Err (ErrLibrary "name does not contain enough fields")
              end
          | None => Err (ErrLibrary "name does not contain enough fields")
          end
      | _, _, _ => Err (ErrLibrary "invalid SRV number")
      end
  | _ =>
      Err (ErrLibrary
             "malformed SRV value; expected: 'priority weight port target'")
  end.

(** Modelled from the spec: the parser by declared type. The kinds
    the model keeps as their quadruple are returned as they are. *)
Definition referenceParse (rr : RR.t) : result Record :=
  if String.eqb (RR.Type_ rr) "MX" then toMX rr
  else if String.eqb (RR.Type_ rr) "SRV" then toSRV rr
  else Ok (RecRR rr).

(** Modelled from the spec: "reconstructs a zone-relative name by
    stripping the fully-qualified zone suffix". *)
Definition referenceRelativeName (fqdn zone : string) : string :=
  TrimSuffix (TrimSuffix fqdn zone) ".".

Definition referenceLibDNS : LibDNS :=
  {| RelativeName := referenceRelativeName;
     Parse := referenceParse |}.

(** The payloads a scripted remote answers with. *)
Inductive Json : Type :=
| JNull
| JInfo (records : list nameserverRecord.t)
| JCreated (id : string)
| JLogin (tfa : string).

(** A scripted remote: the world is the list of the answers still to
    come, one per exchange, whatever the request; a one-time code can
    be generated from every secret but the empty one. *)
Definition scriptedRemote : Remote :=
  {| World := list (result (response.t Json));
     HTTPClient := unit;
     Payload := Json;
     newHTTPClient := fun _ => Ok tt;
     roundTrip := fun _ _ _ _ w =>
       match w with
       | [] => (Err (ErrLibrary "EOF"), [])
       | r :: w' => (r, w')
       end;
     unmarshalInfo := fun p =>
       match p with
       | JInfo records => Ok (nameserverInfoResponse.mk 0 "" "" 0 records)
       | JNull => Ok (nameserverInfoResponse.mk 0 "" "" 0 [])
       | _ => Err (ErrLibrary "json: cannot unmarshal")
       end;
     unmarshalCreateRecord := fun p =>
       match p with
       | JCreated id => Ok (nameserverCreateRecordResponse.mk id)
       | JNull => Ok (nameserverCreateRecordResponse.mk "")
       | _ => Err (ErrLibrary "json: cannot unmarshal")
       end;
     unmarshalLogin := fun p =>
       match p with
       | JLogin tfa => Ok (accountLoginResponse.mk tfa)
       | JNull => Ok (accountLoginResponse.mk "")
       | _ => Err (ErrLibrary "json: cannot unmarshal")
       end;
     GenerateCode := fun secret _ =>
       if String.eqb secret ""
       then Err (ErrLibrary "Decoding of secret as base32 failed.")
       else Ok "123456" |}.

(** A successful answer (code 1000) with the given payload, and an
    answer with another status code. *)
Definition okReply (p : Json) : result (response.t Json) :=
  Ok (response.mk 1000 "Command completed successfully" "" "" p).

Definition failReply (code : Z) (msg : string) : result (response.t Json) :=
  Ok (response.mk code msg "" "" JNull).

(** The provider of the package's tests, and its client once a session
    is open. *)
Definition testProvider (c : option (@client scriptedRemote))
  : @Provider.t scriptedRemote :=
  @Provider.mk scriptedRemote "user" "secret" ""
    "https://api.ote.domrobot.com/jsonrpc/" c.

Definition testClient : @client scriptedRemote :=
  @mkClient scriptedRemote tt "https://api.ote.domrobot.com/jsonrpc/".

(** A state with no session yet, and one with the session open. *)
Definition freshState (script : list (result (response.t Json)))
  : @State scriptedRemote :=
  @mkState scriptedRemote (testProvider None) script [].

Definition openState (script : list (result (response.t Json)))
  : @State scriptedRemote :=
  @mkState scriptedRemote (testProvider (Some testClient)) script [].

(** ** The records and the zone of the package's tests *)

Definition testZone : string := "example.com.".

(** 300 seconds. *)
Definition ttl300 : Z := 300 * Second.

(** [libdns.TXT{Name: name, TTL: 300s, Text: text}] through [RR()]. *)
Definition testTXT (name text : string) : Record :=
  RecRR (RR.mk name ttl300 "TXT" text).

Definition testMX : Record :=
  RecMX (MX.mk "test_4" ttl300 10 "mx.example.com").

Definition testSRV : Record :=
  RecSRV (SRV.mk "sip" "tcp" "test_4" ttl300 0 5 5060 "sipserver.example.com").

(** An MX record handed over as a plain [libdns.RR]. *)
Definition plainMX : Record :=
  RecRR (RR.mk "mail" ttl300 "MX" "10 mx.example.com").

(** The same record as a [libdns.MX]. *)
Definition typedMX : Record :=
  RecMX (MX.mk "mail" ttl300 10 "mx.example.com").

(** A record of the remote store. *)
Definition remoteTXT (id name text : string) : nameserverRecord.t :=
  nameserverRecord.mk id name "TXT" text 300 0%N.

(** ** Scripted sessions *)

(** A fresh provider whose login will be answered without a
    second-factor challenge, and the state after [getClient] on it. *)
Definition freshSession (script : list (result (response.t Json)))
  : @State scriptedRemote :=
  freshState (okReply (JLogin "") :: script).

Definition loggedIn (script : list (result (response.t Json)))
  : @State scriptedRemote :=
  snd (@getClient scriptedRemote (freshSession script)).

(** Append: two records, both created. *)
Definition appendBatch : list Record :=
  [testTXT "test_4" "test_value_4"; testMX].

Definition appendScript : list (result (response.t Json)) :=
  [okReply (JCreated "104"); okReply (JCreated "105"); okReply JNull].

(** Append: the second create is refused. *)
Definition appendScriptRefused : list (result (response.t Json)) :=
  [okReply (JCreated "104"); failReply 2302 "Object exists"; okReply JNull].

(** List: the second record of the zone is an MX record whose content
    has a field too many. *)
Definition malformedMX : nameserverRecord.t :=
  nameserverRecord.mk "7" "test_4" "MX" "mx.example.com extra" 300 10%N.

Definition listScript : list (result (response.t Json)) :=
  [okReply (JInfo [remoteTXT "1" "test_1" "test_value_1"; malformedMX;
                   remoteTXT "3" "test_3" "test_value_3"]);
   okReply JNull].

(** Set: [test_3] exists once and is updated, [test_4] does not exist
    and is created. *)
Definition setBatch : list Record :=
  [testTXT "test_3" "test_value_3_new"; testTXT "test_4" "test_value_4"].

Definition setScript : list (result (response.t Json)) :=
  [okReply (JInfo [remoteTXT "103" "test_3" "test_value_3"]);
   okReply JNull;
   okReply (JInfo []);
   okReply (JCreated "104");
   okReply JNull].

(** Set: two records share the type and the name of the input. *)
Definition setScriptAmbiguous : list (result (response.t Json)) :=
  [okReply (JInfo [remoteTXT "103" "test_3" "test_value_3";
                   remoteTXT "107" "test_3" "another value"]);
   okReply JNull].

(** Delete: [test_3] is there twice with the same content, [test_9] is
    not there. *)
Definition deleteBatch : list Record :=
  [testTXT "test_3" "test_value_3"; testTXT "test_9" "test_value_9"].

Definition deleteScript : list (result (response.t Json)) :=
  [okReply (JInfo [remoteTXT "103" "test_3" "test_value_3";
                   remoteTXT "108" "test_3" "test_value_3"]);
   okReply JNull;
   okReply JNull;
   okReply (JInfo []);
   okReply JNull].

(** ** What the operations send *)

(** [Sends I P m]: started with a provider that satisfies [I], the
    method [m] appends to the log only calls that satisfy [P], and
    leaves the provider as it was. *)
Definition Sends `{Remote} {A : Type} (I : Provider.t -> Prop)
  (P : Call -> Prop) (m : M A) : Prop :=
  forall s : State,
    I (provider s) ->
    exists calls : list Call,
      log (snd (m s)) = (log s ++ calls)%list
      /\ Forall P calls
      /\ provider (snd (m s)) = provider s.

(** The endpoint the calls of an operation go to: the one of the
    client the provider holds, or the one a new client will get. *)
Definition sessionEndpoint `{Remote} (p : Provider.t) : string :=
  match Provider.client p with
  | Some c => endpointUrl c
  | None => getEndpointURL p
  end.

(** Two providers with the same configuration: they differ in the
    [client] field at most. *)
Definition sameConfiguration `{Remote} (p q : Provider.t) : Prop :=
  Provider.Username p = Provider.Username q
  /\ Provider.Password p = Provider.Password q
  /\ Provider.SharedSecret p = Provider.SharedSecret q
  /\ Provider.EndpointURL p = Provider.EndpointURL q.

(** The provider holds the client [c]. *)
Definition holds `{Remote} (c : client) (p : Provider.t) : Prop :=
  Provider.client p = Some c.

(** An operation as the four public methods spell it: [getClient],
    the deferred [removeClient], then the rest. *)
Definition inSession `{Remote} {A : Type} (rest : result client -> M A) : M A :=
  fun s =>
    let '(r, s1) := getClient s in
    defer removeClient (rest r) s1.

(** The call uses one of [methods]. *)
Definition usesMethods (methods : list string) (k : Call) : Prop :=
  In (callMethod k) methods.

(** A write request respects the TTL floor, and an update names the
    record it updates. *)
Definition wellFormedWrite (k : Call) : Prop :=
  match callParams k with
  | ParamsCreateRecord request =>
      300 <= nameserverCreateRecordRequest.TTL request
  | ParamsUpdateRecord request =>
      300 <= nameserverUpdateRecordRequest.TTL request
      /\ nameserverUpdateRecordRequest.ID request <> ""
  | _ => True
  end.

(** What a predicate [P] on calls must allow at the endpoint [e] for
    a method to send only calls that satisfy it. *)
Definition allowsLogin (e : string) (P : Call -> Prop) : Prop :=
  forall u p, P (mkCall e "account.login"
                   (ParamsLogin (accountLoginRequest.mk u p))).
Definition allowsUnlock (e : string) (P : Call -> Prop) : Prop :=
  forall tan, P (mkCall e "account.unlock"
                   (ParamsUnlock (accountUnlockRequest.mk tan))).
Definition allowsLogout (e : string) (P : Call -> Prop) : Prop :=
  P (mkCall e "account.logout" ParamsNil).
Definition allowsInfo (e : string) (P : Call -> Prop) : Prop :=
  forall request, P (mkCall e "nameserver.info" (ParamsInfo request)).
Definition allowsCreate (e : string) (P : Call -> Prop) : Prop :=
  forall record domain,
    P (mkCall e "nameserver.createRecord"
         (ParamsCreateRecord (createRecordRequest record domain))).
Definition allowsUpdate (e : string) (P : Call -> Prop) : Prop :=
  forall record,
    nameserverRecord.ID record <> "" ->
    P (mkCall e "nameserver.updateRecord"
         (ParamsUpdateRecord (updateRecordRequest record))).
Definition allowsDelete (e : string) (P : Call -> Prop) : Prop :=
  forall id,
    P (mkCall e "nameserver.deleteRecord"
         (ParamsDeleteRecord (nameserverDeleteRecordRequest.mk id))).

(** The write [SetRecords] makes for [record]: its create call, or
    an update call under some id. *)
Definition setWrite `{Remote} (c : client) (zone : string) (record : Record)
  (w : Call) : Prop :=
  w = createCall c zone record
  \/ exists id : string, id <> "" /\ w = updateCall c id record.

(** The calls of a [SetRecords] batch that runs to its end: for each
    record its lookup, then its write. *)
Definition setCalls `{Remote} (c : client) (zone : string)
  (records : list Record) (writes : list Call) : list Call :=
  concat (map (fun rw => [findCall c zone (fst rw) false; snd rw])
              (combine records writes)).

(** The calls of a [DeleteRecords] batch that runs to its end: for
    each record its lookup, then the delete calls of what was found. *)
Definition deleteCalls `{Remote} (c : client) (zone : string)
  (records : list Record) (found : list (list nameserverRecord.t))
  : list Call :=
  concat (map (fun rm => findCall c zone (fst rm) true
                           :: map (deleteCall c) (snd rm))
              (combine records found)).

(** What such a batch returns: each record once per record found. *)
Definition deleteResults (records : list Record)
  (found : list (list nameserverRecord.t)) : list Record :=
  concat (map (fun rm => repeat (fst rm) (List.length (snd rm)))
              (combine records found)).

(** [SendsAtMost n m]: from any state, the method [m] appends at most
    [n] calls to the log. *)
Definition SendsAtMost `{Remote} {A : Type} (n : nat) (m : M A) : Prop :=
  forall s : State,
    exists calls : list Call,
      log (snd (m s)) = (log s ++ calls)%list
      /\ (List.length calls <= n)%nat.

(** ** More scripted sessions *)

(** A remote on which no HTTP client can be made: [cookiejar.New]
    fails. Nothing else is ever asked of it. *)
Definition jarlessRemote : Remote :=
  {| World := unit;
     HTTPClient := unit;
     Payload := Json;
     newHTTPClient := fun _ => Err (ErrLibrary "cookiejar: no jar");
     roundTrip := fun _ _ _ _ w => (Err (ErrLibrary "EOF"), w);
     unmarshalInfo := fun _ => Err (ErrLibrary "json: cannot unmarshal");
     unmarshalCreateRecord := fun _ => Err (ErrLibrary "json: cannot unmarshal");
     unmarshalLogin := fun _ => Err (ErrLibrary "json: cannot unmarshal");
     GenerateCode := fun _ _ => Err (ErrLibrary "no code") |}.

Definition jarlessState : @State jarlessRemote :=
  @mkState jarlessRemote
    (@Provider.mk jarlessRemote "user" "secret" "" "" None) tt [].

(** The login is refused; the logout is answered. *)
Definition loginRefusedScript : list (result (response.t Json)) :=
  [failReply 2200 "Authentication error"; okReply JNull].

(** Set: the lookup of the first record fails. *)
Definition setScriptLookupFails : list (result (response.t Json)) :=
  [failReply 2400 "Command failed"; okReply JNull].

(** Delete: [test_3] is there twice; the first delete is accepted,
    the second is refused. *)
Definition deleteScriptSecondRefused : list (result (response.t Json)) :=
  [okReply (JInfo [remoteTXT "103" "test_3" "test_value_3";
                   remoteTXT "108" "test_3" "test_value_3"]);
   okReply JNull;
   failReply 2303 "Object does not exist";
   okReply JNull].

(** Delete of a TXT record with empty text, on a zone that holds two
    TXT records with other contents under that name. *)
Definition emptyTXT : Record := testTXT "test_3" "".

Definition emptyContentScript : list (result (response.t Json)) :=
  [okReply (JInfo [remoteTXT "103" "test_3" "test_value_3";
                   remoteTXT "107" "test_3" "another value"]);
   okReply JNull;
   okReply JNull].

(** ** The answers of the remote

    What the remote answers is not the package's to decide. The
    theorems about a batch say what the package does for given
    answers; these definitions name the answers. *)

(** The remote accepts the create calls of [records], sent one after
    the other from [s]. *)
Fixpoint createsAccepted `{Remote} (c : client) (zone : string)
  (records : list Record) (s : State) : bool :=
  match records with
  | [] => true
  | record :: rest =>
      is_ok (fst (createRecord c (inwxRecord record) (getDomain zone) s))
      && createsAccepted c zone rest
           (snd (createRecord c (inwxRecord record) (getDomain zone) s))
  end.

(** The state once these calls have been answered. *)
Fixpoint afterCreates `{Remote} (c : client) (zone : string)
  (records : list Record) (s : State) : State :=
  match records with
  | [] => s
  | record :: rest =>
      afterCreates c zone rest
        (snd (createRecord c (inwxRecord record) (getDomain zone) s))
  end.

(** The remote accepts the delete calls of [matches], sent one after
    the other from [s]. *)
Fixpoint deletesAccepted `{Remote} (c : client)
  (matches : list nameserverRecord.t) (s : State) : bool :=
  match matches with
  | [] => true
  | m :: rest =>
      is_ok (fst (deleteRecord c m s))
      && deletesAccepted c rest (snd (deleteRecord c m s))
  end.

(** The state once these calls have been answered. *)
Fixpoint afterDeletes `{Remote} (c : client)
  (matches : list nameserverRecord.t) (s : State) : State :=
  match matches with
  | [] => s
  | m :: rest => afterDeletes c rest (snd (deleteRecord c m s))
  end.

(** The filter of a remote that honours a lookup request: a record
    passes when it agrees with the request in every field the request
    carries. Every field of [nameserverInfoRequest] is [omitempty], so
    a field at its zero value is not in the JSON and filters nothing. *)
Definition satisfiesInfoRequest (request : nameserverInfoRequest.t)
  (x : nameserverRecord.t) : bool :=
  (String.eqb (nameserverInfoRequest.Name request) ""
   || String.eqb (nameserverInfoRequest.Name request) (nameserverRecord.Name x))
  && (String.eqb (nameserverInfoRequest.Type_ request) ""
      || String.eqb (nameserverInfoRequest.Type_ request)
           (nameserverRecord.Type_ x))
  && (String.eqb (nameserverInfoRequest.Content request) ""
      || String.eqb (nameserverInfoRequest.Content request)
           (nameserverRecord.Content x))
  && ((nameserverInfoRequest.TTL request =? 0)
      || (nameserverInfoRequest.TTL request =? nameserverRecord.TTL x))
  && ((nameserverInfoRequest.Priority request =? 0)%N
      || (nameserverInfoRequest.Priority request
          =? nameserverRecord.Priority x)%N).

(** [x] has the type, the name and the content of [record]. *)
Definition exactMatch (record x : nameserverRecord.t) : bool :=
  String.eqb (nameserverRecord.Type_ record) (nameserverRecord.Type_ x)
  && String.eqb (nameserverRecord.Name record) (nameserverRecord.Name x)
  && String.eqb (nameserverRecord.Content record) (nameserverRecord.Content x).

(** A [DeleteRecords] batch whose lookups and delete calls the remote
    all accepts: [found] holds, for each record in turn, what its
    lookup by type, name and content returned at the point where the
    records before it had been handled; the batch runs from [s] to
    [s']. *)
Inductive deleteTrace `{Remote} (c : client) (zone : string)
  : list Record -> State -> list (list nameserverRecord.t) -> State -> Prop :=
| deleteTrace_nil (s : State) : deleteTrace c zone [] s [] s
| deleteTrace_cons (record : Record) (rest : list Record) (s : State)
    (matches : list nameserverRecord.t) (s_found : State)
    (found : list (list nameserverRecord.t)) (s' : State) :
    findRecords c (inwxRecord record) (getDomain zone) true s
    = (Ok matches, s_found) ->
    deletesAccepted c matches s_found = true ->
    deleteTrace c zone rest (afterDeletes c matches s_found) found s' ->
    deleteTrace c zone (record :: rest) s (matches :: found) s'.

(** ** A remote that keeps a zone

    The world is the list of the records of the zone. A lookup is
    answered with the records that satisfy the request, a delete call
    removes the record of that id and is refused when there is none,
    and every other call is acknowledged and changes nothing. *)
Definition zoneRoundTrip (method : string) (params : Params)
  (zone : list nameserverRecord.t)
  : result (response.t Json) * list nameserverRecord.t :=
  match params with
  | ParamsInfo request =>
      (okReply (JInfo (filter (satisfiesInfoRequest request) zone)), zone)
  | ParamsDeleteRecord request =>
      let id := nameserverDeleteRecordRequest.ID request in
      if existsb (fun x => String.eqb (nameserverRecord.ID x) id) zone
      then (okReply JNull,
            filter (fun x => negb (String.eqb (nameserverRecord.ID x) id)) zone)
      else (failReply 2303 "Object does not exist", zone)
  | _ => (okReply JNull, zone)
  end.

Definition zoneRemote : Remote :=
  {| World := list nameserverRecord.t;
     HTTPClient := unit;
     Payload := Json;
     newHTTPClient := fun _ => Ok tt;
     roundTrip := fun _ _ method params zone => zoneRoundTrip method params zone;
     unmarshalInfo := @unmarshalInfo scriptedRemote;
     unmarshalCreateRecord := @unmarshalCreateRecord scriptedRemote;
     unmarshalLogin := @unmarshalLogin scriptedRemote;
     GenerateCode := fun _ _ => Ok "123456" |}.

Definition zoneClient : @client zoneRemote :=
  @mkClient zoneRemote tt "https://api.ote.domrobot.com/jsonrpc/".

(** A provider without a session in front of the zone, and the state
    after [getClient] on it. *)
Definition zoneState (zone : list nameserverRecord.t) : @State zoneRemote :=
  @mkState zoneRemote
    (@Provider.mk zoneRemote "user" "secret" ""
       "https://api.ote.domrobot.com/jsonrpc/" None)
    zone [].

Definition zoneSession (zone : list nameserverRecord.t) : @State zoneRemote :=
  snd (@getClient zoneRemote (zoneState zone)).

(** A zone that holds [test_3] four times, three times with the same
    content, and [test_1] once. *)
Definition duplicatesZone : list nameserverRecord.t :=
  [remoteTXT "101" "test_1" "test_value_1";
   remoteTXT "103" "test_3" "test_value_3";
   remoteTXT "107" "test_3" "another value";
   remoteTXT "108" "test_3" "test_value_3";
   remoteTXT "109" "test_3" "test_value_3"].

(** A zone that holds [test_3] twice, never with empty content. *)
Definition otherContentsZone : list nameserverRecord.t :=
  [remoteTXT "103" "test_3" "test_value_3";
   remoteTXT "107" "test_3" "another value"].

(** Append: three records, all created. *)
Definition appendBatch3 : list Record :=
  [testTXT "test_4" "test_value_4"; testMX; testSRV].

Definition appendScript3 : list (result (response.t Json)) :=
  [okReply (JCreated "104"); okReply (JCreated "105");
   okReply (JCreated "106"); okReply JNull].

(** * Properties *)

(** ** The client *)

Section ClientFacts.
Context `{R : Remote}.

Lemma bind_run {A B : Type} (m : M A) (f : A -> M B) (s : State) :
  bind m f s =
  match m s with
  | (Ok a, s') => f a s'
  | (Err e, s') => (Err e, s')
  end.
Proof. reflexivity. Qed.

Lemma checkResponse_in_band {P : Type} (r : response.t P) :
  1000 <= response.Code r <= 1500 -> checkResponse r = None.
Proof.
  intros [Hlo Hhi]. unfold checkResponse.
  apply Z.leb_le in Hlo. apply Z.leb_le in Hhi.
  now rewrite Hlo, Hhi.
Qed.

Lemma checkResponse_out_of_band {P : Type} (r : response.t P) :
  ~ 1000 <= response.Code r <= 1500 ->
  checkResponse r =
  Some (ErrResponse
          (errorResponse.mk (response.Code r) (response.Message r)
                            (response.ReasonCode r) (response.Reason r))).
Proof.
  intros Hout. unfold checkResponse.
  destruct (1000 <=? response.Code r) eqn:Hlo;
    destruct (response.Code r <=? 1500) eqn:Hhi; simpl; try reflexivity.
  exfalso. apply Hout. split; [now apply Z.leb_le | now apply Z.leb_le].
Qed.

(** What [call] does to the state: the world moves as the exchange
    says, the provider is untouched, the log grows by this call. *)
Lemma call_state (c : client) (method : string) (params : Params) (s : State) :
  snd (call c method params s) =
  mkState _ (provider s)
    (snd (roundTrip (httpClient c) (endpointUrl c) method params (world s)))
    (log s ++ [mkCall (endpointUrl c) method params]).
Proof.
  unfold call.
  destruct (roundTrip (httpClient c) (endpointUrl c) method params (world s))
    as [[resp | err] w]; simpl; [destruct (checkResponse resp) |]; reflexivity.
Qed.

Lemma call_log (c : client) (method : string) (params : Params) (s : State) :
  log (snd (call c method params s)) =
  (log s ++ [mkCall (endpointUrl c) method params])%list.
Proof. now rewrite call_state. Qed.

Lemma call_provider (c : client) (method : string) (params : Params)
  (s : State) :
  provider (snd (call c method params s)) = provider s.
Proof. now rewrite call_state. Qed.

Lemma findRecords_state (c : client) (record : nameserverRecord.t)
  (domain : string) (matchContent : bool) (s : State) :
  snd (findRecords c record domain matchContent s) =
  snd (call c "nameserver.info"
         (ParamsInfo (findRecordsRequest record domain matchContent)) s).
Proof.
  unfold findRecords. rewrite bind_run.
  destruct (call _ _ _ s) as [[p | e] s']; [| reflexivity].
  unfold bind, unmarshal, ret; simpl.
  destruct (unmarshalInfo p); reflexivity.
Qed.

Lemma createRecord_state (c : client) (record : nameserverRecord.t)
  (domain : string) (s : State) :
  snd (createRecord c record domain s) =
  snd (call c "nameserver.createRecord"
         (ParamsCreateRecord (createRecordRequest record domain)) s).
Proof.
  unfold createRecord. rewrite bind_run.
  destruct (call _ _ _ s) as [[p | e] s']; [| reflexivity].
  unfold bind, unmarshal, ret; simpl.
  destruct (unmarshalCreateRecord p); reflexivity.
Qed.

Lemma updateRecord_state (c : client) (record : nameserverRecord.t)
  (s : State) :
  nameserverRecord.ID record <> "" ->
  snd (updateRecord c record s) =
  snd (call c "nameserver.updateRecord"
         (ParamsUpdateRecord (updateRecordRequest record)) s).
Proof.
  intros Hid. unfold updateRecord.
  destruct (String.eqb_spec (nameserverRecord.ID record) "") as [E | _];
    [contradiction |].
  rewrite bind_run.
  destruct (call _ _ _ s) as [[p | e] s']; reflexivity.
Qed.

Lemma updateRecord_result (c : client) (record : nameserverRecord.t)
  (s : State) :
  nameserverRecord.ID record <> "" ->
  fst (updateRecord c record s) =
  match fst (call c "nameserver.updateRecord"
               (ParamsUpdateRecord (updateRecordRequest record)) s) with
  | Ok _ => Ok tt
  | Err err => Err err
  end.
Proof.
  intros Hid. unfold updateRecord.
  destruct (String.eqb_spec (nameserverRecord.ID record) "") as [E | _];
    [contradiction |].
  rewrite bind_run.
  destruct (call _ _ _ s) as [[p | e] s']; reflexivity.
Qed.

Lemma updateRecord_without_id (c : client) (record : nameserverRecord.t)
  (s : State) :
  nameserverRecord.ID record = "" ->
  updateRecord c record s = (Err ErrIDNotSet, s).
Proof.
  intros Hid. unfold updateRecord. now rewrite Hid.
Qed.

Lemma deleteRecord_state (c : client) (record : nameserverRecord.t)
  (s : State) :
  snd (deleteRecord c record s) =
  snd (call c "nameserver.deleteRecord"
         (ParamsDeleteRecord
            (nameserverDeleteRecordRequest.mk (nameserverRecord.ID record)))
         s).
Proof.
  unfold deleteRecord. rewrite bind_run.
  destruct (call _ _ _ s) as [[p | e] s']; reflexivity.
Qed.

Lemma unlock_state (c : client) (tan : string) (s : State) :
  snd (unlock c tan s) =
  snd (call c "account.unlock"
         (ParamsUnlock (accountUnlockRequest.mk tan)) s).
Proof.
  unfold unlock. rewrite bind_run.
  destruct (call _ _ _ s) as [[p | e] s']; reflexivity.
Qed.

Lemma logout_state (c : client) (s : State) :
  snd (logout c s) = snd (call c "account.logout" ParamsNil s).
Proof.
  unfold logout. rewrite bind_run.
  destruct (call _ _ _ s) as [[p | e] s']; reflexivity.
Qed.

Lemma ensureMinTTL_below (ttl : Z) : ttl < 300 -> ensureMinTTL ttl = 300.
Proof.
  intros H. unfold ensureMinTTL.
  apply Z.ltb_lt in H. now rewrite H.
Qed.

Lemma ensureMinTTL_from (ttl : Z) : 300 <= ttl -> ensureMinTTL ttl = ttl.
Proof.
  intros H. unfold ensureMinTTL.
  destruct (Z.ltb_spec ttl 300); [lia | reflexivity].
Qed.

(** C5. Whenever the exchange of [call] produces a response, [call]
    succeeds exactly when the status code lies in the band from 1000 to
    1500, both ends included, and then returns the payload; with any
    other code it returns the error that carries the code, the message,
    the reason code and the reason of the response as they came. *)
Theorem call_status_band (c : client) (method : string) (params : Params)
  (s : State) (r : response.t Payload) (w : World) :
  roundTrip (httpClient c) (endpointUrl c) method params (world s) = (Ok r, w) ->
  (is_ok (fst (call c method params s)) = true
   <-> 1000 <= response.Code r <= 1500)
  /\ (1000 <= response.Code r <= 1500 ->
      fst (call c method params s) = Ok (response.ResponseData r))
  /\ (~ 1000 <= response.Code r <= 1500 ->
      fst (call c method params s) =
      Err (ErrResponse
             (errorResponse.mk (response.Code r) (response.Message r)
                               (response.ReasonCode r) (response.Reason r)))).
Proof.
  intros Hrt.
  assert (Hin : 1000 <= response.Code r <= 1500 ->
                fst (call c method params s) = Ok (response.ResponseData r)).
  { intros Hband. unfold call. rewrite Hrt.
    now rewrite (checkResponse_in_band r Hband). }
  assert (Hout : ~ 1000 <= response.Code r <= 1500 ->
                 fst (call c method params s) =
                 Err (ErrResponse
                        (errorResponse.mk (response.Code r)
                           (response.Message r) (response.ReasonCode r)
                           (response.Reason r)))).
  { intros Hband. unfold call. rewrite Hrt.
    now rewrite (checkResponse_out_of_band r Hband). }
  split; [| split; assumption].
  split.
  - intros Hok.
    destruct (Z_le_dec 1000 (response.Code r)) as [Hlo | Hlo];
      destruct (Z_le_dec (response.Code r) 1500) as [Hhi | Hhi];
      try (split; assumption);
      rewrite Hout in Hok by lia; discriminate.
  - intros Hband. now rewrite (Hin Hband).
Qed.

(** C4. The request [createRecord] sends and, for a record with an id,
    the request [updateRecord] sends carry a TTL of exactly 300 when the
    record asks for less than 300 seconds, and the TTL of the record
    unchanged when it asks for 300 or more. *)
Theorem write_request_ttl_floor (c : client) (record : nameserverRecord.t)
  (domain : string) (s : State) :
  (exists request,
      log (snd (createRecord c record domain s)) =
      (log s ++ [mkCall (endpointUrl c) "nameserver.createRecord"
                        (ParamsCreateRecord request)])%list
      /\ (nameserverRecord.TTL record < 300 ->
          nameserverCreateRecordRequest.TTL request = 300)
      /\ (300 <= nameserverRecord.TTL record ->
          nameserverCreateRecordRequest.TTL request =
          nameserverRecord.TTL record))
  /\ (nameserverRecord.ID record <> "" ->
      exists request,
        log (snd (updateRecord c record s)) =
        (log s ++ [mkCall (endpointUrl c) "nameserver.updateRecord"
                          (ParamsUpdateRecord request)])%list
        /\ (nameserverRecord.TTL record < 300 ->
            nameserverUpdateRecordRequest.TTL request = 300)
        /\ (300 <= nameserverRecord.TTL record ->
            nameserverUpdateRecordRequest.TTL request =
            nameserverRecord.TTL record)).
Proof.
  split.
  - exists (createRecordRequest record domain). split; [| split].
    + now rewrite createRecord_state, call_log.
    + apply ensureMinTTL_below.
    + apply ensureMinTTL_from.
  - intros Hid. exists (updateRecordRequest record). split; [| split].
    + now rewrite (updateRecord_state c record s Hid), call_log.
    + apply ensureMinTTL_below.
    + apply ensureMinTTL_from.
Qed.

(** C10. [updateRecord] on a record whose id is the empty string
    returns an error and leaves the state as it was: no call is made.
    On a record with an id it makes the update call, which carries that
    id, and returns what the call returned. So no update call ever goes
    out with an empty id. *)
Theorem updateRecord_id_guard (c : client) (record : nameserverRecord.t)
  (s : State) :
  (nameserverRecord.ID record = "" ->
   updateRecord c record s = (Err ErrIDNotSet, s))
  /\ (nameserverRecord.ID record <> "" ->
      log (snd (updateRecord c record s)) =
      (log s ++ [mkCall (endpointUrl c) "nameserver.updateRecord"
                        (ParamsUpdateRecord (updateRecordRequest record))])%list
      /\ nameserverUpdateRecordRequest.ID (updateRecordRequest record) =
         nameserverRecord.ID record
      /\ fst (updateRecord c record s) =
         match fst (call c "nameserver.updateRecord"
                      (ParamsUpdateRecord (updateRecordRequest record)) s) with
         | Ok _ => Ok tt
         | Err err => Err err
         end)
  /\ (forall (endpoint method : string)
             (request : nameserverUpdateRecordRequest.t),
         log (snd (updateRecord c record s)) =
         (log s ++ [mkCall endpoint method (ParamsUpdateRecord request)])%list ->
         nameserverUpdateRecordRequest.ID request <> "").
Proof.
  split; [| split].
  - apply updateRecord_without_id.
  - intros Hid. split; [| split].
    + now rewrite (updateRecord_state c record s Hid), call_log.
    + reflexivity.
    + now apply updateRecord_result.
  - intros endpoint method request Hlog.
    destruct (string_dec (nameserverRecord.ID record) "") as [Hid | Hid].
    + rewrite (updateRecord_without_id c record s Hid) in Hlog. simpl in Hlog.
      rewrite <- (app_nil_r (log s)) in Hlog at 1.
      apply app_inv_head in Hlog. discriminate.
    + rewrite (updateRecord_state c record s Hid), call_log in Hlog.
      apply app_inv_head in Hlog. inversion Hlog; subst. exact Hid.
Qed.

End ClientFacts.

(** ** The session *)

Section SessionFacts.
Context `{R : Remote}.

(** [login], step by step. *)
Lemma login_run (c : client) (username password sharedSecret : string)
  (s : State) :
  login c username password sharedSecret s =
  match call c "account.login"
          (ParamsLogin (accountLoginRequest.mk username password)) s with
  | (Err err, s1) => (Err err, s1)
  | (Ok payload, s1) =>
      match unmarshalLogin payload with
      | Err err => (Err err, s1)
      | Ok data =>
          if String.eqb (accountLoginResponse.TFA data) "GOOGLE-AUTH"
          then match GenerateCode sharedSecret (world s1) with
               | Err err => (Err err, s1)
               | Ok tan => unlock c tan s1
               end
          else (Ok tt, s1)
      end
  end.
Proof.
  unfold login. rewrite bind_run.
  destruct (call c "account.login" _ s) as [[payload | err] s1];
    [| reflexivity].
  unfold unmarshal. rewrite bind_run.
  destruct (unmarshalLogin payload) as [data | err]; [| reflexivity].
  destruct (String.eqb (accountLoginResponse.TFA data) "GOOGLE-AUTH");
    [| reflexivity].
  unfold generateCode. rewrite bind_run.
  destruct (GenerateCode sharedSecret (world s1)) as [tan | err];
    [| reflexivity].
  rewrite bind_run.
  destruct (unlock c tan s1) as [[[] | err] s2]; reflexivity.
Qed.

Lemma login_provider (c : client) (username password sharedSecret : string)
  (s : State) :
  provider (snd (login c username password sharedSecret s)) = provider s.
Proof.
  rewrite login_run.
  pose proof (call_provider c "account.login"
                (ParamsLogin (accountLoginRequest.mk username password)) s)
    as Hcall.
  destruct (call c "account.login" _ s) as [[payload | err] s1];
    simpl in Hcall; [| exact Hcall].
  destruct (unmarshalLogin payload) as [data | err]; [| exact Hcall].
  destruct (String.eqb (accountLoginResponse.TFA data) "GOOGLE-AUTH");
    [| exact Hcall].
  destruct (GenerateCode sharedSecret (world s1)) as [tan | err];
    [| exact Hcall].
  now rewrite unlock_state, call_provider.
Qed.

(** C7. [login] always starts with the login call, which carries the
    user name and the password. If that call fails (the credentials
    are rejected), [login] fails with its error and nothing else is
    sent. If the response does not ask for a second factor, [login]
    succeeds with that one call. If it does, a one-time code is
    generated from the shared secret: when the generation fails,
    [login] fails with that error and no unlock call is made; when it
    succeeds, the unlock call with the code follows, and [login]
    returns what the unlock returned. *)
Theorem login_second_factor (c : client)
  (username password sharedSecret : string) (s : State) :
  let first :=
    call c "account.login"
      (ParamsLogin (accountLoginRequest.mk username password)) s in
  let s1 := snd first in
  log s1 = (log s ++ [loginCall c username password])%list
  /\ (forall err,
         fst first = Err err ->
         login c username password sharedSecret s = (Err err, s1))
  /\ (forall payload err,
         fst first = Ok payload ->
         unmarshalLogin payload = Err err ->
         login c username password sharedSecret s = (Err err, s1))
  /\ (forall payload data,
         fst first = Ok payload ->
         unmarshalLogin payload = Ok data ->
         (accountLoginResponse.TFA data <> "GOOGLE-AUTH" ->
          login c username password sharedSecret s = (Ok tt, s1))
         /\ (accountLoginResponse.TFA data = "GOOGLE-AUTH" ->
             (forall err,
                 GenerateCode sharedSecret (world s1) = Err err ->
                 login c username password sharedSecret s = (Err err, s1))
             /\ (forall tan,
                    GenerateCode sharedSecret (world s1) = Ok tan ->
                    login c username password sharedSecret s = unlock c tan s1
                    /\ log (snd (login c username password sharedSecret s)) =
                       (log s ++ [loginCall c username password;
                                  unlockCall c tan])%list))).
Proof.
  intros first s1. subst s1 first.
  assert (Hlog : log (snd (call c "account.login"
                   (ParamsLogin (accountLoginRequest.mk username password)) s))
                 = (log s ++ [loginCall c username password])%list)
    by apply call_log.
  split; [exact Hlog |].
  rewrite login_run.
  destruct (call c "account.login" _ s) as [[payload | err] s1] eqn:Hcall;
    simpl in *.
  - split; [intros err Herr; discriminate |].
    split.
    + intros payload' err Hp Hun. inversion Hp; subst payload'.
      now rewrite Hun.
    + intros payload' data Hp Hun. inversion Hp; subst payload'.
      rewrite Hun. split.
      * intros Htfa.
        destruct (String.eqb_spec (accountLoginResponse.TFA data)
                    "GOOGLE-AUTH") as [E | _]; [contradiction | reflexivity].
      * intros Htfa. rewrite Htfa, String.eqb_refl. split.
        -- intros err Hgen. now rewrite Hgen.
        -- intros tan Hgen. rewrite Hgen. split; [reflexivity |].
           rewrite unlock_state, call_log, Hlog.
           now rewrite <- app_assoc.
  - split; [intros err' Herr; inversion Herr; reflexivity |].
    split.
    + intros payload err' Hp; discriminate.
    + intros payload data Hp; discriminate.
Qed.

Lemma currentClient_run (c : client) (s : State) :
  Provider.client (provider s) = Some c -> currentClient s = (Ok c, s).
Proof. intros H. unfold currentClient. now rewrite H. Qed.

(** When [getClient] succeeds, the client it returns is the one stored
    in the provider. *)
Lemma getClient_stores (c : client) (s s1 : State) :
  getClient s = (Ok c, s1) -> Provider.client (provider s1) = Some c.
Proof.
  unfold getClient, currentClient.
  destruct (Provider.client (provider s)) as [c0 | ] eqn:Hc.
  - intros H. inversion H; subst. exact Hc.
  - unfold newClient.
    destruct (newHTTPClient (world s)) as [h | err]; [| discriminate].
    pose proof (login_provider (mkClient _ h (getEndpointURL (provider s)))
                  (Provider.Username (provider s))
                  (Provider.Password (provider s))
                  (Provider.SharedSecret (provider s))
                  (setClient (Some (mkClient _ h (getEndpointURL (provider s)))) s))
      as Hprov.
    cbn [setClient provider Provider.Username Provider.Password
         Provider.SharedSecret] in *.
    destruct (login _ _ _ _ _) as [[[] | err] s3]; [| discriminate].
    simpl in Hprov. rewrite Hprov. simpl.
    intros H. inversion H; subst. rewrite Hprov. reflexivity.
Qed.

(** [removeClient] never fails, whatever [logout] returned, and leaves
    no client behind. *)
Lemma removeClient_ok (s : State) : fst (removeClient s) = Ok tt.
Proof.
  unfold removeClient.
  destruct (Provider.client (provider s)); [| reflexivity].
  destruct (logout c s); reflexivity.
Qed.

Lemma removeClient_clears (s : State) :
  Provider.client (provider (snd (removeClient s))) = None.
Proof.
  unfold removeClient.
  destruct (Provider.client (provider s)) eqn:Hc; [| exact Hc].
  destruct (logout c s); reflexivity.
Qed.

Lemma removeClient_run (c : client) (s : State) :
  Provider.client (provider s) = Some c ->
  removeClient s = (Ok tt, setClient None (snd (logout c s))).
Proof.
  intros Hc. unfold removeClient. rewrite Hc.
  destruct (logout c s); reflexivity.
Qed.

Lemma removeClient_log (c : client) (s : State) :
  Provider.client (provider s) = Some c ->
  log (snd (removeClient s)) = (log s ++ [logoutCall c])%list.
Proof.
  intros Hc. rewrite (removeClient_run c s Hc). simpl.
  now rewrite logout_state, call_log.
Qed.

End SessionFacts.

(** ** The loops *)

Section LoopFacts.
Context `{R : Remote}.

Lemma forRange_cons {A B : Type} (x : A) (xs : list A)
  (body : A -> B -> M B) (acc : B) (s : State) :
  forRange (x :: xs) body acc s =
  match body x acc s with
  | (Ok acc', s') => forRange xs body acc' s'
  | (Err e, s') => (Err e, s')
  end.
Proof. reflexivity. Qed.

(** A loop over [xs ++ ys] is the loop over [xs], then, unless it
    returned early, the loop over [ys] from where it ended. *)
Lemma forRange_app {A B : Type} (xs ys : list A) (body : A -> B -> M B)
  (acc : B) (s : State) :
  forRange (xs ++ ys) body acc s =
  match forRange xs body acc s with
  | (Ok acc', s') => forRange ys body acc' s'
  | (Err e, s') => (Err e, s')
  end.
Proof.
  revert acc s. induction xs as [| x xs IH]; intros acc s.
  - reflexivity.
  - rewrite <- app_comm_cons, !forRange_cons.
    destruct (body x acc s) as [[acc' | e] s']; [apply IH | reflexivity].
Qed.

(** A loop whose body keeps the provider keeps the provider. *)
Lemma forRange_provider {A B : Type} (xs : list A) (body : A -> B -> M B) :
  (forall x acc s, provider (snd (body x acc s)) = provider s) ->
  forall acc s, provider (snd (forRange xs body acc s)) = provider s.
Proof.
  intros Hbody. induction xs as [| x xs IH]; intros acc s.
  - reflexivity.
  - rewrite forRange_cons. specialize (Hbody x acc s).
    destruct (body x acc s) as [[acc' | e] s']; simpl in Hbody.
    + now rewrite IH.
    + exact Hbody.
Qed.

(** *** [AppendRecords] *)

Lemma AppendRecords_body_run (c : client) (zone : string) (record : Record)
  (results : list Record) (s : State) :
  AppendRecords_body c zone record results s =
  (match fst (createRecord c (inwxRecord record) (getDomain zone) s) with
   | Ok _ => Ok (results ++ [record])%list
   | Err err => Err err
   end,
   snd (createRecord c (inwxRecord record) (getDomain zone) s)).
Proof.
  unfold AppendRecords_body. rewrite bind_run.
  destruct (createRecord c (inwxRecord record) (getDomain zone) s)
    as [[id | err] s']; reflexivity.
Qed.

Lemma AppendRecords_body_log (c : client) (zone : string) (record : Record)
  (results : list Record) (s : State) :
  log (snd (AppendRecords_body c zone record results s)) =
  (log s ++ [createCall c zone record])%list.
Proof.
  rewrite AppendRecords_body_run. simpl.
  now rewrite createRecord_state, call_log.
Qed.

Lemma AppendRecords_body_provider (c : client) (zone : string)
  (record : Record) (results : list Record) (s : State) :
  provider (snd (AppendRecords_body c zone record results s)) = provider s.
Proof.
  rewrite AppendRecords_body_run. simpl.
  now rewrite createRecord_state, call_provider.
Qed.

(** The loop of [AppendRecords] sends the create calls of a prefix of
    the records, in order, and nothing else; it returns a list only
    after the whole batch, and that list is the input appended to the
    initial one. *)
Lemma AppendRecords_loop (c : client) (zone : string) (records : list Record) :
  forall (results : list Record) (s : State),
  exists n : nat,
    (n <= List.length records)%nat
    /\ log (snd (forRange records (AppendRecords_body c zone) results s)) =
       (log s ++ map (createCall c zone) (firstn n records))%list
    /\ (forall out,
           fst (forRange records (AppendRecords_body c zone) results s) = Ok out ->
           n = List.length records /\ out = (results ++ records)%list).
Proof.
  induction records as [| record rest IH]; intros results s.
  - exists 0%nat. simpl. split; [lia |]. split.
    + now rewrite app_nil_r.
    + intros out H. inversion H. now rewrite app_nil_r.
  - rewrite forRange_cons.
    pose proof (AppendRecords_body_log c zone record results s) as Hlog.
    pose proof (AppendRecords_body_run c zone record results s) as Hrun.
    destruct (AppendRecords_body c zone record results s) as [[acc | e] s'].
    + destruct (IH acc s') as (n & Hn & Hl & Hout).
      exists (S n). simpl in *. split; [lia |]. split.
      * rewrite Hl, Hlog. now rewrite <- app_assoc.
      * intros out H. destruct (Hout out H) as [-> ->]. split; [reflexivity |].
        destruct (fst (createRecord c (inwxRecord record) (getDomain zone) s));
          inversion Hrun; subst.
        now rewrite <- app_assoc.
    + exists 1%nat. simpl in *. split; [lia |]. split.
      * exact Hlog.
      * intros out H. discriminate.
Qed.

(** The state after the create calls of [records]: the calls are in
    the log, the provider is untouched. *)
Lemma afterCreates_log (c : client) (zone : string) (records : list Record) :
  forall s : State,
    log (afterCreates c zone records s) =
    (log s ++ map (createCall c zone) records)%list.
Proof.
  induction records as [| record rest IH]; intros s; simpl.
  - now rewrite app_nil_r.
  - rewrite IH, createRecord_state, call_log. now rewrite <- app_assoc.
Qed.

Lemma afterCreates_provider (c : client) (zone : string)
  (records : list Record) :
  forall s : State, provider (afterCreates c zone records s) = provider s.
Proof.
  induction records as [| record rest IH]; intros s; simpl.
  - reflexivity.
  - now rewrite IH, createRecord_state, call_provider.
Qed.

(** When the remote accepts every create call, the loop of
    [AppendRecords] runs to its end and returns the input appended to
    the initial list. *)
Lemma AppendRecords_loop_accepted (c : client) (zone : string)
  (records : list Record) :
  forall (results : list Record) (s : State),
    createsAccepted c zone records s = true ->
    forRange records (AppendRecords_body c zone) results s =
    (Ok (results ++ records)%list, afterCreates c zone records s).
Proof.
  induction records as [| record rest IH]; intros results s Hacc.
  - simpl. unfold ret. now rewrite app_nil_r.
  - simpl in Hacc. apply andb_true_iff in Hacc. destruct Hacc as [Hfirst Hrest].
    rewrite forRange_cons, AppendRecords_body_run.
    destruct (fst (createRecord c (inwxRecord record) (getDomain zone) s))
      as [id | err]; [| discriminate].
    rewrite (IH _ _ Hrest). simpl. now rewrite <- app_assoc.
Qed.

(** The four operations, unfolded once [getClient] has returned. *)
Lemma AppendRecords_run (zone : string) (records : list Record) (s : State) :
  AppendRecords zone records s =
  (fst (AppendRecords_rest zone records (fst (getClient s)) (snd (getClient s))),
   snd (removeClient
          (snd (AppendRecords_rest zone records (fst (getClient s))
                  (snd (getClient s)))))).
Proof.
  unfold AppendRecords, defer. destruct (getClient s) as [r s1]. simpl.
  destruct (AppendRecords_rest zone records r s1); reflexivity.
Qed.

Lemma SetRecords_run (zone : string) (records : list Record) (s : State) :
  SetRecords zone records s =
  (fst (SetRecords_rest zone records (fst (getClient s)) (snd (getClient s))),
   snd (removeClient
          (snd (SetRecords_rest zone records (fst (getClient s))
                  (snd (getClient s)))))).
Proof.
  unfold SetRecords, defer. destruct (getClient s) as [r s1]. simpl.
  destruct (SetRecords_rest zone records r s1); reflexivity.
Qed.

Lemma DeleteRecords_run (zone : string) (records : list Record) (s : State) :
  DeleteRecords zone records s =
  (fst (DeleteRecords_rest zone records (fst (getClient s)) (snd (getClient s))),
   snd (removeClient
          (snd (DeleteRecords_rest zone records (fst (getClient s))
                  (snd (getClient s)))))).
Proof.
  unfold DeleteRecords, defer. destruct (getClient s) as [r s1]. simpl.
  destruct (DeleteRecords_rest zone records r s1); reflexivity.
Qed.

(** C8. Once the session is open, [AppendRecords] sends one create
    call per input record, in input order, for a prefix of the batch,
    then the logout, and no lookup. When the remote accepts every
    create call, the prefix is the whole batch and the operation
    returns the input, in the same order. When the create call of a
    record fails, the operation returns that error and no list, and
    the records after it are not sent. A list is returned only after
    the whole batch. *)
Theorem AppendRecords_one_create_each (zone : string) (records : list Record)
  (s : State) (c : client) (s1 : State) :
  getClient s = (Ok c, s1) ->
  (exists n : nat,
      (n <= List.length records)%nat
      /\ log (snd (AppendRecords zone records s)) =
         (log s1 ++ map (createCall c zone) (firstn n records)
                 ++ [logoutCall c])%list
      /\ (forall out,
             fst (AppendRecords zone records s) = Ok out ->
             n = List.length records /\ out = records))
  /\ (forall pre record post done s_mid err,
         records = (pre ++ record :: post)%list ->
         forRange pre (AppendRecords_body c zone) [] s1 = (Ok done, s_mid) ->
         fst (createRecord c (inwxRecord record) (getDomain zone) s_mid)
         = Err err ->
         fst (AppendRecords zone records s) = Err err
         /\ log (snd (AppendRecords zone records s)) =
            (log s1 ++ map (createCall c zone) (pre ++ [record])
                    ++ [logoutCall c])%list)
  /\ (createsAccepted c zone records s1 = true ->
      fst (AppendRecords zone records s) = Ok records
      /\ log (snd (AppendRecords zone records s)) =
         (log s1 ++ map (createCall c zone) records ++ [logoutCall c])%list)
  /\ (forall pre record post err,
         records = (pre ++ record :: post)%list ->
         createsAccepted c zone pre s1 = true ->
         fst (createRecord c (inwxRecord record) (getDomain zone)
                (afterCreates c zone pre s1)) = Err err ->
         fst (AppendRecords zone records s) = Err err
         /\ log (snd (AppendRecords zone records s)) =
            (log s1 ++ map (createCall c zone) (pre ++ [record])
                    ++ [logoutCall c])%list).
Proof.
  intros Hget.
  pose proof (getClient_stores c s s1 Hget) as Hstored.
  assert (Hprov : forall recs acc s0,
             provider (snd (forRange recs (AppendRecords_body c zone) acc s0))
             = provider s0).
  { intros recs. apply forRange_provider.
    intros x acc s0. apply AppendRecords_body_provider. }
  assert (Hfail : forall pre record post done s_mid err,
             records = (pre ++ record :: post)%list ->
             forRange pre (AppendRecords_body c zone) [] s1 = (Ok done, s_mid) ->
             fst (createRecord c (inwxRecord record) (getDomain zone) s_mid)
             = Err err ->
             fst (AppendRecords zone records s) = Err err
             /\ log (snd (AppendRecords zone records s)) =
                (log s1 ++ map (createCall c zone) (pre ++ [record])
                        ++ [logoutCall c])%list).
  { intros pre record post done s_mid err -> Hpre Hbad.
    rewrite AppendRecords_run, Hget. simpl.
    rewrite forRange_app, Hpre, forRange_cons, AppendRecords_body_run, Hbad.
    simpl. split; [reflexivity |].
    assert (Hmid : provider s_mid = provider s1).
    { specialize (Hprov pre [] s1). now rewrite Hpre in Hprov. }
    rewrite (removeClient_log c).
    + rewrite createRecord_state, call_log.
      destruct (AppendRecords_loop c zone pre [] s1) as (n & Hn & Hl & Hout).
      rewrite Hpre in Hl, Hout. simpl in Hl, Hout.
      destruct (Hout done eq_refl) as [-> _].
      rewrite firstn_all in Hl. rewrite Hl, map_app. simpl.
      now rewrite <- !app_assoc.
    + now rewrite createRecord_state, call_provider, Hmid. }
  split; [| split; [exact Hfail | split]].
  - rewrite AppendRecords_run, Hget. simpl.
    destruct (AppendRecords_loop c zone records [] s1) as (n & Hn & Hl & Hout).
    exists n. split; [exact Hn |]. split.
    + rewrite (removeClient_log c) by (now rewrite Hprov).
      rewrite Hl. now rewrite <- app_assoc.
    + intros out H. destruct (Hout out H) as [-> ->]. split; reflexivity.
  - intros Hacc.
    rewrite AppendRecords_run, Hget. simpl.
    rewrite (AppendRecords_loop_accepted c zone records [] s1 Hacc). simpl.
    split; [reflexivity |].
    rewrite (removeClient_log c)
      by (now rewrite afterCreates_provider).
    rewrite afterCreates_log. now rewrite <- app_assoc.
  - intros pre record post err Hrecords Hacc Hbad.
    exact (Hfail pre record post _ _ err Hrecords
             (AppendRecords_loop_accepted c zone pre [] s1 Hacc) Hbad).
Qed.

End LoopFacts.

(** ** [GetRecords] and the release of the session *)

Section ListFacts.
Context `{R : Remote} `{L : LibDNS}.

Lemma GetRecords_run (zone : string) (s : State) :
  GetRecords zone s =
  (fst (GetRecords_rest zone (fst (getClient s)) (snd (getClient s))),
   snd (removeClient
          (snd (GetRecords_rest zone (fst (getClient s)) (snd (getClient s)))))).
Proof.
  unfold GetRecords, defer. destruct (getClient s) as [r s1]. simpl.
  destruct (GetRecords_rest zone r s1); reflexivity.
Qed.

(** When every record decodes, the loop returns the decoded records in
    order. *)
Lemma GetRecords_loop_all (zone : string) (recs : list nameserverRecord.t)
  (good : list Record) :
  Forall2 (fun x r => libdnsRecord x zone = Ok r) recs good ->
  forall (results : list Record) (s : State),
    forRange recs (GetRecords_body zone) results s =
    (Ok (results ++ good)%list, s).
Proof.
  induction 1 as [| x r recs good Hx Hrest IH]; intros results s.
  - simpl. unfold ret. now rewrite app_nil_r.
  - rewrite forRange_cons. unfold GetRecords_body at 1. rewrite Hx. simpl.
    rewrite IH. now rewrite <- app_assoc.
Qed.

(** The first record that does not decode ends the loop with its
    error. *)
Lemma GetRecords_loop_first_failure (zone : string)
  (pre post : list nameserverRecord.t) (x : nameserverRecord.t)
  (good : list Record) (err : error) :
  Forall2 (fun x r => libdnsRecord x zone = Ok r) pre good ->
  libdnsRecord x zone = Err err ->
  forall (results : list Record) (s : State),
    forRange (pre ++ x :: post) (GetRecords_body zone) results s =
    (Err (ErrParsing x err), s).
Proof.
  intros Hpre Hx results s.
  rewrite forRange_app, (GetRecords_loop_all zone pre good Hpre).
  rewrite forRange_cons. unfold GetRecords_body at 1. now rewrite Hx.
Qed.

(** A list of native records either decodes as a whole or splits at
    its first record that does not decode. *)
Lemma decode_all_or_first_failure (zone : string)
  (recs : list nameserverRecord.t) :
  (exists good, Forall2 (fun x r => libdnsRecord x zone = Ok r) recs good)
  \/ (exists pre x post good err,
         recs = (pre ++ x :: post)%list
         /\ Forall2 (fun x r => libdnsRecord x zone = Ok r) pre good
         /\ libdnsRecord x zone = Err err).
Proof.
  induction recs as [| x recs IH].
  - left. exists []. constructor.
  - destruct (libdnsRecord x zone) as [r | err] eqn:Hx.
    + destruct IH as [(good & Hgood) | (pre & y & post & good & err & -> & Hpre & Hy)].
      * left. exists (r :: good). now constructor.
      * right. exists (x :: pre), y, post, (r :: good), err.
        split; [reflexivity |]. split; [now constructor | exact Hy].
    + right. exists [], x, recs, [], err.
      split; [reflexivity |]. split; [constructor | exact Hx].
Qed.

(** C6. Once the session is open and the records of the zone are
    fetched, [GetRecords] decodes every one of them: it returns a list
    only when all of them decode, and the list is then the decoded
    records in order. If a record does not decode, the operation
    returns no list but the error of the first such record, with the
    record attached. *)
Theorem GetRecords_all_or_error (zone : string) (s : State) (c : client)
  (s1 : State) (recs : list nameserverRecord.t) (s2 : State) :
  getClient s = (Ok c, s1) ->
  getRecords c (getDomain zone) s1 = (Ok recs, s2) ->
  (forall good,
      Forall2 (fun x r => libdnsRecord x zone = Ok r) recs good ->
      fst (GetRecords zone s) = Ok good)
  /\ (forall pre x post good err,
         recs = (pre ++ x :: post)%list ->
         Forall2 (fun x r => libdnsRecord x zone = Ok r) pre good ->
         libdnsRecord x zone = Err err ->
         fst (GetRecords zone s) = Err (ErrParsing x err))
  /\ (forall x err,
         In x recs ->
         libdnsRecord x zone = Err err ->
         exists y err',
           In y recs /\ libdnsRecord y zone = Err err'
           /\ fst (GetRecords zone s) = Err (ErrParsing y err'))
  /\ (forall out,
         fst (GetRecords zone s) = Ok out ->
         Forall2 (fun x r => libdnsRecord x zone = Ok r) recs out).
Proof.
  intros Hget Hfetch.
  assert (Hrun : fst (GetRecords zone s) =
                 fst (forRange recs (GetRecords_body zone) [] s2)).
  { rewrite GetRecords_run, Hget. simpl. unfold GetRecords_rest.
    rewrite bind_run, Hfetch. reflexivity. }
  rewrite Hrun.
  split; [| split; [| split]].
  - intros good Hgood. now rewrite (GetRecords_loop_all zone recs good Hgood).
  - intros pre x post good err -> Hpre Hx.
    now rewrite (GetRecords_loop_first_failure zone pre post x good err Hpre Hx).
  - intros x err Hin Hx.
    destruct (decode_all_or_first_failure zone recs)
      as [(good & Hgood) | (pre & y & post & good & err' & -> & Hpre & Hy)].
    + exfalso. clear Hrun Hfetch.
      induction Hgood as [| x0 r recs good H0 Hrest IH]; [contradiction |].
      destruct Hin as [-> | Hin]; [congruence | now apply IH].
    + exists y, err'. split; [| split].
      * apply in_or_app. right. now left.
      * exact Hy.
      * now rewrite (GetRecords_loop_first_failure zone pre post y good err'
                       Hpre Hy).
  - intros out Hout.
    destruct (decode_all_or_first_failure zone recs)
      as [(good & Hgood) | (pre & y & post & good & err' & -> & Hpre & Hy)].
    + rewrite (GetRecords_loop_all zone recs good Hgood) in Hout.
      simpl in Hout. inversion Hout; subst. exact Hgood.
    + rewrite (GetRecords_loop_first_failure zone pre post y good err' Hpre Hy)
        in Hout.
      discriminate.
Qed.

(** C9. Each of the four operations leaves the provider without a
    client, whatever happened on the way. What an operation returns
    is what its statements returned before the deferred
    [removeClient] ran: [removeClient] returns nothing and never fails,
    whatever its logout call returned, so an error of [getClient] (or
    any later one) comes back as it was. *)
Theorem operations_release_session (zone : string) (records : list Record)
  (s : State) :
  (Provider.client (provider (snd (GetRecords zone s))) = None
   /\ Provider.client (provider (snd (AppendRecords zone records s))) = None
   /\ Provider.client (provider (snd (SetRecords zone records s))) = None
   /\ Provider.client (provider (snd (DeleteRecords zone records s))) = None)
  /\ (fst (GetRecords zone s) =
      fst (GetRecords_rest zone (fst (getClient s)) (snd (getClient s)))
      /\ fst (AppendRecords zone records s) =
         fst (AppendRecords_rest zone records (fst (getClient s))
                (snd (getClient s)))
      /\ fst (SetRecords zone records s) =
         fst (SetRecords_rest zone records (fst (getClient s))
                (snd (getClient s)))
      /\ fst (DeleteRecords zone records s) =
         fst (DeleteRecords_rest zone records (fst (getClient s))
                (snd (getClient s))))
  /\ (forall s', fst (removeClient s') = Ok tt)
  /\ (forall (c : client) s',
         Provider.client (provider s') = Some c ->
         removeClient s' = (Ok tt, setClient None (snd (logout c s'))))
  /\ (forall err s1,
         getClient s = (Err err, s1) ->
         fst (GetRecords zone s) = Err err
         /\ fst (AppendRecords zone records s) = Err err
         /\ fst (SetRecords zone records s) = Err err
         /\ fst (DeleteRecords zone records s) = Err err).
Proof.
  split; [| split; [| split; [| split]]].
  - rewrite GetRecords_run, AppendRecords_run, SetRecords_run,
      DeleteRecords_run. simpl.
    repeat split; apply removeClient_clears.
  - rewrite GetRecords_run, AppendRecords_run, SetRecords_run,
      DeleteRecords_run. simpl.
    repeat split; reflexivity.
  - apply removeClient_ok.
  - intros c s' Hc. now apply removeClient_run.
  - intros err s1 Hget.
    rewrite GetRecords_run, AppendRecords_run, SetRecords_run,
      DeleteRecords_run, Hget. simpl.
    repeat split; reflexivity.
Qed.

End ListFacts.

(** ** [SetRecords] and [DeleteRecords] *)

Section ReconcileFacts.
Context `{R : Remote}.

Lemma findRecords_provider (c : client) (record : nameserverRecord.t)
  (domain : string) (matchContent : bool) (s : State) :
  provider (snd (findRecords c record domain matchContent s)) = provider s.
Proof. now rewrite findRecords_state, call_provider. Qed.

Lemma findRecords_log (c : client) (zone : string) (record : Record)
  (matchContent : bool) (s : State) :
  log (snd (findRecords c (inwxRecord record) (getDomain zone) matchContent s)) =
  (log s ++ [findCall c zone record matchContent])%list.
Proof. now rewrite findRecords_state, call_log. Qed.

Lemma createRecord_provider (c : client) (record : nameserverRecord.t)
  (domain : string) (s : State) :
  provider (snd (createRecord c record domain s)) = provider s.
Proof. now rewrite createRecord_state, call_provider. Qed.

Lemma updateRecord_provider (c : client) (record : nameserverRecord.t)
  (s : State) :
  provider (snd (updateRecord c record s)) = provider s.
Proof.
  destruct (string_dec (nameserverRecord.ID record) "") as [Hid | Hid].
  - now rewrite (updateRecord_without_id c record s Hid).
  - now rewrite (updateRecord_state c record s Hid), call_provider.
Qed.

Lemma deleteRecord_provider (c : client) (record : nameserverRecord.t)
  (s : State) :
  provider (snd (deleteRecord c record s)) = provider s.
Proof. now rewrite deleteRecord_state, call_provider. Qed.

(** *** The body of the loop of [SetRecords] *)

(** The body once the lookup has answered. *)
Lemma SetRecords_body_found (c : client) (zone : string) (record : Record)
  (results : list Record) (s : State)
  (matches : list nameserverRecord.t) (s_found : State) :
  Provider.client (provider s) = Some c ->
  findRecords c (inwxRecord record) (getDomain zone) false s
  = (Ok matches, s_found) ->
  SetRecords_body c zone record results s =
  match matches with
  | [] =>
      (match fst (createRecord c (inwxRecord record) (getDomain zone) s_found)
       with
       | Ok _ => Ok (results ++ [record])%list
       | Err err => Err err
       end,
       snd (createRecord c (inwxRecord record) (getDomain zone) s_found))
  | [m] =>
      (match fst (updateRecord c
                    (setID (inwxRecord record) (nameserverRecord.ID m))
                    s_found)
       with
       | Ok _ => Ok (results ++ [record])%list
       | Err err => Err err
       end,
       snd (updateRecord c (setID (inwxRecord record) (nameserverRecord.ID m))
              s_found))
  | _ :: _ :: _ => (Err (ErrMoreThanOne record), s_found)
  end.
Proof.
  intros Hc Hfind. unfold SetRecords_body.
  rewrite bind_run, (currentClient_run c s Hc), bind_run, Hfind.
  destruct matches as [| m [| m' rest]]; simpl.
  - rewrite bind_run.
    destruct (createRecord c (inwxRecord record) (getDomain zone) s_found)
      as [[id | err] s']; reflexivity.
  - rewrite bind_run.
    destruct (updateRecord c _ s_found) as [[[] | err] s']; reflexivity.
  - reflexivity.
Qed.

Lemma SetRecords_body_provider (c : client) (zone : string) (record : Record)
  (results : list Record) (s : State) :
  provider (snd (SetRecords_body c zone record results s)) = provider s.
Proof.
  unfold SetRecords_body. rewrite bind_run. unfold currentClient.
  destruct (Provider.client (provider s)) as [pc |]; [| reflexivity].
  rewrite bind_run.
  pose proof (findRecords_provider pc (inwxRecord record) (getDomain zone)
                false s) as Hfind.
  destruct (findRecords pc _ _ false s) as [[matches | err] s1];
    simpl in Hfind; [| exact Hfind].
  destruct matches as [| m [| m' rest]]; simpl.
  - rewrite bind_run.
    pose proof (createRecord_provider c (inwxRecord record) (getDomain zone) s1)
      as Hcreate.
    destruct (createRecord c _ _ s1) as [[id | err] s2]; simpl in *; congruence.
  - rewrite bind_run.
    pose proof (updateRecord_provider c
                  (setID (inwxRecord record) (nameserverRecord.ID m)) s1)
      as Hupdate.
    destruct (updateRecord c _ s1) as [[[] | err] s2]; simpl in *; congruence.
  - exact Hfind.
Qed.

(** C1. Take any input record of a [SetRecords] call, at the point
    where the records before it have been handled, and let the
    lookup by type and name, sent without a content filter, return
    [matches]. With no match the record is created. With exactly one
    match [m] the step is [updateRecord] on the record with the id of
    [m]: when that id is not empty, the update call goes out for that
    id with the name, type, content, (floored) TTL and priority of the
    input. With more than one match the step sends nothing, and the
    whole call fails with the error that names the record, the logout
    being the only call left. *)
Theorem SetRecords_match_policy (zone : string) (records : list Record)
  (s : State) (c : client) (s1 : State)
  (pre : list Record) (record : Record) (post done : list Record)
  (s_mid : State) (matches : list nameserverRecord.t) (s_found : State) :
  getClient s = (Ok c, s1) ->
  records = (pre ++ record :: post)%list ->
  forRange pre (SetRecords_body c zone) [] s1 = (Ok done, s_mid) ->
  findRecords c (inwxRecord record) (getDomain zone) false s_mid
  = (Ok matches, s_found) ->
  let step := SetRecords_body c zone record done s_mid in
  (forRange records (SetRecords_body c zone) [] s1 =
   match step with
   | (Ok done', s') => forRange post (SetRecords_body c zone) done' s'
   | (Err err, s') => (Err err, s')
   end)
  /\ log s_found = (log s_mid ++ [findCall c zone record false])%list
  /\ nameserverInfoRequest.Content
       (findRecordsRequest (inwxRecord record) (getDomain zone) false) = ""
  /\ (matches = [] ->
      log (snd step) = (log s_found ++ [createCall c zone record])%list
      /\ fst step =
         match fst (createRecord c (inwxRecord record) (getDomain zone)
                      s_found) with
         | Ok _ => Ok (done ++ [record])%list
         | Err err => Err err
         end)
  /\ (forall m,
         matches = [m] ->
         step =
         (match fst (updateRecord c
                       (setID (inwxRecord record) (nameserverRecord.ID m))
                       s_found) with
          | Ok _ => Ok (done ++ [record])%list
          | Err err => Err err
          end,
          snd (updateRecord c
                 (setID (inwxRecord record) (nameserverRecord.ID m)) s_found))
         /\ (nameserverRecord.ID m <> "" ->
             log (snd step) =
             (log s_found ++ [updateCall c (nameserverRecord.ID m) record])%list
             /\ updateRecordRequest
                  (setID (inwxRecord record) (nameserverRecord.ID m)) =
                nameserverUpdateRecordRequest.mk
                  (nameserverRecord.ID m)
                  (nameserverRecord.Name (inwxRecord record))
                  (nameserverRecord.Type_ (inwxRecord record))
                  (nameserverRecord.Content (inwxRecord record))
                  (ensureMinTTL (nameserverRecord.TTL (inwxRecord record)))
                  (nameserverRecord.Priority (inwxRecord record))))
  /\ ((1 < List.length matches)%nat ->
      step = (Err (ErrMoreThanOne record), s_found)
      /\ fst (SetRecords zone records s) = Err (ErrMoreThanOne record)
      /\ log (snd (SetRecords zone records s)) =
         (log s_found ++ [logoutCall c])%list).
Proof.
  intros Hget -> Hpre Hfind step.
  pose proof (getClient_stores c s s1 Hget) as Hstored.
  assert (Hmid : Provider.client (provider s_mid) = Some c).
  { pose proof (forRange_provider pre (SetRecords_body c zone)
                  (SetRecords_body_provider c zone) [] s1) as Hp.
    rewrite Hpre in Hp. simpl in Hp. now rewrite Hp. }
  assert (Hfound : Provider.client (provider s_found) = Some c).
  { pose proof (findRecords_provider c (inwxRecord record) (getDomain zone)
                  false s_mid) as Hp.
    rewrite Hfind in Hp. simpl in Hp. now rewrite Hp. }
  pose proof (SetRecords_body_found c zone record done s_mid matches s_found
                Hmid Hfind) as Hstep.
  fold step in Hstep.
  assert (Hloop : forRange (pre ++ record :: post) (SetRecords_body c zone) [] s1
                  = match step with
                    | (Ok done', s') =>
                        forRange post (SetRecords_body c zone) done' s'
                    | (Err err, s') => (Err err, s')
                    end).
  { rewrite forRange_app, Hpre, forRange_cons. reflexivity. }
  split; [exact Hloop |].
  split.
  { pose proof (findRecords_log c zone record false s_mid) as Hl.
    now rewrite Hfind in Hl. }
  split; [reflexivity |].
  split; [| split].
  - intros ->. rewrite Hstep. simpl. split; [| reflexivity].
    now rewrite createRecord_state, call_log.
  - intros m ->. split; [exact Hstep |].
    intros Hid. rewrite Hstep. simpl. split; [| reflexivity].
    rewrite updateRecord_state by exact Hid.
    now rewrite call_log.
  - intros Hmany.
    destruct matches as [| m [| m' rest]]; simpl in Hmany; try lia.
    split; [exact Hstep |].
    rewrite SetRecords_run, Hget. simpl. unfold SetRecords_rest.
    rewrite Hloop, Hstep. simpl. split; [reflexivity |].
    now rewrite (removeClient_log c s_found Hfound).
Qed.

(** *** The loops of [DeleteRecords] *)

Lemma DeleteRecords_inner_run (c : client) (record : Record)
  (m : nameserverRecord.t) (results : list Record) (s : State) :
  DeleteRecords_inner c record m results s =
  (match fst (deleteRecord c m s) with
   | Ok _ => Ok (results ++ [record])%list
   | Err err => Err err
   end,
   snd (deleteRecord c m s)).
Proof.
  unfold DeleteRecords_inner. rewrite bind_run.
  destruct (deleteRecord c m s) as [[[] | err] s']; reflexivity.
Qed.

Lemma DeleteRecords_inner_log (c : client) (record : Record)
  (m : nameserverRecord.t) (results : list Record) (s : State) :
  log (snd (DeleteRecords_inner c record m results s)) =
  (log s ++ [deleteCall c m])%list.
Proof.
  rewrite DeleteRecords_inner_run. simpl.
  now rewrite deleteRecord_state, call_log.
Qed.

Lemma DeleteRecords_inner_provider (c : client) (record : Record)
  (m : nameserverRecord.t) (results : list Record) (s : State) :
  provider (snd (DeleteRecords_inner c record m results s)) = provider s.
Proof.
  rewrite DeleteRecords_inner_run. simpl. apply deleteRecord_provider.
Qed.

(** The inner loop sends the delete calls of a prefix of the matches,
    in order, the first one included when there is a match; it runs to
    its end only when the prefix is all of them, and then it has
    appended the input record once per match. *)
Lemma DeleteRecords_inner_loop (c : client) (record : Record)
  (matches : list nameserverRecord.t) :
  forall (results : list Record) (s : State),
  exists n : nat,
    (n <= List.length matches)%nat
    /\ (matches <> [] -> (1 <= n)%nat)
    /\ log (snd (forRange matches (DeleteRecords_inner c record) results s)) =
       (log s ++ map (deleteCall c) (firstn n matches))%list
    /\ (forall out,
           fst (forRange matches (DeleteRecords_inner c record) results s)
           = Ok out ->
           n = List.length matches
           /\ out = (results ++ repeat record (List.length matches))%list).
Proof.
  induction matches as [| m rest IH]; intros results s.
  - exists 0%nat. simpl. split; [lia |]. split; [congruence |]. split.
    + now rewrite app_nil_r.
    + intros out H. inversion H. now rewrite app_nil_r.
  - rewrite forRange_cons.
    pose proof (DeleteRecords_inner_log c record m results s) as Hlog.
    pose proof (DeleteRecords_inner_run c record m results s) as Hrun.
    destruct (DeleteRecords_inner c record m results s) as [[acc | e] s'].
    + destruct (IH acc s') as (n & Hn & _ & Hl & Hout).
      exists (S n). simpl in *. split; [lia |]. split; [lia |]. split.
      * rewrite Hl, Hlog. now rewrite <- app_assoc.
      * intros out H. destruct (Hout out H) as [-> ->]. split; [reflexivity |].
        destruct (fst (deleteRecord c m s)); inversion Hrun; subst.
        now rewrite <- app_assoc.
    + exists 1%nat. simpl in *. split; [lia |]. split; [lia |]. split.
      * exact Hlog.
      * intros out H. discriminate.
Qed.

(** The state after the delete calls of [matches]: the calls are in
    the log, the provider is untouched. *)
Lemma afterDeletes_log (c : client) (matches : list nameserverRecord.t) :
  forall s : State,
    log (afterDeletes c matches s) =
    (log s ++ map (deleteCall c) matches)%list.
Proof.
  induction matches as [| m rest IH]; intros s; simpl.
  - now rewrite app_nil_r.
  - rewrite IH, deleteRecord_state, call_log. now rewrite <- app_assoc.
Qed.

Lemma afterDeletes_provider (c : client) (matches : list nameserverRecord.t) :
  forall s : State, provider (afterDeletes c matches s) = provider s.
Proof.
  induction matches as [| m rest IH]; intros s; simpl.
  - reflexivity.
  - now rewrite IH, deleteRecord_provider.
Qed.

(** When the remote accepts every delete call, the inner loop runs to
    its end and has appended the input record once per match. *)
Lemma DeleteRecords_inner_accepted (c : client) (record : Record)
  (matches : list nameserverRecord.t) :
  forall (results : list Record) (s : State),
    deletesAccepted c matches s = true ->
    forRange matches (DeleteRecords_inner c record) results s =
    (Ok (results ++ repeat record (List.length matches))%list,
     afterDeletes c matches s).
Proof.
  induction matches as [| m rest IH]; intros results s Hacc.
  - simpl. unfold ret. now rewrite app_nil_r.
  - simpl in Hacc. apply andb_true_iff in Hacc. destruct Hacc as [Hfirst Hrest].
    rewrite forRange_cons, DeleteRecords_inner_run.
    destruct (fst (deleteRecord c m s)) as [[] | err]; [| discriminate].
    rewrite (IH _ _ Hrest). simpl. now rewrite <- app_assoc.
Qed.

(** The inner loop when the delete call of a match is refused after
    the matches before it were deleted. *)
Lemma DeleteRecords_inner_refused (c : client) (record : Record)
  (mpre : list nameserverRecord.t) (m : nameserverRecord.t)
  (mpost : list nameserverRecord.t) (results : list Record) (s : State)
  (err : error) :
  deletesAccepted c mpre s = true ->
  fst (deleteRecord c m (afterDeletes c mpre s)) = Err err ->
  forRange (mpre ++ m :: mpost) (DeleteRecords_inner c record) results s =
  (Err err, afterDeletes c (mpre ++ [m]) s).
Proof.
  intros Hacc Hbad.
  rewrite forRange_app, (DeleteRecords_inner_accepted c record mpre _ _ Hacc).
  rewrite forRange_cons, DeleteRecords_inner_run, Hbad.
  f_equal. clear Hacc Hbad. revert s.
  induction mpre as [| m0 rest IH]; intros s; simpl; [reflexivity | apply IH].
Qed.

(** For a record whose type, name and content are all set, the lookup
    request of [DeleteRecords] lets through exactly the records with
    that type, name and content. *)
Lemma satisfiesInfoRequest_exact (record : nameserverRecord.t)
  (domain : string) (x : nameserverRecord.t) :
  nameserverRecord.Type_ record <> "" ->
  nameserverRecord.Name record <> "" ->
  nameserverRecord.Content record <> "" ->
  satisfiesInfoRequest (findRecordsRequest record domain true) x =
  exactMatch record x.
Proof.
  intros Htype Hname Hcontent.
  apply String.eqb_neq in Htype, Hname, Hcontent.
  unfold satisfiesInfoRequest, exactMatch, findRecordsRequest. simpl.
  rewrite Htype, Hname, Hcontent. simpl. rewrite !andb_true_r.
  destruct (String.eqb (nameserverRecord.Name record) (nameserverRecord.Name x)),
    (String.eqb (nameserverRecord.Type_ record) (nameserverRecord.Type_ x));
    reflexivity.
Qed.

Lemma DeleteRecords_body_found (c : client) (zone : string) (record : Record)
  (results : list Record) (s : State)
  (matches : list nameserverRecord.t) (s_found : State) :
  Provider.client (provider s) = Some c ->
  findRecords c (inwxRecord record) (getDomain zone) true s
  = (Ok matches, s_found) ->
  DeleteRecords_body c zone record results s =
  forRange matches (DeleteRecords_inner c record) results s_found.
Proof.
  intros Hc Hfind. unfold DeleteRecords_body.
  now rewrite bind_run, (currentClient_run c s Hc), bind_run, Hfind.
Qed.

Lemma DeleteRecords_body_provider (c : client) (zone : string)
  (record : Record) (results : list Record) (s : State) :
  provider (snd (DeleteRecords_body c zone record results s)) = provider s.
Proof.
  unfold DeleteRecords_body. rewrite bind_run. unfold currentClient.
  destruct (Provider.client (provider s)) as [pc |]; [| reflexivity].
  rewrite bind_run.
  pose proof (findRecords_provider pc (inwxRecord record) (getDomain zone)
                true s) as Hfind.
  destruct (findRecords pc _ _ true s) as [[matches | err] s1];
    simpl in Hfind; [| exact Hfind].
  rewrite (forRange_provider matches (DeleteRecords_inner c record)
             (DeleteRecords_inner_provider c record)).
  exact Hfind.
Qed.

(** C2. Take any input record of a [DeleteRecords] call, at the point
    where the records before it have been handled, and let the lookup
    return [matches]. The lookup request carries the type, the name
    and the content of the record; a remote that honours it returns
    the records with exactly that type, name and content when all
    three are set (a field that is empty is not sent and filters
    nothing). The step sends delete calls for the ids of the matches,
    in the order of [matches], and nothing else. With no match it sends
    nothing and is no error; with one match [m] it sends the delete
    call of [m]. When the remote accepts every delete call, every match
    is deleted and the step contributes the input record once per
    match. When the delete call of a match is refused, the matches
    after it are left alone and the operation returns the error. *)
Theorem DeleteRecords_exact_matches (zone : string) (records : list Record)
  (s : State) (c : client) (s1 : State)
  (pre : list Record) (record : Record) (post done : list Record)
  (s_mid : State) (matches : list nameserverRecord.t) (s_found : State) :
  getClient s = (Ok c, s1) ->
  records = (pre ++ record :: post)%list ->
  forRange pre (DeleteRecords_body c zone) [] s1 = (Ok done, s_mid) ->
  findRecords c (inwxRecord record) (getDomain zone) true s_mid
  = (Ok matches, s_found) ->
  let step := DeleteRecords_body c zone record done s_mid in
  (forRange records (DeleteRecords_body c zone) [] s1 =
   match step with
   | (Ok done', s') => forRange post (DeleteRecords_body c zone) done' s'
   | (Err err, s') => (Err err, s')
   end)
  /\ log s_found = (log s_mid ++ [findCall c zone record true])%list
  /\ findRecordsRequest (inwxRecord record) (getDomain zone) true =
     nameserverInfoRequest.mk (getDomain zone)
       (nameserverRecord.Name (inwxRecord record))
       (nameserverRecord.Type_ (inwxRecord record))
       (nameserverRecord.Content (inwxRecord record)) 0 0%N
  /\ (exists n : nat,
         (n <= List.length matches)%nat
         /\ (matches <> [] -> (1 <= n)%nat)
         /\ log (snd step) =
            (log s_found ++ map (deleteCall c) (firstn n matches))%list
         /\ (forall out,
                fst step = Ok out ->
                n = List.length matches
                /\ out = (done ++ repeat record (List.length matches))%list))
  /\ (matches = [] -> step = (Ok done, s_found))
  /\ (forall m,
         matches = [m] ->
         log (snd step) = (log s_found ++ [deleteCall c m])%list
         /\ fst step =
            match fst (deleteRecord c m s_found) with
            | Ok _ => Ok (done ++ [record])%list
            | Err err => Err err
            end)
  /\ (deletesAccepted c matches s_found = true ->
      fst step = Ok (done ++ repeat record (List.length matches))%list
      /\ log (snd step) = (log s_found ++ map (deleteCall c) matches)%list)
  /\ (forall mpre m mpost err,
         matches = (mpre ++ m :: mpost)%list ->
         deletesAccepted c mpre s_found = true ->
         fst (deleteRecord c m (afterDeletes c mpre s_found)) = Err err ->
         fst step = Err err
         /\ log (snd step) =
            (log s_found ++ map (deleteCall c) (mpre ++ [m]))%list
         /\ fst (DeleteRecords zone records s) = Err err)
  /\ (nameserverRecord.Type_ (inwxRecord record) <> "" ->
      nameserverRecord.Name (inwxRecord record) <> "" ->
      nameserverRecord.Content (inwxRecord record) <> "" ->
      forall remote : list nameserverRecord.t,
        matches =
        filter (satisfiesInfoRequest
                  (findRecordsRequest (inwxRecord record) (getDomain zone) true))
               remote ->
        matches = filter (exactMatch (inwxRecord record)) remote).
Proof.
  intros Hget Hrecords Hpre Hfind step.
  pose proof (getClient_stores c s s1 Hget) as Hstored.
  assert (Hmid : Provider.client (provider s_mid) = Some c).
  { pose proof (forRange_provider pre (DeleteRecords_body c zone)
                  (DeleteRecords_body_provider c zone) [] s1) as Hp.
    rewrite Hpre in Hp. simpl in Hp. now rewrite Hp. }
  pose proof (DeleteRecords_body_found c zone record done s_mid matches s_found
                Hmid Hfind) as Hstep.
  fold step in Hstep.
  assert (Hloop : forRange records (DeleteRecords_body c zone) [] s1 =
                  match step with
                  | (Ok done', s') =>
                      forRange post (DeleteRecords_body c zone) done' s'
                  | (Err err, s') => (Err err, s')
                  end).
  { rewrite Hrecords, forRange_app, Hpre, forRange_cons. reflexivity. }
  split; [exact Hloop |].
  split.
  { pose proof (findRecords_log c zone record true s_mid) as Hl.
    now rewrite Hfind in Hl. }
  split; [reflexivity |].
  split; [| split; [| split; [| split; [| split]]]].
  - rewrite Hstep. apply DeleteRecords_inner_loop.
  - intros ->. exact Hstep.
  - intros m ->. rewrite Hstep, forRange_cons, DeleteRecords_inner_run.
    destruct (deleteRecord c m s_found) as [[[] | err] s'] eqn:Hdel; simpl.
    + split; [| reflexivity].
      pose proof (deleteRecord_state c m s_found) as Hs.
      rewrite Hdel in Hs. simpl in Hs. now rewrite Hs, call_log.
    + split; [| reflexivity].
      pose proof (deleteRecord_state c m s_found) as Hs.
      rewrite Hdel in Hs. simpl in Hs. now rewrite Hs, call_log.
  - intros Hacc.
    rewrite Hstep, (DeleteRecords_inner_accepted c record matches _ _ Hacc).
    simpl. split; [reflexivity | apply afterDeletes_log].
  - intros mpre m mpost err Hmatches Hacc Hbad.
    assert (Hrun : step = (Err err, afterDeletes c (mpre ++ [m]) s_found)).
    { rewrite Hstep, Hmatches.
      now apply DeleteRecords_inner_refused. }
    split; [now rewrite Hrun |].
    split; [rewrite Hrun; simpl; apply afterDeletes_log |].
    rewrite DeleteRecords_run, Hget. simpl. unfold DeleteRecords_rest.
    rewrite Hloop, Hrun. reflexivity.
  - intros Htype Hname Hcontent remote ->.
    apply filter_ext. intros x.
    now apply satisfiesInfoRequest_exact.
Qed.

End ReconcileFacts.

(** ** The codec *)

Section CodecFacts.
Context `{L : LibDNS}.

Lemma wrap64_in_range (z : Z) : int64_range z -> wrap64 z = z.
Proof.
  unfold int64_range, wrap64. intros Hz.
  rewrite Z.mod_small; lia.
Qed.

(** Seconds and back: a whole number of seconds survives. *)
Lemma Duration_of_Seconds_int (d : Z) :
  int64_range d -> wholeSeconds d -> Duration_of_seconds (Seconds_int d) = d.
Proof.
  intros Hrange [k ->]. unfold Duration_of_seconds, Seconds_int.
  rewrite Z.quot_mul by (unfold Second; lia).
  now apply wrap64_in_range.
Qed.

(** The quadruple [libdnsRecord] rebuilds from the native form of a
    record is the canonical quadruple of the record. *)
Lemma libdnsRR_inwxRecord (r : Record) (zone : string) :
  typeSwitchAgrees r = true ->
  int64_range (RR.TTL (RR_of r)) ->
  wholeSeconds (RR.TTL (RR_of r)) ->
  RelativeName (RR.Name (RR_of r)) (getDomain zone) = RR.Name (RR_of r) ->
  libdnsRR (inwxRecord r) zone = RR_of r.
Proof.
  intros Hkind Hrange Hwhole Hname.
  destruct r as [rr | mx | srv]; unfold libdnsRR; simpl in *.
  - rewrite Hname, (Duration_of_Seconds_int _ Hrange Hwhole).
    apply negb_true_iff in Hkind. rewrite Hkind.
    now destruct rr.
  - now rewrite Hname, (Duration_of_Seconds_int _ Hrange Hwhole).
  - now rewrite Hname, (Duration_of_Seconds_int _ Hrange Hwhole).
Qed.

Lemma compareRecords_same_RR (lhs rhs : Record) :
  RR_of lhs = RR_of rhs -> compareRecords lhs rhs = true.
Proof.
  intros H. unfold compareRecords. rewrite H.
  now rewrite !String.eqb_refl, Z.eqb_refl.
Qed.

(** C3 (amended). Let [r] be a [libdns.MX], a [libdns.SRV], or a
    record of any other kind whose type tag is neither "MX" nor "SRV";
    let its TTL be a whole number of seconds, its name be one that
    [RelativeName] leaves as it is for the zone, and let the libdns
    parser turn its canonical quadruple into a record [r'] with that
    same quadruple. Then the quadruple rebuilt from the native encoding
    of [r] is the canonical quadruple of [r], decoding the native
    encoding of [r] yields [r'], and [r'] is content-equivalent to [r].
    The codec applies no TTL floor. *)
Theorem codec_round_trip (r r' : Record) (zone : string) :
  typeSwitchAgrees r = true ->
  int64_range (RR.TTL (RR_of r)) ->
  wholeSeconds (RR.TTL (RR_of r)) ->
  RelativeName (RR.Name (RR_of r)) (getDomain zone) = RR.Name (RR_of r) ->
  Parse (RR_of r) = Ok r' ->
  RR_of r' = RR_of r ->
  libdnsRR (inwxRecord r) zone = RR_of r
  /\ libdnsRecord (inwxRecord r) zone = Ok r'
  /\ compareRecords r' r = true.
Proof.
  intros Hkind Hrange Hwhole Hname Hparse Hsame.
  pose proof (libdnsRR_inwxRecord r zone Hkind Hrange Hwhole Hname) as Hrr.
  split; [exact Hrr |]. split.
  - unfold libdnsRecord. now rewrite Hrr.
  - now apply compareRecords_same_RR.
Qed.

End CodecFacts.

(** ** Further facts about the session and the lookups *)

Section FurtherFacts.
Context `{R : Remote}.

(** For a record with empty content, the lookup with content match
    sends the very request of the lookup without it: the content field
    stays at its zero value either way. *)
Theorem findRecords_empty_content_unfiltered (c : client)
  (id name type_ : string) (ttl : Z) (priority : N) (domain : string)
  (s : State) :
  findRecordsRequest (nameserverRecord.mk id name type_ "" ttl priority)
    domain true =
  findRecordsRequest (nameserverRecord.mk id name type_ "" ttl priority)
    domain false
  /\ findRecords c (nameserverRecord.mk id name type_ "" ttl priority)
       domain true s =
     findRecords c (nameserverRecord.mk id name type_ "" ttl priority)
       domain false s.
Proof. split; reflexivity. Qed.

(** [getClient] on a provider that holds a client returns that client
    and makes no call. *)
Theorem getClient_reuses_client (c : client) (s : State) :
  Provider.client (provider s) = Some c ->
  getClient s = (Ok c, s).
Proof.
  intros Hc. unfold getClient. rewrite Hc.
  now apply currentClient_run.
Qed.

(** [removeClient] on a provider without a client does nothing: no
    logout goes out. *)
Theorem removeClient_without_client (s : State) :
  Provider.client (provider s) = None ->
  removeClient s = (Ok tt, s).
Proof.
  intros Hc. unfold removeClient. now rewrite Hc.
Qed.

(** When the one match of a [SetRecords] lookup carries no id, the step
    fails with the error of [updateRecord] and writes nothing. *)
Theorem SetRecords_match_without_id (c : client) (zone : string)
  (record : Record) (results : list Record) (s : State)
  (m : nameserverRecord.t) (s_found : State) :
  Provider.client (provider s) = Some c ->
  findRecords c (inwxRecord record) (getDomain zone) false s
  = (Ok [m], s_found) ->
  nameserverRecord.ID m = "" ->
  SetRecords_body c zone record results s = (Err ErrIDNotSet, s_found).
Proof.
  intros Hc Hfind Hid.
  rewrite (SetRecords_body_found c zone record results s [m] s_found Hc Hfind).
  rewrite updateRecord_without_id; [reflexivity |].
  exact Hid.
Qed.

End FurtherFacts.

(** ** The operations as a whole *)

Section SendsFacts.
Context `{R : Remote}.
Variable I : Provider.t -> Prop.
Variable P : Call -> Prop.

Lemma Sends_silent {A : Type} (m : M A) :
  (forall s, snd (m s) = s) -> Sends I P m.
Proof.
  intros Hm s _. exists []. rewrite Hm, app_nil_r. now repeat split.
Qed.

Lemma Sends_ret {A : Type} (a : A) : Sends I P (ret a).
Proof. now apply Sends_silent. Qed.

Lemma Sends_throw {A : Type} (e : error) : Sends I P (@throw _ A e).
Proof. now apply Sends_silent. Qed.

Lemma Sends_unmarshal {A : Type} (r : result A) : Sends I P (unmarshal r).
Proof. now apply Sends_silent. Qed.

Lemma Sends_generateCode (secret : string) : Sends I P (generateCode secret).
Proof. now apply Sends_silent. Qed.

Lemma Sends_bind {A B : Type} (m : M A) (f : A -> M B) :
  Sends I P m -> (forall a, Sends I P (f a)) -> Sends I P (bind m f).
Proof.
  intros Hm Hf s Hs. rewrite bind_run.
  destruct (Hm s Hs) as (calls & Hlog & Hall & Hprov).
  destruct (m s) as [[a | e] s1]; simpl in *.
  - assert (Hs1 : I (provider s1)) by now rewrite Hprov.
    destruct (Hf a s1 Hs1) as (calls' & Hlog' & Hall' & Hprov').
    exists (calls ++ calls')%list. split; [| split].
    + now rewrite Hlog', Hlog, app_assoc.
    + now apply Forall_app.
    + now rewrite Hprov'.
  - exists calls. now repeat split.
Qed.

Lemma Sends_call (c : client) (method : string) (params : Params) :
  P (mkCall (endpointUrl c) method params) -> Sends I P (call c method params).
Proof.
  intros HP s _. exists [mkCall (endpointUrl c) method params].
  rewrite call_state. simpl. repeat split. now constructor.
Qed.

Lemma Sends_forRange {A B : Type} (xs : list A) (body : A -> B -> M B) :
  (forall x acc, Sends I P (body x acc)) ->
  forall acc, Sends I P (forRange xs body acc).
Proof.
  intros Hbody. induction xs as [| x xs IH]; intros acc.
  - apply Sends_ret.
  - simpl. apply Sends_bind; [apply Hbody | exact IH].
Qed.

End SendsFacts.

Section OperationSends.
Context `{R : Remote}.
Variable e : string.
Variable P : Call -> Prop.

Lemma sameConfiguration_refl (p : Provider.t) : sameConfiguration p p.
Proof. now repeat split. Qed.

Lemma sameConfiguration_trans (p q r : Provider.t) :
  sameConfiguration p q -> sameConfiguration q r -> sameConfiguration p r.
Proof.
  intros (H1 & H2 & H3 & H4) (K1 & K2 & K3 & K4).
  repeat split; congruence.
Qed.

Lemma sameConfiguration_setClient (c : option client) (s : State) :
  sameConfiguration (provider s) (provider (setClient c s)).
Proof. now repeat split. Qed.

Lemma Sends_currentClient {A : Type} (c : client) (f : client -> M A) :
  Sends (holds c) P (f c) -> Sends (holds c) P (bind currentClient f).
Proof.
  intros Hf s Hs. rewrite bind_run, (currentClient_run c s Hs).
  now apply Hf.
Qed.

Section Session.
Hypothesis P_login :
  forall u p, P (mkCall e "account.login"
                   (ParamsLogin (accountLoginRequest.mk u p))).
Hypothesis P_unlock :
  forall tan, P (mkCall e "account.unlock"
                   (ParamsUnlock (accountUnlockRequest.mk tan))).
Hypothesis P_logout : P (mkCall e "account.logout" ParamsNil).

Lemma login_sends (I : Provider.t -> Prop) (c : client)
  (username password sharedSecret : string) :
  endpointUrl c = e ->
  Sends I P (login c username password sharedSecret).
Proof.
  intros He. unfold login.
  apply Sends_bind; [apply Sends_call; rewrite He; apply P_login |].
  intros payload. apply Sends_bind; [apply Sends_unmarshal |].
  intros data.
  destruct (String.eqb (accountLoginResponse.TFA data) "GOOGLE-AUTH");
    [| apply Sends_ret].
  apply Sends_bind; [apply Sends_generateCode |].
  intros tan. apply Sends_bind; [| intros; apply Sends_ret].
  unfold unlock.
  apply Sends_bind; [apply Sends_call; rewrite He; apply P_unlock |].
  intros; apply Sends_ret.
Qed.

(** What [getClient] sends, and what it leaves in the provider. *)
Lemma getClient_sends (s : State) :
  sessionEndpoint (provider s) = e ->
  exists calls : list Call,
    log (snd (getClient s)) = (log s ++ calls)%list
    /\ Forall P calls
    /\ sameConfiguration (provider s) (provider (snd (getClient s)))
    /\ (forall c, Provider.client (provider (snd (getClient s))) = Some c ->
                  endpointUrl c = e)
    /\ (forall c, fst (getClient s) = Ok c ->
                  Provider.client (provider (snd (getClient s))) = Some c).
Proof.
  intros He. unfold sessionEndpoint in He.
  unfold getClient, currentClient.
  destruct (Provider.client (provider s)) as [c0 |] eqn:Hc.
  - exists []. simpl. rewrite app_nil_r.
    split; [reflexivity |]. split; [constructor |].
    split; [apply sameConfiguration_refl |]. split.
    + intros c H. rewrite Hc in H. now inversion H; subst.
    + intros c H. now inversion H; subst.
  - unfold newClient.
    destruct (newHTTPClient (world s)) as [h | err].
    + set (c := mkClient R h (getEndpointURL (provider s))).
      set (s2 := setClient (Some c) s).
      destruct (login_sends (fun _ => True) c
                  (Provider.Username (provider s2))
                  (Provider.Password (provider s2))
                  (Provider.SharedSecret (provider s2)) He s2 I)
        as (calls & Hlog & Hall & Hprov).
      destruct (login c _ _ _ s2) as [[[] | err] s3]; simpl in *.
      * exists calls. rewrite Hprov. simpl.
        split; [exact Hlog |]. split; [exact Hall |].
        split; [unfold sameConfiguration; rewrite Hprov; now repeat split |].
        split; intros c' H.
        -- rewrite Hprov in H. simpl in H. now inversion H; subst.
        -- inversion H; subst. now rewrite Hprov.
      * exists calls.
        split; [exact Hlog |]. split; [exact Hall |].
        split; [unfold sameConfiguration; rewrite Hprov; now repeat split |].
        split.
        -- intros c' H. rewrite Hprov in H. simpl in H. now inversion H; subst.
        -- intros c' H. discriminate.
    + exists []. simpl. rewrite app_nil_r.
      split; [reflexivity |]. split; [constructor |].
      split; [now repeat split |]. split; intros c H; discriminate.
Qed.

Lemma removeClient_sends (s : State) :
  (forall c, Provider.client (provider s) = Some c -> endpointUrl c = e) ->
  exists calls : list Call,
    log (snd (removeClient s)) = (log s ++ calls)%list
    /\ Forall P calls
    /\ sameConfiguration (provider s) (provider (snd (removeClient s))).
Proof.
  intros He.
  destruct (Provider.client (provider s)) as [c |] eqn:Hc.
  - exists [logoutCall c]. rewrite (removeClient_log c s Hc).
    split; [reflexivity |]. split.
    + constructor; [| constructor]. unfold logoutCall.
      rewrite (He c eq_refl). exact P_logout.
    + rewrite (removeClient_run c s Hc). simpl.
      rewrite logout_state, call_provider. now repeat split.
  - exists []. unfold removeClient. rewrite Hc. simpl. rewrite app_nil_r.
    split; [reflexivity |]. split; [constructor | apply sameConfiguration_refl].
Qed.

(** An operation sends what opening the session, its work and
    closing the session send. *)
Lemma inSession_sends {A : Type} (rest : result client -> M A) (s : State) :
  sessionEndpoint (provider s) = e ->
  (forall err, rest (Err err) = throw err) ->
  (forall c, endpointUrl c = e -> Sends (holds c) P (rest (Ok c))) ->
  exists calls : list Call,
    log (snd (inSession rest s)) = (log s ++ calls)%list
    /\ Forall P calls
    /\ sameConfiguration (provider s) (provider (snd (inSession rest s))).
Proof.
  intros He Herr Hwork.
  destruct (getClient_sends s He) as (calls1 & Hlog1 & Hall1 & Hcfg1 & Hend1 & Hok1).
  unfold inSession, defer.
  destruct (getClient s) as [r s1]; simpl in *.
  assert (Hrest : exists calls2,
             log (snd (rest r s1)) = (log s1 ++ calls2)%list
             /\ Forall P calls2
             /\ provider (snd (rest r s1)) = provider s1).
  { destruct r as [c | err].
    - apply Hwork; [apply Hend1 |]; now apply Hok1.
    - rewrite Herr. exists []. simpl. rewrite app_nil_r. now repeat split. }
  destruct Hrest as (calls2 & Hlog2 & Hall2 & Hprov2).
  destruct (rest r s1) as [res s2]; simpl in *.
  assert (Hend2 : forall c, Provider.client (provider s2) = Some c ->
                            endpointUrl c = e).
  { intros c Hc. apply Hend1. now rewrite <- Hprov2. }
  destruct (removeClient_sends s2 Hend2) as (calls3 & Hlog3 & Hall3 & Hcfg3).
  exists (calls1 ++ calls2 ++ calls3)%list. split; [| split].
  - rewrite Hlog3, Hlog2, Hlog1. now rewrite <- !app_assoc.
  - apply Forall_app; split; [exact Hall1 |].
    apply Forall_app; split; assumption.
  - apply (sameConfiguration_trans _ _ _ Hcfg1).
    rewrite <- Hprov2. exact Hcfg3.
Qed.

End Session.
End OperationSends.

Section WorkSends.
Context `{R : Remote} `{L : LibDNS}.
Variable e : string.
Variable P : Call -> Prop.

Lemma getRecords_sends (I : Provider.t -> Prop) (c : client) (domain : string) :
  endpointUrl c = e -> allowsInfo e P -> Sends I P (getRecords c domain).
Proof.
  intros He HP. unfold getRecords.
  apply Sends_bind; [apply Sends_call; rewrite He; apply HP |].
  intros payload. apply Sends_bind; [apply Sends_unmarshal |].
  intros; apply Sends_ret.
Qed.

Lemma findRecords_sends (I : Provider.t -> Prop) (c : client)
  (record : nameserverRecord.t) (domain : string) (matchContent : bool) :
  endpointUrl c = e -> allowsInfo e P ->
  Sends I P (findRecords c record domain matchContent).
Proof.
  intros He HP. unfold findRecords.
  apply Sends_bind; [apply Sends_call; rewrite He; apply HP |].
  intros payload. apply Sends_bind; [apply Sends_unmarshal |].
  intros; apply Sends_ret.
Qed.

Lemma createRecord_sends (I : Provider.t -> Prop) (c : client)
  (record : nameserverRecord.t) (domain : string) :
  endpointUrl c = e -> allowsCreate e P -> Sends I P (createRecord c record domain).
Proof.
  intros He HP. unfold createRecord.
  apply Sends_bind; [apply Sends_call; rewrite He; apply HP |].
  intros payload. apply Sends_bind; [apply Sends_unmarshal |].
  intros; apply Sends_ret.
Qed.

Lemma updateRecord_sends (I : Provider.t -> Prop) (c : client)
  (record : nameserverRecord.t) :
  endpointUrl c = e -> allowsUpdate e P -> Sends I P (updateRecord c record).
Proof.
  intros He HP. unfold updateRecord.
  destruct (String.eqb_spec (nameserverRecord.ID record) "") as [E | Hid].
  - apply Sends_throw.
  - apply Sends_bind; [apply Sends_call; rewrite He; now apply HP |].
    intros; apply Sends_ret.
Qed.

Lemma deleteRecord_sends (I : Provider.t -> Prop) (c : client)
  (record : nameserverRecord.t) :
  endpointUrl c = e -> allowsDelete e P -> Sends I P (deleteRecord c record).
Proof.
  intros He HP. unfold deleteRecord.
  apply Sends_bind; [apply Sends_call; rewrite He; apply HP |].
  intros; apply Sends_ret.
Qed.

Lemma GetRecords_rest_sends (zone : string) (c : client) :
  endpointUrl c = e -> allowsInfo e P ->
  Sends (holds c) P (GetRecords_rest zone (Ok c)).
Proof.
  intros He HP. unfold GetRecords_rest.
  apply Sends_bind; [now apply getRecords_sends |].
  intros recs. apply Sends_forRange.
  intros x acc. unfold GetRecords_body.
  destruct (libdnsRecord x zone); [apply Sends_ret | apply Sends_throw].
Qed.

Lemma AppendRecords_rest_sends (zone : string) (records : list Record)
  (c : client) :
  endpointUrl c = e -> allowsCreate e P ->
  Sends (holds c) P (AppendRecords_rest zone records (Ok c)).
Proof.
  intros He HP. unfold AppendRecords_rest.
  apply Sends_forRange. intros record acc. unfold AppendRecords_body.
  apply Sends_bind; [now apply createRecord_sends |].
  intros; apply Sends_ret.
Qed.

Lemma SetRecords_rest_sends (zone : string) (records : list Record)
  (c : client) :
  endpointUrl c = e -> allowsInfo e P -> allowsCreate e P -> allowsUpdate e P ->
  Sends (holds c) P (SetRecords_rest zone records (Ok c)).
Proof.
  intros He Hinfo Hcreate Hupdate. unfold SetRecords_rest.
  apply Sends_forRange. intros record acc. unfold SetRecords_body.
  apply Sends_currentClient.
  apply Sends_bind; [now apply findRecords_sends |].
  intros matches.
  destruct (List.length matches =? 0)%nat.
  - apply Sends_bind; [now apply createRecord_sends |].
    intros; apply Sends_ret.
  - destruct (1 <? List.length matches)%nat; [apply Sends_throw |].
    destruct matches as [| m rest]; [apply Sends_throw |].
    apply Sends_bind; [now apply updateRecord_sends |].
    intros; apply Sends_ret.
Qed.

Lemma DeleteRecords_rest_sends (zone : string) (records : list Record)
  (c : client) :
  endpointUrl c = e -> allowsInfo e P -> allowsDelete e P ->
  Sends (holds c) P (DeleteRecords_rest zone records (Ok c)).
Proof.
  intros He Hinfo Hdelete. unfold DeleteRecords_rest.
  apply Sends_forRange. intros record acc. unfold DeleteRecords_body.
  apply Sends_currentClient.
  apply Sends_bind; [now apply findRecords_sends |].
  intros matches. apply Sends_forRange.
  intros m acc'. unfold DeleteRecords_inner.
  apply Sends_bind; [now apply deleteRecord_sends |].
  intros; apply Sends_ret.
Qed.

(** The four operations. *)
Lemma GetRecords_sends (zone : string) (s : State) :
  sessionEndpoint (provider s) = e ->
  allowsLogin e P -> allowsUnlock e P -> allowsLogout e P -> allowsInfo e P ->
  exists calls : list Call,
    log (snd (GetRecords zone s)) = (log s ++ calls)%list
    /\ Forall P calls
    /\ sameConfiguration (provider s) (provider (snd (GetRecords zone s))).
Proof.
  intros He H1 H2 H3 Hinfo.
  change (GetRecords zone s) with (inSession (GetRecords_rest zone) s).
  apply (inSession_sends e P H1 H2 H3); [exact He | reflexivity |].
  intros c Hc. now apply GetRecords_rest_sends.
Qed.

Lemma AppendRecords_sends (zone : string) (records : list Record) (s : State) :
  sessionEndpoint (provider s) = e ->
  allowsLogin e P -> allowsUnlock e P -> allowsLogout e P -> allowsCreate e P ->
  exists calls : list Call,
    log (snd (AppendRecords zone records s)) = (log s ++ calls)%list
    /\ Forall P calls
    /\ sameConfiguration (provider s)
         (provider (snd (AppendRecords zone records s))).
Proof.
  intros He H1 H2 H3 Hcreate.
  change (AppendRecords zone records s)
    with (inSession (AppendRecords_rest zone records) s).
  apply (inSession_sends e P H1 H2 H3); [exact He | reflexivity |].
  intros c Hc. now apply AppendRecords_rest_sends.
Qed.

Lemma SetRecords_sends (zone : string) (records : list Record) (s : State) :
  sessionEndpoint (provider s) = e ->
  allowsLogin e P -> allowsUnlock e P -> allowsLogout e P ->
  allowsInfo e P -> allowsCreate e P -> allowsUpdate e P ->
  exists calls : list Call,
    log (snd (SetRecords zone records s)) = (log s ++ calls)%list
    /\ Forall P calls
    /\ sameConfiguration (provider s)
         (provider (snd (SetRecords zone records s))).
Proof.
  intros He H1 H2 H3 Hinfo Hcreate Hupdate.
  change (SetRecords zone records s)
    with (inSession (SetRecords_rest zone records) s).
  apply (inSession_sends e P H1 H2 H3); [exact He | reflexivity |].
  intros c Hc. now apply SetRecords_rest_sends.
Qed.

Lemma DeleteRecords_sends (zone : string) (records : list Record) (s : State) :
  sessionEndpoint (provider s) = e ->
  allowsLogin e P -> allowsUnlock e P -> allowsLogout e P ->
  allowsInfo e P -> allowsDelete e P ->
  exists calls : list Call,
    log (snd (DeleteRecords zone records s)) = (log s ++ calls)%list
    /\ Forall P calls
    /\ sameConfiguration (provider s)
         (provider (snd (DeleteRecords zone records s))).
Proof.
  intros He H1 H2 H3 Hinfo Hdelete.
  change (DeleteRecords zone records s)
    with (inSession (DeleteRecords_rest zone records) s).
  apply (inSession_sends e P H1 H2 H3); [exact He | reflexivity |].
  intros c Hc. now apply DeleteRecords_rest_sends.
Qed.

End WorkSends.

Section OperationInvariants.
Context `{R : Remote} `{L : LibDNS}.

Lemma ensureMinTTL_at_least (ttl : Z) : 300 <= ensureMinTTL ttl.
Proof.
  unfold ensureMinTTL. destruct (Z.ltb_spec ttl 300); lia.
Qed.

(** Whatever the state it starts in and however it ends, each
    operation sends only the session calls and the calls of its own
    kind: [GetRecords] only reads, [AppendRecords] only creates,
    [SetRecords] never deletes, [DeleteRecords] never creates or
    updates. *)
Theorem operations_keep_to_their_methods (zone : string)
  (records : list Record) (s : State) :
  (exists calls : list Call,
      log (snd (GetRecords zone s)) = (log s ++ calls)%list
      /\ Forall (usesMethods ["account.login"; "account.unlock";
                              "account.logout"; "nameserver.info"]) calls)
  /\ (exists calls : list Call,
         log (snd (AppendRecords zone records s)) = (log s ++ calls)%list
         /\ Forall (usesMethods ["account.login"; "account.unlock";
                                 "account.logout"; "nameserver.createRecord"])
              calls)
  /\ (exists calls : list Call,
         log (snd (SetRecords zone records s)) = (log s ++ calls)%list
         /\ Forall (usesMethods ["account.login"; "account.unlock";
                                 "account.logout"; "nameserver.info";
                                 "nameserver.createRecord";
                                 "nameserver.updateRecord"]) calls)
  /\ (exists calls : list Call,
         log (snd (DeleteRecords zone records s)) = (log s ++ calls)%list
         /\ Forall (usesMethods ["account.login"; "account.unlock";
                                 "account.logout"; "nameserver.info";
                                 "nameserver.deleteRecord"]) calls).
Proof.
  split; [| split; [| split]].
  - destruct (GetRecords_sends (sessionEndpoint (provider s))
                (usesMethods ["account.login"; "account.unlock";
                              "account.logout"; "nameserver.info"]) zone s)
      as (calls & Hlog & Hall & _);
      try (unfold allowsLogin, allowsUnlock, allowsLogout, allowsInfo,
           usesMethods; simpl; tauto).
    now exists calls.
  - destruct (AppendRecords_sends (sessionEndpoint (provider s))
                (usesMethods ["account.login"; "account.unlock";
                              "account.logout"; "nameserver.createRecord"])
                zone records s)
      as (calls & Hlog & Hall & _);
      try (unfold allowsLogin, allowsUnlock, allowsLogout, allowsCreate,
           usesMethods; simpl; tauto).
    now exists calls.
  - destruct (SetRecords_sends (sessionEndpoint (provider s))
                (usesMethods ["account.login"; "account.unlock";
                              "account.logout"; "nameserver.info";
                              "nameserver.createRecord";
                              "nameserver.updateRecord"]) zone records s)
      as (calls & Hlog & Hall & _);
      try (unfold allowsLogin, allowsUnlock, allowsLogout, allowsInfo,
           allowsCreate, allowsUpdate, usesMethods; simpl; tauto).
    now exists calls.
  - destruct (DeleteRecords_sends (sessionEndpoint (provider s))
                (usesMethods ["account.login"; "account.unlock";
                              "account.logout"; "nameserver.info";
                              "nameserver.deleteRecord"]) zone records s)
      as (calls & Hlog & Hall & _);
      try (unfold allowsLogin, allowsUnlock, allowsLogout, allowsInfo,
           allowsDelete, usesMethods; simpl; tauto).
    now exists calls.
Qed.

(** Every create and update request that [AppendRecords] or
    [SetRecords] sends, on any path, carries a TTL of at least 300,
    and every update request carries an id. *)
Theorem writes_are_well_formed (zone : string) (records : list Record)
  (s : State) :
  (exists calls : list Call,
      log (snd (AppendRecords zone records s)) = (log s ++ calls)%list
      /\ Forall wellFormedWrite calls)
  /\ (exists calls : list Call,
         log (snd (SetRecords zone records s)) = (log s ++ calls)%list
         /\ Forall wellFormedWrite calls).
Proof.
  assert (Hcreate : allowsCreate (sessionEndpoint (provider s)) wellFormedWrite).
  { intros record domain. apply ensureMinTTL_at_least. }
  assert (Hupdate : allowsUpdate (sessionEndpoint (provider s)) wellFormedWrite).
  { intros record Hid. split; [apply ensureMinTTL_at_least | exact Hid]. }
  split.
  - destruct (AppendRecords_sends (sessionEndpoint (provider s))
                wellFormedWrite zone records s)
      as (calls & Hlog & Hall & _);
      try exact Hcreate;
      try (unfold allowsLogin, allowsUnlock, allowsLogout, wellFormedWrite;
           simpl; tauto).
    now exists calls.
  - destruct (SetRecords_sends (sessionEndpoint (provider s))
                wellFormedWrite zone records s)
      as (calls & Hlog & Hall & _);
      try exact Hcreate; try exact Hupdate;
      try (unfold allowsLogin, allowsUnlock, allowsLogout, allowsInfo,
           wellFormedWrite; simpl; tauto).
    now exists calls.
Qed.

Lemma getEndpointURL_not_empty (p : Provider.t) : getEndpointURL p <> "".
Proof.
  unfold getEndpointURL.
  destruct (String.eqb_spec (Provider.EndpointURL p) "") as [E | E].
  - discriminate.
  - exact E.
Qed.

(** All the calls of an operation go to one endpoint: the one of the
    client the provider holds or, for a provider without a client, the
    configured URL, which is the production endpoint when none is
    configured and is never empty. *)
Theorem operations_use_one_endpoint (zone : string) (records : list Record)
  (s : State) :
  let e := sessionEndpoint (provider s) in
  ((exists calls : list Call,
       log (snd (GetRecords zone s)) = (log s ++ calls)%list
       /\ Forall (fun k => callEndpoint k = e) calls)
   /\ (exists calls : list Call,
          log (snd (AppendRecords zone records s)) = (log s ++ calls)%list
          /\ Forall (fun k => callEndpoint k = e) calls)
   /\ (exists calls : list Call,
          log (snd (SetRecords zone records s)) = (log s ++ calls)%list
          /\ Forall (fun k => callEndpoint k = e) calls)
   /\ (exists calls : list Call,
          log (snd (DeleteRecords zone records s)) = (log s ++ calls)%list
          /\ Forall (fun k => callEndpoint k = e) calls))
  /\ (forall c, Provider.client (provider s) = Some c -> e = endpointUrl c)
  /\ (Provider.client (provider s) = None ->
      (Provider.EndpointURL (provider s) = "" ->
       e = "https://api.domrobot.com/jsonrpc/")
      /\ (Provider.EndpointURL (provider s) <> "" ->
          e = Provider.EndpointURL (provider s))
      /\ e <> "").
Proof.
  intros e. split; [| split].
  - split; [| split; [| split]].
    + destruct (GetRecords_sends e (fun k => callEndpoint k = e) zone s)
        as (calls & Hlog & Hall & _); try (intro; intros; reflexivity);
        try reflexivity.
      now exists calls.
    + destruct (AppendRecords_sends e (fun k => callEndpoint k = e)
                  zone records s)
        as (calls & Hlog & Hall & _); try (intro; intros; reflexivity);
        try reflexivity.
      now exists calls.
    + destruct (SetRecords_sends e (fun k => callEndpoint k = e)
                  zone records s)
        as (calls & Hlog & Hall & _); try (intro; intros; reflexivity);
        try reflexivity.
      now exists calls.
    + destruct (DeleteRecords_sends e (fun k => callEndpoint k = e)
                  zone records s)
        as (calls & Hlog & Hall & _); try (intro; intros; reflexivity);
        try reflexivity.
      now exists calls.
  - intros c Hc. subst e. unfold sessionEndpoint. now rewrite Hc.
  - intros Hc. subst e. unfold sessionEndpoint. rewrite Hc.
    split; [| split].
    + intros Hurl. unfold getEndpointURL. now rewrite Hurl.
    + intros Hurl. unfold getEndpointURL.
      destruct (String.eqb_spec (Provider.EndpointURL (provider s)) "");
        [contradiction | reflexivity].
    + apply getEndpointURL_not_empty.
Qed.

(** No operation touches the configuration of the provider: user
    name, password, shared secret and endpoint URL are after the call
    what they were before it. *)
Theorem operations_keep_configuration (zone : string) (records : list Record)
  (s : State) :
  sameConfiguration (provider s) (provider (snd (GetRecords zone s)))
  /\ sameConfiguration (provider s)
       (provider (snd (AppendRecords zone records s)))
  /\ sameConfiguration (provider s)
       (provider (snd (SetRecords zone records s)))
  /\ sameConfiguration (provider s)
       (provider (snd (DeleteRecords zone records s))).
Proof.
  split; [| split; [| split]].
  - destruct (GetRecords_sends (sessionEndpoint (provider s)) (fun _ => True)
                zone s) as (calls & _ & _ & Hcfg);
      try (intro; intros; exact Logic.I); try exact Logic.I; try reflexivity.
    exact Hcfg.
  - destruct (AppendRecords_sends (sessionEndpoint (provider s))
                (fun _ => True) zone records s) as (calls & _ & _ & Hcfg);
      try (intro; intros; exact Logic.I); try exact Logic.I; try reflexivity.
    exact Hcfg.
  - destruct (SetRecords_sends (sessionEndpoint (provider s))
                (fun _ => True) zone records s) as (calls & _ & _ & Hcfg);
      try (intro; intros; exact Logic.I); try exact Logic.I; try reflexivity.
    exact Hcfg.
  - destruct (DeleteRecords_sends (sessionEndpoint (provider s))
                (fun _ => True) zone records s) as (calls & _ & _ & Hcfg);
      try (intro; intros; exact Logic.I); try exact Logic.I; try reflexivity.
    exact Hcfg.
Qed.

End OperationInvariants.

Section SessionBracket.
Context `{R : Remote} `{L : LibDNS}.

Lemma inSession_run {A : Type} (rest : result client -> M A) (s : State) :
  inSession rest s =
  (fst (rest (fst (getClient s)) (snd (getClient s))),
   snd (removeClient (snd (rest (fst (getClient s)) (snd (getClient s)))))).
Proof.
  unfold inSession, defer. destruct (getClient s) as [r s1]. simpl.
  destruct (rest r s1); reflexivity.
Qed.

(** [getClient] on a provider without a client. *)
Lemma getClient_fresh (s : State) :
  Provider.client (provider s) = None ->
  getClient s =
  match newHTTPClient (world s) with
  | Err err => (Err err, setClient None s)
  | Ok h =>
      let c := mkClient _ h (getEndpointURL (provider s)) in
      match login c (Provider.Username (provider s))
              (Provider.Password (provider s))
              (Provider.SharedSecret (provider s)) (setClient (Some c) s) with
      | (Err err, s1) => (Err err, s1)
      | (Ok _, s1) => (Ok c, s1)
      end
  end.
Proof.
  intros Hc. unfold getClient. rewrite Hc. unfold newClient.
  destruct (newHTTPClient (world s)) as [h | err]; [| reflexivity].
  cbn [setClient provider Provider.Username Provider.Password
       Provider.SharedSecret].
  pose proof (login_provider (mkClient _ h (getEndpointURL (provider s)))
                (Provider.Username (provider s))
                (Provider.Password (provider s))
                (Provider.SharedSecret (provider s))
                (setClient (Some (mkClient _ h (getEndpointURL (provider s)))) s))
    as Hprov.
  destruct (login _ _ _ _ _) as [[[] | err] s1]; [| reflexivity].
  simpl in Hprov. unfold currentClient. now rewrite Hprov.
Qed.

(** An operation whose session opens: the work, then the logout. *)
Lemma inSession_bracket {A : Type} (P : Call -> Prop)
  (rest : result client -> M A) (s : State) (c : client) (s1 : State) :
  getClient s = (Ok c, s1) ->
  Sends (holds c) P (rest (Ok c)) ->
  exists work : list Call,
    log (snd (inSession rest s)) = (log s1 ++ work ++ [logoutCall c])%list
    /\ Forall P work
    /\ fst (inSession rest s) = fst (rest (Ok c) s1).
Proof.
  intros Hget Hsends.
  pose proof (getClient_stores c s s1 Hget) as Hstored.
  destruct (Hsends s1 Hstored) as (work & Hlog & Hall & Hprov).
  exists work. rewrite inSession_run, Hget. simpl.
  split; [| split; [exact Hall | reflexivity]].
  rewrite (removeClient_log c) by (now rewrite Hprov).
  now rewrite Hlog, <- app_assoc.
Qed.

(** An operation whose session does not open. *)
Lemma inSession_not_opened {A : Type} (rest : result client -> M A)
  (s : State) (err : error) (s1 : State) :
  (forall e, rest (Err e) = throw e) ->
  getClient s = (Err err, s1) ->
  inSession rest s = (Err err, snd (removeClient s1)).
Proof.
  intros Hrest Hget. rewrite inSession_run, Hget. simpl.
  now rewrite Hrest.
Qed.

(** Once the session is open, each operation sends its work and then
    exactly one logout, as the last call; the work holds no session
    call. A session that was open before the call is used as it is,
    without a login, and is closed all the same. *)
Theorem operations_work_then_logout (zone : string) (records : list Record)
  (s : State) (c : client) (s1 : State) :
  getClient s = (Ok c, s1) ->
  ((exists work : list Call,
       log (snd (GetRecords zone s)) = (log s1 ++ work ++ [logoutCall c])%list
       /\ Forall (usesMethods ["nameserver.info"]) work)
   /\ (exists work : list Call,
          log (snd (AppendRecords zone records s)) =
          (log s1 ++ work ++ [logoutCall c])%list
          /\ Forall (usesMethods ["nameserver.createRecord"]) work)
   /\ (exists work : list Call,
          log (snd (SetRecords zone records s)) =
          (log s1 ++ work ++ [logoutCall c])%list
          /\ Forall (usesMethods ["nameserver.info"; "nameserver.createRecord";
                                  "nameserver.updateRecord"]) work)
   /\ (exists work : list Call,
          log (snd (DeleteRecords zone records s)) =
          (log s1 ++ work ++ [logoutCall c])%list
          /\ Forall (usesMethods ["nameserver.info";
                                  "nameserver.deleteRecord"]) work))
  /\ (forall c0, Provider.client (provider s) = Some c0 -> c0 = c /\ s1 = s).
Proof.
  intros Hget. split.
  - split; [| split; [| split]].
    + destruct (inSession_bracket (usesMethods ["nameserver.info"])
                  (GetRecords_rest zone) s c s1 Hget)
        as (work & Hlog & Hall & _).
      { apply (GetRecords_rest_sends (endpointUrl c)); [reflexivity |].
        intros request. unfold usesMethods. simpl. tauto. }
      now exists work.
    + destruct (inSession_bracket (usesMethods ["nameserver.createRecord"])
                  (AppendRecords_rest zone records) s c s1 Hget)
        as (work & Hlog & Hall & _).
      { apply (AppendRecords_rest_sends (endpointUrl c)); [reflexivity |].
        intros record domain. unfold usesMethods. simpl. tauto. }
      now exists work.
    + destruct (inSession_bracket
                  (usesMethods ["nameserver.info"; "nameserver.createRecord";
                                "nameserver.updateRecord"])
                  (SetRecords_rest zone records) s c s1 Hget)
        as (work & Hlog & Hall & _).
      { apply (SetRecords_rest_sends (endpointUrl c)); [reflexivity | | |];
          intro; intros; unfold usesMethods; simpl; tauto. }
      now exists work.
    + destruct (inSession_bracket
                  (usesMethods ["nameserver.info"; "nameserver.deleteRecord"])
                  (DeleteRecords_rest zone records) s c s1 Hget)
        as (work & Hlog & Hall & _).
      { apply (DeleteRecords_rest_sends (endpointUrl c)); [reflexivity | |];
          intro; intros; unfold usesMethods; simpl; tauto. }
      now exists work.
  - intros c0 Hc0. rewrite (getClient_reuses_client c0 s Hc0) in Hget.
    now inversion Hget.
Qed.

(** When the session cannot be opened on a provider without a
    client: if no HTTP client can be made, each operation returns that
    error and sends nothing; if the login fails, each operation
    returns the error of the login and still sends a logout, because
    the client was stored before the login. *)
Theorem operations_when_session_fails (zone : string) (records : list Record)
  (s : State) :
  Provider.client (provider s) = None ->
  (forall err,
      newHTTPClient (world s) = Err err ->
      (fst (GetRecords zone s) = Err err
       /\ fst (AppendRecords zone records s) = Err err
       /\ fst (SetRecords zone records s) = Err err
       /\ fst (DeleteRecords zone records s) = Err err)
      /\ (log (snd (GetRecords zone s)) = log s
          /\ log (snd (AppendRecords zone records s)) = log s
          /\ log (snd (SetRecords zone records s)) = log s
          /\ log (snd (DeleteRecords zone records s)) = log s))
  /\ (forall h err s1,
         newHTTPClient (world s) = Ok h ->
         login (mkClient _ h (getEndpointURL (provider s)))
           (Provider.Username (provider s)) (Provider.Password (provider s))
           (Provider.SharedSecret (provider s))
           (setClient (Some (mkClient _ h (getEndpointURL (provider s)))) s)
         = (Err err, s1) ->
         (fst (GetRecords zone s) = Err err
          /\ fst (AppendRecords zone records s) = Err err
          /\ fst (SetRecords zone records s) = Err err
          /\ fst (DeleteRecords zone records s) = Err err)
         /\ (let bye :=
               logoutCall (mkClient _ h (getEndpointURL (provider s))) in
             log (snd (GetRecords zone s)) = (log s1 ++ [bye])%list
             /\ log (snd (AppendRecords zone records s)) = (log s1 ++ [bye])%list
             /\ log (snd (SetRecords zone records s)) = (log s1 ++ [bye])%list
             /\ log (snd (DeleteRecords zone records s)) =
                (log s1 ++ [bye])%list)).
Proof.
  intros Hnone. split.
  - intros err Hnew.
    assert (Hget : getClient s = (Err err, setClient None s)).
    { rewrite (getClient_fresh s Hnone). now rewrite Hnew. }
    assert (Hrm : removeClient (setClient None s) = (Ok tt, setClient None s))
      by reflexivity.
    change (GetRecords zone s) with (inSession (GetRecords_rest zone) s).
    change (AppendRecords zone records s)
      with (inSession (AppendRecords_rest zone records) s).
    change (SetRecords zone records s)
      with (inSession (SetRecords_rest zone records) s).
    change (DeleteRecords zone records s)
      with (inSession (DeleteRecords_rest zone records) s).
    rewrite (inSession_not_opened (GetRecords_rest zone) s err _
               (fun e => eq_refl) Hget),
      (inSession_not_opened (AppendRecords_rest zone records) s err _
         (fun e => eq_refl) Hget),
      (inSession_not_opened (SetRecords_rest zone records) s err _
         (fun e => eq_refl) Hget),
      (inSession_not_opened (DeleteRecords_rest zone records) s err _
         (fun e => eq_refl) Hget), Hrm.
    simpl. now repeat split.
  - intros h err s1 Hnew Hlogin.
    assert (Hget : getClient s = (Err err, s1)).
    { rewrite (getClient_fresh s Hnone), Hnew. cbv zeta. now rewrite Hlogin. }
    set (c := mkClient _ h (getEndpointURL (provider s))) in *.
    assert (Hc1 : Provider.client (provider s1) = Some c).
    { pose proof (login_provider c (Provider.Username (provider s))
                    (Provider.Password (provider s))
                    (Provider.SharedSecret (provider s))
                    (setClient (Some c) s)) as Hp.
      rewrite Hlogin in Hp. simpl in Hp. now rewrite Hp. }
    change (GetRecords zone s) with (inSession (GetRecords_rest zone) s).
    change (AppendRecords zone records s)
      with (inSession (AppendRecords_rest zone records) s).
    change (SetRecords zone records s)
      with (inSession (SetRecords_rest zone records) s).
    change (DeleteRecords zone records s)
      with (inSession (DeleteRecords_rest zone records) s).
    rewrite (inSession_not_opened (GetRecords_rest zone) s err _
               (fun e => eq_refl) Hget),
      (inSession_not_opened (AppendRecords_rest zone records) s err _
         (fun e => eq_refl) Hget),
      (inSession_not_opened (SetRecords_rest zone records) s err _
         (fun e => eq_refl) Hget),
      (inSession_not_opened (DeleteRecords_rest zone records) s err _
         (fun e => eq_refl) Hget).
    simpl. rewrite (removeClient_log c s1 Hc1). now repeat split.
Qed.

End SessionBracket.

Section BatchShapes.
Context `{R : Remote} `{L : LibDNS}.

Lemma getRecords_state (c : client) (domain : string) (s : State) :
  snd (getRecords c domain s) =
  snd (call c "nameserver.info"
         (ParamsInfo (nameserverInfoRequest.mk domain "" "" "" 0 0%N)) s).
Proof.
  unfold getRecords. rewrite bind_run.
  destruct (call _ _ _ s) as [[p | e] s']; [| reflexivity].
  unfold bind, unmarshal, ret; simpl.
  destruct (unmarshalInfo p); reflexivity.
Qed.

Lemma GetRecords_loop_state (zone : string) (recs : list nameserverRecord.t) :
  forall (results : list Record) (s : State),
    snd (forRange recs (GetRecords_body zone) results s) = s.
Proof.
  induction recs as [| x recs IH]; intros results s.
  - reflexivity.
  - rewrite forRange_cons. unfold GetRecords_body at 1.
    destruct (libdnsRecord x zone) as [result | err]; simpl.
    + apply IH.
    + reflexivity.
Qed.

(** Once the session is open, [GetRecords] sends one lookup, for the
    domain of the zone and with no filter, and then the logout,
    whether the fetch and the decoding succeed or not; an error of the
    fetch is returned as it is. *)
Theorem GetRecords_sends_one_lookup (zone : string) (s : State) (c : client)
  (s1 : State) :
  getClient s = (Ok c, s1) ->
  log (snd (GetRecords zone s)) =
  (log s1
     ++ [mkCall (endpointUrl c) "nameserver.info"
           (ParamsInfo
              (nameserverInfoRequest.mk (getDomain zone) "" "" "" 0 0%N));
         logoutCall c])%list
  /\ (forall err,
         fst (getRecords c (getDomain zone) s1) = Err err ->
         fst (GetRecords zone s) = Err err).
Proof.
  intros Hget.
  pose proof (getClient_stores c s s1 Hget) as Hstored.
  rewrite GetRecords_run, Hget. simpl. unfold GetRecords_rest.
  rewrite bind_run.
  pose proof (getRecords_state c (getDomain zone) s1) as Hstate.
  destruct (getRecords c (getDomain zone) s1) as [[recs | err] s2];
    simpl in Hstate; simpl.
  - rewrite GetRecords_loop_state. split; [| intros err H; discriminate].
    rewrite (removeClient_log c).
    + rewrite Hstate, call_log. now rewrite <- app_assoc.
    + now rewrite Hstate, call_provider.
  - split; [| intros err' H; now inversion H].
    rewrite (removeClient_log c).
    + rewrite Hstate, call_log. now rewrite <- app_assoc.
    + now rewrite Hstate, call_provider.
Qed.

(** On an empty batch, [AppendRecords], [SetRecords] and
    [DeleteRecords] still open and close the session; in between they
    send nothing, and they return the empty list. *)
Theorem operations_on_empty_batch (zone : string) (s : State) (c : client)
  (s1 : State) :
  getClient s = (Ok c, s1) ->
  (fst (AppendRecords zone [] s) = Ok []
   /\ log (snd (AppendRecords zone [] s)) = (log s1 ++ [logoutCall c])%list)
  /\ (fst (SetRecords zone [] s) = Ok []
      /\ log (snd (SetRecords zone [] s)) = (log s1 ++ [logoutCall c])%list)
  /\ (fst (DeleteRecords zone [] s) = Ok []
      /\ log (snd (DeleteRecords zone [] s)) = (log s1 ++ [logoutCall c])%list).
Proof.
  intros Hget.
  pose proof (getClient_stores c s s1 Hget) as Hstored.
  rewrite AppendRecords_run, SetRecords_run, DeleteRecords_run, Hget. simpl.
  rewrite (removeClient_log c s1 Hstored). now repeat split.
Qed.

(** *** [SetRecords], a batch that runs to its end *)

Lemma SetRecords_body_ok (c : client) (zone : string) (record : Record)
  (acc : list Record) (s : State) (acc' : list Record) (s' : State) :
  holds c (provider s) ->
  SetRecords_body c zone record acc s = (Ok acc', s') ->
  acc' = (acc ++ [record])%list
  /\ provider s' = provider s
  /\ exists w : Call,
       setWrite c zone record w
       /\ log s' = (log s ++ [findCall c zone record false; w])%list.
Proof.
  intros Hc Hbody.
  pose proof (SetRecords_body_provider c zone record acc s) as Hprov.
  rewrite Hbody in Hprov. simpl in Hprov.
  pose proof (findRecords_log c zone record false s) as Hflog.
  destruct (findRecords c (inwxRecord record) (getDomain zone) false s)
    as [[matches | err] s_found] eqn:Hfind; simpl in Hflog.
  - rewrite (SetRecords_body_found c zone record acc s matches s_found Hc Hfind)
      in Hbody.
    destruct matches as [| m [| m' rest]].
    + pose proof (createRecord_state c (inwxRecord record) (getDomain zone)
                    s_found) as Hst.
      destruct (createRecord c (inwxRecord record) (getDomain zone) s_found)
        as [[id | err] s2]; simpl in *; inversion Hbody; subst.
      split; [reflexivity |]. split; [exact Hprov |].
      exists (createCall c zone record). split; [now left |].
      rewrite call_log, Hflog. now rewrite <- app_assoc.
    + destruct (string_dec (nameserverRecord.ID m) "") as [Hid | Hid].
      * rewrite updateRecord_without_id in Hbody by exact Hid.
        simpl in Hbody. discriminate.
      * pose proof (updateRecord_state c
                      (setID (inwxRecord record) (nameserverRecord.ID m))
                      s_found Hid) as Hst.
        destruct (updateRecord c _ s_found) as [[[] | err] s2];
          simpl in *; inversion Hbody; subst.
        split; [reflexivity |]. split; [exact Hprov |].
        exists (updateCall c (nameserverRecord.ID m) record).
        split; [right; now exists (nameserverRecord.ID m) |].
        rewrite call_log, Hflog. now rewrite <- app_assoc.
    + discriminate.
  - unfold SetRecords_body in Hbody.
    rewrite bind_run, (currentClient_run c s Hc), bind_run, Hfind in Hbody.
    discriminate.
Qed.

Lemma SetRecords_loop_ok (c : client) (zone : string) (records : list Record) :
  forall (acc : list Record) (s : State) (out : list Record) (s' : State),
    holds c (provider s) ->
    forRange records (SetRecords_body c zone) acc s = (Ok out, s') ->
    out = (acc ++ records)%list
    /\ provider s' = provider s
    /\ exists writes : list Call,
         Forall2 (setWrite c zone) records writes
         /\ log s' = (log s ++ setCalls c zone records writes)%list.
Proof.
  induction records as [| record rest IH]; intros acc s out s' Hc Hloop.
  - simpl in Hloop. inversion Hloop; subst.
    split; [now rewrite app_nil_r |]. split; [reflexivity |].
    exists []. split; [constructor |]. unfold setCalls. simpl.
    now rewrite app_nil_r.
  - rewrite forRange_cons in Hloop.
    destruct (SetRecords_body c zone record acc s) as [[acc1 | err] s1]
      eqn:Hbody; [| discriminate].
    destruct (SetRecords_body_ok c zone record acc s acc1 s1 Hc Hbody)
      as (-> & Hprov1 & w & Hw & Hlog1).
    assert (Hc1 : holds c (provider s1)) by (unfold holds; now rewrite Hprov1).
    destruct (IH _ s1 out s' Hc1 Hloop) as (-> & Hprov & writes & Hws & Hlog).
    split; [now rewrite <- app_assoc |]. split; [congruence |].
    exists (w :: writes). split; [now constructor |].
    rewrite Hlog, Hlog1. unfold setCalls. simpl.
    now rewrite <- app_assoc.
Qed.

(** When [SetRecords] returns a list, the list is its input, and the
    calls it made after opening the session are, for each record in
    input order, the lookup by type and name followed by exactly one
    write (the create call of the record or an update call under a
    non-empty id), and then the logout. *)
Theorem SetRecords_success_shape (zone : string) (records : list Record)
  (s : State) (c : client) (s1 : State) (out : list Record) :
  getClient s = (Ok c, s1) ->
  fst (SetRecords zone records s) = Ok out ->
  out = records
  /\ exists writes : list Call,
       Forall2 (setWrite c zone) records writes
       /\ log (snd (SetRecords zone records s)) =
          (log s1 ++ setCalls c zone records writes ++ [logoutCall c])%list.
Proof.
  intros Hget Hout.
  pose proof (getClient_stores c s s1 Hget) as Hstored.
  rewrite SetRecords_run, Hget in *. simpl in *.
  destruct (forRange records (SetRecords_body c zone) [] s1)
    as [[out' | err] s2] eqn:Hloop; simpl in *; [| discriminate].
  inversion Hout; subst out'.
  destruct (SetRecords_loop_ok c zone records [] s1 out s2 Hstored Hloop)
    as (-> & Hprov & writes & Hws & Hlog).
  split; [reflexivity |]. exists writes. split; [exact Hws |].
  rewrite (removeClient_log c) by (now rewrite Hprov).
  now rewrite Hlog, <- app_assoc.
Qed.

(** *** [DeleteRecords], a batch that runs to its end *)

(** An inner loop that runs to its end: every delete call was
    accepted. *)
Lemma DeleteRecords_inner_ok (c : client) (record : Record)
  (matches : list nameserverRecord.t) :
  forall (results : list Record) (s : State) (out : list Record) (s' : State),
    forRange matches (DeleteRecords_inner c record) results s = (Ok out, s') ->
    deletesAccepted c matches s = true
    /\ s' = afterDeletes c matches s
    /\ out = (results ++ repeat record (List.length matches))%list.
Proof.
  induction matches as [| m rest IH]; intros results s out s' Hloop.
  - simpl in Hloop. inversion Hloop; subst. simpl.
    now rewrite app_nil_r.
  - rewrite forRange_cons, DeleteRecords_inner_run in Hloop. simpl.
    destruct (fst (deleteRecord c m s)) as [[] | err]; [| discriminate].
    destruct (IH _ _ _ _ Hloop) as (Hacc & -> & ->).
    simpl. rewrite Hacc. now rewrite <- app_assoc.
Qed.

(** A batch the remote accepts runs to its end along its trace. *)
Lemma DeleteRecords_loop_trace (c : client) (zone : string)
  (records : list Record) (s : State)
  (found : list (list nameserverRecord.t)) (s' : State) :
  deleteTrace c zone records s found s' ->
  forall acc : list Record,
    holds c (provider s) ->
    forRange records (DeleteRecords_body c zone) acc s =
    (Ok (acc ++ deleteResults records found)%list, s')
    /\ provider s' = provider s
    /\ log s' = (log s ++ deleteCalls c zone records found)%list
    /\ List.length found = List.length records.
Proof.
  induction 1 as [s | record rest s matches s_found found s' Hfind Hacc _ IH];
    intros acc Hc.
  - unfold deleteResults, deleteCalls. simpl. unfold ret.
    now rewrite !app_nil_r.
  - pose proof (findRecords_provider c (inwxRecord record) (getDomain zone)
                  true s) as Hprov.
    pose proof (findRecords_log c zone record true s) as Hlog.
    rewrite Hfind in Hprov, Hlog. simpl in Hprov, Hlog.
    assert (Hc' : holds c (provider (afterDeletes c matches s_found))).
    { unfold holds. now rewrite afterDeletes_provider, Hprov. }
    destruct (IH (acc ++ repeat record (List.length matches))%list Hc')
      as (Hrun & Hp & Hl & Hlen).
    rewrite forRange_cons,
      (DeleteRecords_body_found c zone record acc s matches s_found Hc Hfind),
      (DeleteRecords_inner_accepted c record matches acc s_found Hacc), Hrun.
    unfold deleteResults, deleteCalls in *. simpl.
    split; [now rewrite <- app_assoc |].
    split; [now rewrite Hp, afterDeletes_provider |].
    split; [| now rewrite Hlen].
    rewrite Hl, afterDeletes_log, Hlog. now rewrite <- !app_assoc.
Qed.

(** A batch that runs to its end has a trace. *)
Lemma DeleteRecords_loop_ok (c : client) (zone : string)
  (records : list Record) :
  forall (acc : list Record) (s : State) (out : list Record) (s' : State),
    holds c (provider s) ->
    forRange records (DeleteRecords_body c zone) acc s = (Ok out, s') ->
    exists found : list (list nameserverRecord.t),
      deleteTrace c zone records s found s'.
Proof.
  induction records as [| record rest IH]; intros acc s out s' Hc Hloop.
  - simpl in Hloop. inversion Hloop; subst. exists []. constructor.
  - rewrite forRange_cons in Hloop.
    destruct (DeleteRecords_body c zone record acc s) as [[acc1 | err] s1]
      eqn:Hbody; [| discriminate].
    pose proof (findRecords_provider c (inwxRecord record) (getDomain zone)
                  true s) as Hprov.
    destruct (findRecords c (inwxRecord record) (getDomain zone) true s)
      as [[matches | err] s_found] eqn:Hfind; simpl in Hprov.
    + rewrite (DeleteRecords_body_found c zone record acc s matches s_found
                 Hc Hfind) in Hbody.
      destruct (DeleteRecords_inner_ok c record matches _ _ _ _ Hbody)
        as (Hacc & -> & ->).
      assert (Hc' : holds c (provider (afterDeletes c matches s_found))).
      { unfold holds. now rewrite afterDeletes_provider, Hprov. }
      destruct (IH _ _ _ _ Hc' Hloop) as (found & Htrace).
      exists (matches :: found).
      now apply deleteTrace_cons with (s_found := s_found).
    + unfold DeleteRecords_body in Hbody.
      rewrite bind_run, (currentClient_run c s Hc), bind_run, Hfind in Hbody.
      discriminate.
Qed.

(** [DeleteRecords] returns a list exactly when the remote accepts
    every lookup and every delete call of the batch. Then, with
    [found] the lists the lookups returned, one per input record, the
    calls made after opening the session are, for each record in input
    order, the lookup by type, name and content followed by one delete
    call for each record that lookup returned, and then the logout; the
    list returned holds each input record once per record its lookup
    returned, in input order. *)
Theorem DeleteRecords_success_shape (zone : string) (records : list Record)
  (s : State) (c : client) (s1 : State) :
  getClient s = (Ok c, s1) ->
  (forall out : list Record,
      fst (DeleteRecords zone records s) = Ok out ->
      exists (found : list (list nameserverRecord.t)) (s_end : State),
        deleteTrace c zone records s1 found s_end
        /\ List.length found = List.length records
        /\ out = deleteResults records found
        /\ log (snd (DeleteRecords zone records s)) =
           (log s1 ++ deleteCalls c zone records found
                   ++ [logoutCall c])%list)
  /\ (forall (found : list (list nameserverRecord.t)) (s_end : State),
         deleteTrace c zone records s1 found s_end ->
         fst (DeleteRecords zone records s) = Ok (deleteResults records found)
         /\ log (snd (DeleteRecords zone records s)) =
            (log s1 ++ deleteCalls c zone records found
                    ++ [logoutCall c])%list).
Proof.
  intros Hget.
  pose proof (getClient_stores c s s1 Hget) as Hstored.
  assert (Htrace : forall found s_end,
             deleteTrace c zone records s1 found s_end ->
             List.length found = List.length records
             /\ fst (DeleteRecords zone records s)
                = Ok (deleteResults records found)
             /\ log (snd (DeleteRecords zone records s)) =
                (log s1 ++ deleteCalls c zone records found
                        ++ [logoutCall c])%list).
  { intros found s_end Htr.
    destruct (DeleteRecords_loop_trace c zone records s1 found s_end Htr []
                Hstored) as (Hrun & Hprov & Hlog & Hlen).
    rewrite DeleteRecords_run, Hget. simpl. rewrite Hrun. simpl.
    split; [exact Hlen |]. split; [reflexivity |].
    rewrite (removeClient_log c) by (now rewrite Hprov).
    now rewrite Hlog, <- app_assoc. }
  split.
  - intros out Hout.
    assert (Hloop : exists s2,
               forRange records (DeleteRecords_body c zone) [] s1
               = (Ok out, s2)).
    { rewrite DeleteRecords_run, Hget in Hout. simpl in Hout.
      destruct (forRange records (DeleteRecords_body c zone) [] s1)
        as [[out' | err] s2]; simpl in Hout; [| discriminate].
      inversion Hout; subst. now exists s2. }
    destruct Hloop as (s2 & Hloop).
    destruct (DeleteRecords_loop_ok c zone records [] s1 out s2 Hstored Hloop)
      as (found & Htr).
    destruct (Htrace found s2 Htr) as (Hlen & Hres & Hlog).
    exists found, s2. split; [exact Htr |]. split; [exact Hlen |].
    split; [| exact Hlog].
    rewrite Hres in Hout. now inversion Hout.
  - intros found s_end Htr.
    destruct (Htrace found s_end Htr) as (_ & Hres & Hlog).
    split; assumption.
Qed.

End BatchShapes.

Section BatchFailures.
Context `{R : Remote}.

(** A failing lookup is the failure of the step. *)
Lemma SetRecords_body_lookup_failure (c : client) (zone : string)
  (record : Record) (acc : list Record) (s : State) (err : error) :
  holds c (provider s) ->
  fst (findRecords c (inwxRecord record) (getDomain zone) false s) = Err err ->
  SetRecords_body c zone record acc s =
  (Err err, snd (findRecords c (inwxRecord record) (getDomain zone) false s)).
Proof.
  intros Hc Hfind. unfold SetRecords_body.
  rewrite bind_run, (currentClient_run c s Hc), bind_run.
  destruct (findRecords c (inwxRecord record) (getDomain zone) false s)
    as [[matches | e] s']; simpl in *; [discriminate |].
  now inversion Hfind.
Qed.

Lemma DeleteRecords_body_lookup_failure (c : client) (zone : string)
  (record : Record) (acc : list Record) (s : State) (err : error) :
  holds c (provider s) ->
  fst (findRecords c (inwxRecord record) (getDomain zone) true s) = Err err ->
  DeleteRecords_body c zone record acc s =
  (Err err, snd (findRecords c (inwxRecord record) (getDomain zone) true s)).
Proof.
  intros Hc Hfind. unfold DeleteRecords_body.
  rewrite bind_run, (currentClient_run c s Hc), bind_run.
  destruct (findRecords c (inwxRecord record) (getDomain zone) true s)
    as [[matches | e] s']; simpl in *; [discriminate |].
  now inversion Hfind.
Qed.

(** [SetRecords] and [DeleteRecords] stop at the first record whose
    step fails: the call returns the error of that step and no list,
    what the earlier records changed stays changed, and the only call
    after the failure is the logout. A lookup that fails is such a
    failure, with the lookup as the last call of the step. *)
Theorem batch_stops_at_first_failure (zone : string) (records : list Record)
  (s : State) (c : client) (s1 : State)
  (pre : list Record) (record : Record) (post : list Record) :
  getClient s = (Ok c, s1) ->
  records = (pre ++ record :: post)%list ->
  (forall done s_mid err s_fail,
      forRange pre (SetRecords_body c zone) [] s1 = (Ok done, s_mid) ->
      SetRecords_body c zone record done s_mid = (Err err, s_fail) ->
      fst (SetRecords zone records s) = Err err
      /\ log (snd (SetRecords zone records s)) =
         (log s_fail ++ [logoutCall c])%list)
  /\ (forall done s_mid err s_fail,
         forRange pre (DeleteRecords_body c zone) [] s1 = (Ok done, s_mid) ->
         DeleteRecords_body c zone record done s_mid = (Err err, s_fail) ->
         fst (DeleteRecords zone records s) = Err err
         /\ log (snd (DeleteRecords zone records s)) =
            (log s_fail ++ [logoutCall c])%list)
  /\ (forall done s_mid err,
         forRange pre (SetRecords_body c zone) [] s1 = (Ok done, s_mid) ->
         fst (findRecords c (inwxRecord record) (getDomain zone) false s_mid)
         = Err err ->
         fst (SetRecords zone records s) = Err err
         /\ log (snd (SetRecords zone records s)) =
            (log s_mid ++ [findCall c zone record false; logoutCall c])%list)
  /\ (forall done s_mid err,
         forRange pre (DeleteRecords_body c zone) [] s1 = (Ok done, s_mid) ->
         fst (findRecords c (inwxRecord record) (getDomain zone) true s_mid)
         = Err err ->
         fst (DeleteRecords zone records s) = Err err
         /\ log (snd (DeleteRecords zone records s)) =
            (log s_mid ++ [findCall c zone record true; logoutCall c])%list).
Proof.
  intros Hget ->.
  pose proof (getClient_stores c s s1 Hget) as Hstored.
  assert (Hset : forall done s_mid err s_fail,
      forRange pre (SetRecords_body c zone) [] s1 = (Ok done, s_mid) ->
      SetRecords_body c zone record done s_mid = (Err err, s_fail) ->
      fst (SetRecords zone (pre ++ record :: post) s) = Err err
      /\ log (snd (SetRecords zone (pre ++ record :: post) s)) =
         (log s_fail ++ [logoutCall c])%list).
  { intros done s_mid err s_fail Hpre Hstep.
    rewrite SetRecords_run, Hget. simpl.
    rewrite forRange_app, Hpre, forRange_cons, Hstep. simpl.
    split; [reflexivity |]. apply removeClient_log.
    pose proof (forRange_provider pre (SetRecords_body c zone)
                  (SetRecords_body_provider c zone) [] s1) as Hp.
    rewrite Hpre in Hp. simpl in Hp.
    pose proof (SetRecords_body_provider c zone record done s_mid) as Hq.
    rewrite Hstep in Hq. simpl in Hq. now rewrite Hq, Hp. }
  assert (Hdel : forall done s_mid err s_fail,
      forRange pre (DeleteRecords_body c zone) [] s1 = (Ok done, s_mid) ->
      DeleteRecords_body c zone record done s_mid = (Err err, s_fail) ->
      fst (DeleteRecords zone (pre ++ record :: post) s) = Err err
      /\ log (snd (DeleteRecords zone (pre ++ record :: post) s)) =
         (log s_fail ++ [logoutCall c])%list).
  { intros done s_mid err s_fail Hpre Hstep.
    rewrite DeleteRecords_run, Hget. simpl.
    rewrite forRange_app, Hpre, forRange_cons, Hstep. simpl.
    split; [reflexivity |]. apply removeClient_log.
    pose proof (forRange_provider pre (DeleteRecords_body c zone)
                  (DeleteRecords_body_provider c zone) [] s1) as Hp.
    rewrite Hpre in Hp. simpl in Hp.
    pose proof (DeleteRecords_body_provider c zone record done s_mid) as Hq.
    rewrite Hstep in Hq. simpl in Hq. now rewrite Hq, Hp. }
  split; [exact Hset |]. split; [exact Hdel |]. split.
  - intros done s_mid err Hpre Hfind.
    assert (Hmid : holds c (provider s_mid)).
    { pose proof (forRange_provider pre (SetRecords_body c zone)
                    (SetRecords_body_provider c zone) [] s1) as Hp.
      rewrite Hpre in Hp. simpl in Hp. unfold holds. now rewrite Hp. }
    destruct (Hset done s_mid err _ Hpre
                (SetRecords_body_lookup_failure c zone record done s_mid err
                   Hmid Hfind)) as [Hres Hlog].
    split; [exact Hres |].
    rewrite Hlog, findRecords_log. now rewrite <- app_assoc.
  - intros done s_mid err Hpre Hfind.
    assert (Hmid : holds c (provider s_mid)).
    { pose proof (forRange_provider pre (DeleteRecords_body c zone)
                    (DeleteRecords_body_provider c zone) [] s1) as Hp.
      rewrite Hpre in Hp. simpl in Hp. unfold holds. now rewrite Hp. }
    destruct (Hdel done s_mid err _ Hpre
                (DeleteRecords_body_lookup_failure c zone record done s_mid err
                   Hmid Hfind)) as [Hres Hlog].
    split; [exact Hres |].
    rewrite Hlog, findRecords_log. now rewrite <- app_assoc.
Qed.

(** [DeleteRecords] does not roll back: when the lookup of a record
    found several records and the delete call of one of them fails, the
    records found before it have been deleted, the ones after it are
    left alone, and the call returns the error without a list. *)
Theorem DeleteRecords_stops_between_matches (zone : string)
  (records : list Record) (s : State) (c : client) (s1 : State)
  (pre : list Record) (record : Record) (post done : list Record)
  (s_mid : State) (mpre : list nameserverRecord.t) (m : nameserverRecord.t)
  (mpost : list nameserverRecord.t) (s_found : State)
  (done' : list Record) (s_del : State) (err : error) :
  getClient s = (Ok c, s1) ->
  records = (pre ++ record :: post)%list ->
  forRange pre (DeleteRecords_body c zone) [] s1 = (Ok done, s_mid) ->
  findRecords c (inwxRecord record) (getDomain zone) true s_mid
  = (Ok (mpre ++ m :: mpost)%list, s_found) ->
  forRange mpre (DeleteRecords_inner c record) done s_found
  = (Ok done', s_del) ->
  fst (deleteRecord c m s_del) = Err err ->
  fst (DeleteRecords zone records s) = Err err
  /\ log (snd (DeleteRecords zone records s)) =
     (log s_found ++ map (deleteCall c) (mpre ++ [m]) ++ [logoutCall c])%list.
Proof.
  intros Hget -> Hpre Hfind Hmpre Hfail.
  pose proof (getClient_stores c s s1 Hget) as Hstored.
  assert (Hmid : holds c (provider s_mid)).
  { pose proof (forRange_provider pre (DeleteRecords_body c zone)
                  (DeleteRecords_body_provider c zone) [] s1) as Hp.
    rewrite Hpre in Hp. simpl in Hp. unfold holds. now rewrite Hp. }
  assert (Hfound : provider s_found = provider s_mid).
  { pose proof (findRecords_provider c (inwxRecord record) (getDomain zone)
                  true s_mid) as Hp.
    now rewrite Hfind in Hp. }
  assert (Hdelp : provider s_del = provider s_found).
  { pose proof (forRange_provider mpre (DeleteRecords_inner c record)
                  (DeleteRecords_inner_provider c record) done s_found) as Hp.
    now rewrite Hmpre in Hp. }
  rewrite DeleteRecords_run, Hget. simpl.
  rewrite forRange_app, Hpre, forRange_cons.
  rewrite (DeleteRecords_body_found c zone record done s_mid _ s_found
             Hmid Hfind).
  rewrite forRange_app, Hmpre, forRange_cons, DeleteRecords_inner_run, Hfail.
  simpl. split; [reflexivity |].
  rewrite (removeClient_log c).
  - rewrite deleteRecord_state, call_log.
    destruct (DeleteRecords_inner_loop c record mpre done s_found)
      as (n & Hn & _ & Hlog & Hout).
    rewrite Hmpre in Hlog, Hout. simpl in Hlog, Hout.
    destruct (Hout done' eq_refl) as [-> _].
    rewrite firstn_all in Hlog. rewrite Hlog, map_app. simpl.
    now rewrite <- !app_assoc.
  - rewrite deleteRecord_provider, Hdelp, Hfound. exact Hmid.
Qed.

(** A record whose encoded content is empty is looked up by
    [DeleteRecords] with the very request of a lookup without content
    match, so its step deletes whatever that lookup returns. *)
Theorem DeleteRecords_unfiltered_on_empty_content (c : client) (zone : string)
  (record : Record) (s : State) :
  nameserverRecord.Content (inwxRecord record) = "" ->
  findCall c zone record true = findCall c zone record false
  /\ findRecords c (inwxRecord record) (getDomain zone) true s =
     findRecords c (inwxRecord record) (getDomain zone) false s
  /\ (forall acc matches s_found,
         holds c (provider s) ->
         findRecords c (inwxRecord record) (getDomain zone) false s
         = (Ok matches, s_found) ->
         DeleteRecords_body c zone record acc s =
         forRange matches (DeleteRecords_inner c record) acc s_found).
Proof.
  intros Hempty.
  assert (Hreq : findRecordsRequest (inwxRecord record) (getDomain zone) true
                 = findRecordsRequest (inwxRecord record) (getDomain zone)
                     false).
  { unfold findRecordsRequest. simpl. now rewrite Hempty. }
  assert (Hfind : findRecords c (inwxRecord record) (getDomain zone) true s =
                  findRecords c (inwxRecord record) (getDomain zone) false s).
  { unfold findRecords. now rewrite Hreq. }
  split; [unfold findCall; now rewrite Hreq |]. split; [exact Hfind |].
  intros acc matches s_found Hc Hfound.
  apply DeleteRecords_body_found; [exact Hc |]. now rewrite Hfind.
Qed.

End BatchFailures.

Section CallBudget.
Context `{R : Remote} `{L : LibDNS}.

Lemma SendsAtMost_silent {A : Type} (m : M A) :
  (forall s, snd (m s) = s) -> SendsAtMost 0 m.
Proof.
  intros Hm s. exists []. rewrite Hm, app_nil_r. now split.
Qed.

Lemma SendsAtMost_weaken {A : Type} (n n' : nat) (m : M A) :
  (n <= n')%nat -> SendsAtMost n m -> SendsAtMost n' m.
Proof.
  intros Hn Hm s. destruct (Hm s) as (calls & Hlog & Hlen).
  exists calls. split; [exact Hlog | lia].
Qed.

Lemma SendsAtMost_bind {A B : Type} (n n' : nat) (m : M A) (f : A -> M B) :
  SendsAtMost n m -> (forall a, SendsAtMost n' (f a)) ->
  SendsAtMost (n + n') (bind m f).
Proof.
  intros Hm Hf s. rewrite bind_run.
  destruct (Hm s) as (calls & Hlog & Hlen).
  destruct (m s) as [[a | e] s1]; simpl in *.
  - destruct (Hf a s1) as (calls' & Hlog' & Hlen').
    exists (calls ++ calls')%list. split.
    + now rewrite Hlog', Hlog, app_assoc.
    + rewrite length_app. lia.
  - exists calls. split; [exact Hlog | lia].
Qed.

Lemma SendsAtMost_call (c : client) (method : string) (params : Params) :
  SendsAtMost 1 (call c method params).
Proof.
  intros s. exists [mkCall (endpointUrl c) method params].
  rewrite call_log. now split.
Qed.

Lemma SendsAtMost_forRange {A B : Type} (n : nat) (xs : list A)
  (body : A -> B -> M B) :
  (forall x acc, SendsAtMost n (body x acc)) ->
  forall acc, SendsAtMost (List.length xs * n) (forRange xs body acc).
Proof.
  intros Hbody. induction xs as [| x xs IH]; intros acc.
  - now apply SendsAtMost_silent.
  - simpl. apply SendsAtMost_bind; [apply Hbody | exact IH].
Qed.

(** One call followed by silent steps. *)
Lemma SendsAtMost_call_then {B : Type} (c : client) (method : string)
  (params : Params) (k : Payload -> M B) :
  (forall p s, snd (k p s) = s) ->
  SendsAtMost 1 (bind (call c method params) k).
Proof.
  intros Hk. apply (SendsAtMost_weaken (1 + 0)); [lia |].
  apply SendsAtMost_bind; [apply SendsAtMost_call |].
  intros p. apply SendsAtMost_silent. apply Hk.
Qed.

Lemma getRecords_budget (c : client) (domain : string) :
  SendsAtMost 1 (getRecords c domain).
Proof.
  apply SendsAtMost_call_then. intros p s. unfold bind, unmarshal, ret.
  destruct (unmarshalInfo p); reflexivity.
Qed.

Lemma findRecords_budget (c : client) (record : nameserverRecord.t)
  (domain : string) (matchContent : bool) :
  SendsAtMost 1 (findRecords c record domain matchContent).
Proof.
  apply SendsAtMost_call_then. intros p s. unfold bind, unmarshal, ret.
  destruct (unmarshalInfo p); reflexivity.
Qed.

Lemma createRecord_budget (c : client) (record : nameserverRecord.t)
  (domain : string) :
  SendsAtMost 1 (createRecord c record domain).
Proof.
  apply SendsAtMost_call_then. intros p s. unfold bind, unmarshal, ret.
  destruct (unmarshalCreateRecord p); reflexivity.
Qed.

Lemma updateRecord_budget (c : client) (record : nameserverRecord.t) :
  SendsAtMost 1 (updateRecord c record).
Proof.
  unfold updateRecord.
  destruct (String.eqb (nameserverRecord.ID record) "").
  - apply (SendsAtMost_weaken 0); [lia |]. now apply SendsAtMost_silent.
  - apply SendsAtMost_call_then. reflexivity.
Qed.

Lemma unlock_budget (c : client) (tan : string) : SendsAtMost 1 (unlock c tan).
Proof. apply SendsAtMost_call_then. reflexivity. Qed.

Lemma login_budget (c : client) (username password sharedSecret : string) :
  SendsAtMost 2 (login c username password sharedSecret).
Proof.
  unfold login. apply (SendsAtMost_bind 1 1); [apply SendsAtMost_call |].
  intros payload. apply (SendsAtMost_bind 0 1);
    [now apply SendsAtMost_silent |].
  intros data.
  destruct (String.eqb (accountLoginResponse.TFA data) "GOOGLE-AUTH").
  - apply (SendsAtMost_bind 0 1); [now apply SendsAtMost_silent |].
    intros tan. apply (SendsAtMost_weaken (1 + 0)); [lia |].
    apply SendsAtMost_bind; [apply unlock_budget |].
    intros; now apply SendsAtMost_silent.
  - apply (SendsAtMost_weaken 0); [lia |]. now apply SendsAtMost_silent.
Qed.

Lemma getClient_budget : SendsAtMost 2 getClient.
Proof.
  intros s. unfold getClient, currentClient.
  destruct (Provider.client (provider s)) as [c0 |] eqn:Hc.
  - exists []. simpl. rewrite app_nil_r. split; [reflexivity | simpl; lia].
  - unfold newClient.
    destruct (newHTTPClient (world s)) as [h | err].
    + destruct (login_budget (mkClient _ h (getEndpointURL (provider s)))
                  (Provider.Username (provider s))
                  (Provider.Password (provider s))
                  (Provider.SharedSecret (provider s))
                  (setClient (Some (mkClient _ h (getEndpointURL (provider s))))
                     s))
        as (calls & Hlog & Hlen).
      cbn [setClient provider Provider.Username Provider.Password
           Provider.SharedSecret] in *.
      destruct (login _ _ _ _ _) as [[[] | err] s3]; simpl in *.
      * exists calls. split; [| exact Hlen].
        destruct (Provider.client (provider s3)); exact Hlog.
      * exists calls. now split.
    + exists []. simpl. rewrite app_nil_r. split; [reflexivity | simpl; lia].
Qed.

Lemma removeClient_budget : SendsAtMost 1 removeClient.
Proof.
  intros s. destruct (Provider.client (provider s)) as [c |] eqn:Hc.
  - exists [logoutCall c]. rewrite (removeClient_log c s Hc). now split.
  - exists []. unfold removeClient. rewrite Hc. simpl. rewrite app_nil_r.
    split; [reflexivity | simpl; lia].
Qed.

Lemma inSession_budget {A : Type} (n : nat) (rest : result client -> M A) :
  (forall r, SendsAtMost n (rest r)) ->
  SendsAtMost (2 + n + 1) (inSession rest).
Proof.
  intros Hrest s. rewrite inSession_run.
  destruct (getClient_budget s) as (calls1 & Hlog1 & Hlen1).
  destruct (Hrest (fst (getClient s)) (snd (getClient s)))
    as (calls2 & Hlog2 & Hlen2).
  destruct (removeClient_budget
              (snd (rest (fst (getClient s)) (snd (getClient s)))))
    as (calls3 & Hlog3 & Hlen3).
  exists (calls1 ++ calls2 ++ calls3)%list. simpl. split.
  - rewrite Hlog3, Hlog2, Hlog1. now rewrite <- !app_assoc.
  - rewrite !length_app. lia.
Qed.

Lemma SetRecords_body_budget (c : client) (zone : string) (record : Record)
  (acc : list Record) :
  SendsAtMost 2 (SetRecords_body c zone record acc).
Proof.
  unfold SetRecords_body.
  apply (SendsAtMost_bind 0 2).
  { apply SendsAtMost_silent. intros s. unfold currentClient.
    destruct (Provider.client (provider s)); reflexivity. }
  intros pclient. apply (SendsAtMost_bind 1 1); [apply findRecords_budget |].
  intros matches.
  destruct (List.length matches =? 0)%nat.
  - apply (SendsAtMost_weaken (1 + 0)); [lia |].
    apply SendsAtMost_bind; [apply createRecord_budget |].
    intros; now apply SendsAtMost_silent.
  - destruct (1 <? List.length matches)%nat.
    + apply (SendsAtMost_weaken 0); [lia |]. now apply SendsAtMost_silent.
    + destruct matches as [| m rest].
      * apply (SendsAtMost_weaken 0); [lia |]. now apply SendsAtMost_silent.
      * apply (SendsAtMost_weaken (1 + 0)); [lia |].
        apply SendsAtMost_bind; [apply updateRecord_budget |].
        intros; now apply SendsAtMost_silent.
Qed.

(** No call is ever repeated or retried: from any state and on any
    path, [GetRecords] makes at most 4 calls (login, unlock, lookup,
    logout), [AppendRecords] at most one per record and 3 for the
    session, [SetRecords] at most two per record and 3 for the
    session. *)
Theorem operations_call_budget (zone : string) (records : list Record)
  (s : State) :
  (exists calls : list Call,
      log (snd (GetRecords zone s)) = (log s ++ calls)%list
      /\ (List.length calls <= 4)%nat)
  /\ (exists calls : list Call,
         log (snd (AppendRecords zone records s)) = (log s ++ calls)%list
         /\ (List.length calls <= List.length records + 3)%nat)
  /\ (exists calls : list Call,
         log (snd (SetRecords zone records s)) = (log s ++ calls)%list
         /\ (List.length calls <= 2 * List.length records + 3)%nat).
Proof.
  split; [| split].
  - change (GetRecords zone s) with (inSession (GetRecords_rest zone) s).
    apply (SendsAtMost_weaken (2 + 1 + 1)); [lia |].
    apply inSession_budget. intros [c | err].
    + unfold GetRecords_rest. apply (SendsAtMost_weaken (1 + 0)); [lia |].
      apply SendsAtMost_bind; [apply getRecords_budget |].
      intros recs. apply SendsAtMost_silent. intros s0.
      apply GetRecords_loop_state.
    + apply (SendsAtMost_weaken 0); [lia |]. now apply SendsAtMost_silent.
  - change (AppendRecords zone records s)
      with (inSession (AppendRecords_rest zone records) s).
    apply (SendsAtMost_weaken (2 + List.length records * 1 + 1)); [lia |].
    apply inSession_budget. intros [c | err].
    + unfold AppendRecords_rest. apply SendsAtMost_forRange.
      intros record acc. unfold AppendRecords_body.
      apply (SendsAtMost_weaken (1 + 0)); [lia |].
      apply SendsAtMost_bind; [apply createRecord_budget |].
      intros; now apply SendsAtMost_silent.
    + apply (SendsAtMost_weaken 0); [lia |]. now apply SendsAtMost_silent.
  - change (SetRecords zone records s)
      with (inSession (SetRecords_rest zone records) s).
    apply (SendsAtMost_weaken (2 + List.length records * 2 + 1)); [lia |].
    apply inSession_budget. intros [c | err].
    + unfold SetRecords_rest. apply SendsAtMost_forRange.
      intros record acc. apply SetRecords_body_budget.
    + apply (SendsAtMost_weaken 0); [lia |]. now apply SendsAtMost_silent.
Qed.

(** On a provider without a client, for which an HTTP client can be
    made, each operation begins with the login call, sent to the
    configured endpoint with the user name and the password of the
    provider, whatever the login and the rest of the operation then
    do. *)
Theorem operations_begin_with_login (zone : string) (records : list Record)
  (s : State) (h : HTTPClient) :
  Provider.client (provider s) = None ->
  newHTTPClient (world s) = Ok h ->
  let hello :=
    mkCall (getEndpointURL (provider s)) "account.login"
      (ParamsLogin
         (accountLoginRequest.mk (Provider.Username (provider s))
                                 (Provider.Password (provider s)))) in
  (exists more, log (snd (GetRecords zone s)) = (log s ++ hello :: more)%list)
  /\ (exists more,
         log (snd (AppendRecords zone records s)) =
         (log s ++ hello :: more)%list)
  /\ (exists more,
         log (snd (SetRecords zone records s)) = (log s ++ hello :: more)%list)
  /\ (exists more,
         log (snd (DeleteRecords zone records s)) =
         (log s ++ hello :: more)%list).
Proof.
  intros Hnone Hnew hello.
  set (c := mkClient _ h (getEndpointURL (provider s))).
  (* the login itself *)
  assert (Hlogin : exists more1,
             log (snd (getClient s)) = (log s ++ hello :: more1)%list).
  { rewrite (getClient_fresh s Hnone), Hnew. cbv zeta. fold c.
    pose proof (login_run c (Provider.Username (provider s))
                  (Provider.Password (provider s))
                  (Provider.SharedSecret (provider s))
                  (setClient (Some c) s)) as Hrun.
    pose proof (call_log c "account.login"
                  (ParamsLogin
                     (accountLoginRequest.mk (Provider.Username (provider s))
                        (Provider.Password (provider s))))
                  (setClient (Some c) s)) as Hfirst.
    destruct (call c "account.login" _ (setClient (Some c) s))
      as [[payload | err] s1]; simpl in Hfirst.
    - destruct (unmarshalLogin payload) as [data | err].
      + destruct (String.eqb (accountLoginResponse.TFA data) "GOOGLE-AUTH").
        * destruct (GenerateCode (Provider.SharedSecret (provider s))
                      (world s1)) as [tan | err].
          -- pose proof (unlock_state c tan s1) as Hu.
             rewrite Hrun.
             destruct (unlock c tan s1) as [[[] | err] s2]; simpl in *;
               exists [unlockCall c tan]; rewrite Hu, call_log, Hfirst;
               now rewrite <- app_assoc.
          -- rewrite Hrun. exists []. exact Hfirst.
        * rewrite Hrun. exists []. exact Hfirst.
      + rewrite Hrun. exists []. exact Hfirst.
    - rewrite Hrun. exists []. exact Hfirst. }
  destruct Hlogin as (more1 & Hlog1).
  assert (Hops : forall (A : Type) (rest : result client -> M A),
             (forall r, exists n, SendsAtMost n (rest r)) ->
             exists more,
               log (snd (inSession rest s)) = (log s ++ hello :: more)%list).
  { intros A rest Hrest. rewrite inSession_run. simpl.
    destruct (Hrest (fst (getClient s))) as (n & Hn).
    destruct (Hn (snd (getClient s))) as (calls2 & Hlog2 & _).
    destruct (removeClient_budget
                (snd (rest (fst (getClient s)) (snd (getClient s)))))
      as (calls3 & Hlog3 & _).
    exists (more1 ++ calls2 ++ calls3)%list.
    rewrite Hlog3, Hlog2, Hlog1. now rewrite <- !app_assoc. }
  split; [| split; [| split]].
  - apply (Hops _ (GetRecords_rest zone)). intros [c0 | err].
    + exists (1 + 0)%nat. unfold GetRecords_rest.
      apply SendsAtMost_bind; [apply getRecords_budget |].
      intros recs. apply SendsAtMost_silent. intros s0.
      apply GetRecords_loop_state.
    + exists 0%nat. now apply SendsAtMost_silent.
  - apply (Hops _ (AppendRecords_rest zone records)). intros [c0 | err].
    + exists (List.length records * 1)%nat. unfold AppendRecords_rest.
      apply SendsAtMost_forRange. intros record acc. unfold AppendRecords_body.
      apply (SendsAtMost_weaken (1 + 0)); [lia |].
      apply SendsAtMost_bind; [apply createRecord_budget |].
      intros; now apply SendsAtMost_silent.
    + exists 0%nat. now apply SendsAtMost_silent.
  - apply (Hops _ (SetRecords_rest zone records)). intros [c0 | err].
    + exists (List.length records * 2)%nat. unfold SetRecords_rest.
      apply SendsAtMost_forRange. intros record acc.
      apply SetRecords_body_budget.
    + exists 0%nat. now apply SendsAtMost_silent.
  - change (DeleteRecords zone records s)
      with (inSession (DeleteRecords_rest zone records) s).
    rewrite inSession_run. simpl.
    assert (Hrest : exists calls2,
               log (snd (DeleteRecords_rest zone records (fst (getClient s))
                           (snd (getClient s)))) =
               (log (snd (getClient s)) ++ calls2)%list
               /\ provider (snd (DeleteRecords_rest zone records
                                   (fst (getClient s)) (snd (getClient s))))
                  = provider (snd (getClient s))).
    { destruct (getClient s) as [[c0 | err] s1] eqn:Hget; simpl.
      - destruct (DeleteRecords_rest_sends (endpointUrl c0) (fun _ => True)
                    zone records c0 eq_refl
                    (fun _ => Logic.I) (fun _ => Logic.I) s1
                    (getClient_stores c0 s s1 Hget))
          as (calls2 & Hl & _ & Hp).
        now exists calls2.
      - exists []. now rewrite app_nil_r. }
    destruct Hrest as (calls2 & Hlog2 & _).
    destruct (removeClient_budget
                (snd (DeleteRecords_rest zone records (fst (getClient s))
                        (snd (getClient s)))))
      as (calls3 & Hlog3 & _).
    exists (more1 ++ calls2 ++ calls3)%list.
    rewrite Hlog3, Hlog2, Hlog1. now rewrite <- !app_assoc.
Qed.

End CallBudget.

Section CodecBack.
Context `{L : LibDNS}.

(** A decimal numeral followed by a space determines the numeral and
    what follows. *)
Lemma string_of_uint_space_inj (d d' : Decimal.uint) (t t' : string) :
  NilEmpty.string_of_uint d ++ " " ++ t =
  NilEmpty.string_of_uint d' ++ " " ++ t' ->
  d = d' /\ t = t'.
Proof.
  revert d'. induction d as [| d IH | d IH | d IH | d IH | d IH | d IH
                             | d IH | d IH | d IH | d IH];
    intros [| d' | d' | d' | d' | d' | d' | d' | d' | d' | d'] H;
    simpl in H; try discriminate;
    try (injection H as H; destruct (IH d' H) as [-> ->]; now split).
  injection H as ->. now split.
Qed.

Lemma Sprintf_d_s_inj (a b : N) (t t' : string) :
  Sprintf_d_s a t = Sprintf_d_s b t' -> a = b /\ t = t'.
Proof.
  unfold Sprintf_d_s, itoa. intros H.
  destruct (string_of_uint_space_inj _ _ _ _ H) as [Hd ->].
  split; [| reflexivity].
  rewrite <- (DecimalN.Unsigned.of_to a), <- (DecimalN.Unsigned.of_to b).
  now rewrite Hd.
Qed.

(** Seconds to a duration and back, when the multiplication does not
    overflow. *)
Lemma Seconds_int_of_Duration (n : Z) :
  - 9223372036 <= n <= 9223372036 ->
  Seconds_int (Duration_of_seconds n) = n.
Proof.
  intros Hn. unfold Seconds_int, Duration_of_seconds, wrap64, Second.
  rewrite Z.mod_small by lia.
  replace (n * 1000000000 + 2 ^ 63 - 2 ^ 63) with (n * 1000000000) by lia.
  apply Z.quot_mul. lia.
Qed.

(** Decoding a native record and encoding the result gives back the
    type, the content and the TTL of the native record, and its
    priority when the type is MX or SRV; the id is not carried over,
    the name is the one [RelativeName] made of it, and the priority of
    any other type comes back as 0. This holds when the parser returns
    a record with the quadruple it was given, typed as [libdns.MX] or
    [libdns.SRV] when the tag says so, and the TTL in seconds fits a
    duration. *)
Theorem inwxRecord_of_libdnsRecord (x : nameserverRecord.t) (zone : string)
  (r : Record) :
  libdnsRecord x zone = Ok r ->
  RR_of r = libdnsRR x zone ->
  typeSwitchAgrees r = true ->
  - 9223372036 <= nameserverRecord.TTL x <= 9223372036 ->
  inwxRecord r =
  nameserverRecord.mk ""
    (RelativeName (nameserverRecord.Name x) (getDomain zone))
    (nameserverRecord.Type_ x)
    (nameserverRecord.Content x)
    (nameserverRecord.TTL x)
    (if String.eqb (nameserverRecord.Type_ x) "MX"
        || String.eqb (nameserverRecord.Type_ x) "SRV"
     then nameserverRecord.Priority x else 0%N).
Proof.
  intros _ Hrr Hkind Httl.
  pose proof (Seconds_int_of_Duration _ Httl) as Hsec.
  destruct x as [id name type_ content ttl priority].
  unfold libdnsRR in Hrr. simpl in *.
  destruct r as [rr | mx | srv]; simpl in *.
  - subst rr. simpl in *. apply negb_true_iff in Hkind. rewrite Hkind in *.
    simpl. now rewrite Hsec.
  - injection Hrr as Hname Httl' Htype Hdata. subst type_. simpl in *.
    destruct (Sprintf_d_s_inj _ _ _ _ Hdata) as [Hp Ht].
    now rewrite Hname, Httl', Hsec, Hp, Ht.
  - injection Hrr as Hname Httl' Htype Hdata. subst type_. simpl in *.
    change (Sprintf_d_d_d_s (SRV.Priority srv) (SRV.Weight srv)
              (SRV.Port srv) (SRV.Target srv))
      with (Sprintf_d_s (SRV.Priority srv)
              (Sprintf_d_d_s (SRV.Weight srv) (SRV.Port srv)
                 (SRV.Target srv))) in Hdata.
    destruct (Sprintf_d_s_inj _ _ _ _ Hdata) as [Hp Ht].
    now rewrite Hname, Httl', Hsec, Hp, Ht.
Qed.

End CodecBack.

(** [strings.TrimSuffix] takes off exactly what was appended. *)
Lemma substring_app_left (s t : string) :
  substring 0 (String.length s) (s ++ t) = s.
Proof.
  induction s as [| c s IH]; simpl.
  - now destruct t.
  - now rewrite IH.
Qed.

Lemma substring_app_right (s t : string) :
  substring (String.length s) (String.length t) (s ++ t) = t.
Proof.
  induction s as [| c s IH]; simpl.
  - induction t as [| c t IHt]; simpl; [reflexivity | now rewrite IHt].
  - exact IH.
Qed.

Lemma string_length_app (s t : string) :
  String.length (s ++ t) = (String.length s + String.length t)%nat.
Proof. induction s as [| c s IH]; simpl; [reflexivity | now rewrite IH]. Qed.

Lemma TrimSuffix_app (s suffix : string) : TrimSuffix (s ++ suffix) suffix = s.
Proof.
  unfold TrimSuffix, HasSuffix. rewrite string_length_app.
  replace (String.length s + String.length suffix - String.length suffix)%nat
    with (String.length s) by lia.
  rewrite substring_app_right, String.eqb_refl, substring_app_left.
  replace (String.length suffix <=? String.length s + String.length suffix)%nat
    with true; [reflexivity |].
  symmetry. apply Nat.leb_le. lia.
Qed.

(** [getDomain] takes one trailing dot off a zone name and leaves a
    name without a trailing dot as it is, so that a zone is the same
    domain with and without its trailing dot. *)
Theorem getDomain_strips_one_dot (domain : string) :
  getDomain (domain ++ ".") = domain
  /\ (HasSuffix domain "." = false ->
      getDomain domain = domain
      /\ getDomain (domain ++ ".") = getDomain domain).
Proof.
  assert (H1 : getDomain (domain ++ ".") = domain) by apply TrimSuffix_app.
  split; [exact H1 |].
  intros Hno. assert (H2 : getDomain domain = domain).
  { unfold getDomain, TrimSuffix. now rewrite Hno. }
  split; [exact H2 | congruence].
Qed.

(** * The theorems at work

    Each theorem above that rests on assumptions is applied here to the
    package's own test data, over the reference libdns and a scripted
    remote, with the assumptions checked by computation. *)

(** The codec round trip on the MX, SRV and TXT records of the tests. *)
Lemma codec_round_trip_on_test_records :
  @libdnsRecord referenceLibDNS (inwxRecord testMX) testZone = Ok testMX
  /\ @libdnsRecord referenceLibDNS (inwxRecord testSRV) testZone = Ok testSRV
  /\ @libdnsRecord referenceLibDNS
       (inwxRecord (testTXT "test_1" "test_value_1")) testZone
     = Ok (testTXT "test_1" "test_value_1").
Proof.
  assert (Hrange : int64_range ttl300) by (unfold int64_range, ttl300, Second; lia).
  assert (Hwhole : wholeSeconds ttl300) by (exists 300; reflexivity).
  split; [| split].
  - exact (proj1 (proj2
      (@codec_round_trip referenceLibDNS testMX testMX testZone
         eq_refl Hrange Hwhole eq_refl eq_refl eq_refl))).
  - exact (proj1 (proj2
      (@codec_round_trip referenceLibDNS testSRV testSRV testZone
         eq_refl Hrange Hwhole eq_refl eq_refl eq_refl))).
  - exact (proj1 (proj2
      (@codec_round_trip referenceLibDNS (testTXT "test_1" "test_value_1")
         (testTXT "test_1" "test_value_1") testZone
         eq_refl Hrange Hwhole eq_refl eq_refl eq_refl))).
Defined.

(** C3, as the claim states it, fails on an MX record that arrives as
    a plain [libdns.RR]: the record is well formed (the parser reads
    its quadruple as the MX record with preference 10, which has that
    same quadruple, and its name is relative to the zone), but the type
    switch of [inwxRecord] does not see a [libdns.MX], so the whole
    data goes into the content with priority 0; [libdnsRecord] then
    puts "0 " in front because the type tag is "MX", and the parser
    rejects the three fields. *)
Lemma codec_round_trip_fails_on_plain_MX :
  @Parse referenceLibDNS (RR_of plainMX) = Ok typedMX
  /\ RR_of typedMX = RR_of plainMX
  /\ @RelativeName referenceLibDNS (RR.Name (RR_of plainMX))
       (getDomain testZone) = RR.Name (RR_of plainMX)
  /\ inwxRecord plainMX =
     nameserverRecord.mk "" "mail" "MX" "10 mx.example.com" 300 0%N
  /\ RR.Data (@libdnsRR referenceLibDNS (inwxRecord plainMX) testZone)
     = "0 10 mx.example.com"
  /\ @libdnsRecord referenceLibDNS (inwxRecord plainMX) testZone
     = Err (ErrLibrary "malformed MX value; expected: 'preference target'")
  /\ typeSwitchAgrees plainMX = false.
Proof. repeat split; vm_compute; reflexivity. Qed.

(** [call] on a refused request and on an accepted one. *)
Lemma call_status_band_on_replies :
  fst (@call scriptedRemote testClient "nameserver.createRecord" ParamsNil
         (openState [failReply 2302 "Object exists"]))
  = Err (ErrResponse (errorResponse.mk 2302 "Object exists" "" ""))
  /\ fst (@call scriptedRemote testClient "account.logout" ParamsNil
            (openState [okReply JNull]))
     = Ok JNull.
Proof.
  split.
  - refine (proj2 (proj2
      (@call_status_band scriptedRemote testClient
         "nameserver.createRecord" ParamsNil
         (openState [failReply 2302 "Object exists"])
         (response.mk 2302 "Object exists" "" "" JNull) [] eq_refl)) _).
    simpl. lia.
  - refine (proj1 (proj2
      (@call_status_band scriptedRemote testClient
         "account.logout" ParamsNil
         (openState [okReply JNull])
         (response.mk 1000 "Command completed successfully" "" "" JNull) []
         eq_refl)) _).
    simpl. lia.
Defined.

(** [AppendRecords] on a batch of three whose create calls are all
    accepted: the three records are created in input order and
    returned. On a batch of two whose second create is refused: the
    error, and no list. *)
Lemma AppendRecords_on_test_batch :
  (fst (@AppendRecords scriptedRemote testZone appendBatch3
          (freshSession appendScript3)) = Ok appendBatch3
   /\ log (snd (@AppendRecords scriptedRemote testZone appendBatch3
                  (freshSession appendScript3))) =
      (log (loggedIn appendScript3)
         ++ map (createCall testClient testZone) appendBatch3
         ++ [logoutCall testClient])%list)
  /\ (fst (@AppendRecords scriptedRemote testZone appendBatch
             (freshSession appendScriptRefused))
      = Err (ErrResponse (errorResponse.mk 2302 "Object exists" "" ""))
      /\ log (snd (@AppendRecords scriptedRemote testZone appendBatch
                     (freshSession appendScriptRefused))) =
         (log (loggedIn appendScriptRefused)
            ++ map (createCall testClient testZone) appendBatch
            ++ [logoutCall testClient])%list).
Proof.
  split.
  - refine (proj1 (proj2 (proj2
      (@AppendRecords_one_create_each scriptedRemote testZone appendBatch3
         (freshSession appendScript3) testClient (loggedIn appendScript3)
         eq_refl))) _).
    vm_compute. reflexivity.
  - refine (proj2 (proj2 (proj2
      (@AppendRecords_one_create_each scriptedRemote testZone appendBatch
         (freshSession appendScriptRefused) testClient
         (loggedIn appendScriptRefused) eq_refl)))
      [testTXT "test_4" "test_value_4"] testMX []
      (ErrResponse (errorResponse.mk 2302 "Object exists" "" ""))
      eq_refl _ _); vm_compute; reflexivity.
Defined.

(** [GetRecords] on a zone whose second record does not decode. *)
Lemma GetRecords_on_malformed_record :
  fst (@GetRecords scriptedRemote referenceLibDNS testZone
         (freshSession listScript))
  = Err (ErrParsing malformedMX
           (ErrLibrary "malformed MX value; expected: 'preference target'")).
Proof.
  refine (proj1 (proj2
    (@GetRecords_all_or_error scriptedRemote referenceLibDNS testZone
       (freshSession listScript) testClient (loggedIn listScript)
       [remoteTXT "1" "test_1" "test_value_1"; malformedMX;
        remoteTXT "3" "test_3" "test_value_3"]
       (snd (@getRecords scriptedRemote testClient (getDomain testZone)
               (loggedIn listScript)))
       eq_refl _))
    [remoteTXT "1" "test_1" "test_value_1"] malformedMX
    [remoteTXT "3" "test_3" "test_value_3"]
    [testTXT "test_1" "test_value_1"]
    (ErrLibrary "malformed MX value; expected: 'preference target'")
    eq_refl _ _).
  - vm_compute; reflexivity.
  - constructor; [vm_compute; reflexivity | constructor].
  - vm_compute; reflexivity.
Defined.

(** [SetRecords] on the batch of the tests: [test_3] has one match and
    is updated under the id of the match, [test_4] has none and is
    created; and on a zone where [test_3] has two matches. *)
Lemma SetRecords_on_test_batch :
  log (snd (@SetRecords_body scriptedRemote testClient testZone
              (testTXT "test_3" "test_value_3_new") []
              (loggedIn setScript))) =
  (log (snd (@findRecords scriptedRemote testClient
               (inwxRecord (testTXT "test_3" "test_value_3_new"))
               (getDomain testZone) false (loggedIn setScript)))
     ++ [updateCall testClient "103" (testTXT "test_3" "test_value_3_new")])%list
  /\ log (snd (@SetRecords_body scriptedRemote testClient testZone
                 (testTXT "test_4" "test_value_4")
                 [testTXT "test_3" "test_value_3_new"]
                 (snd (@forRange scriptedRemote _ _
                         [testTXT "test_3" "test_value_3_new"]
                         (SetRecords_body testClient testZone) []
                         (loggedIn setScript))))) =
     (log (snd (@findRecords scriptedRemote testClient
                  (inwxRecord (testTXT "test_4" "test_value_4"))
                  (getDomain testZone) false
                  (snd (@forRange scriptedRemote _ _
                          [testTXT "test_3" "test_value_3_new"]
                          (SetRecords_body testClient testZone) []
                          (loggedIn setScript)))))
        ++ [createCall testClient testZone (testTXT "test_4" "test_value_4")])%list
  /\ fst (@SetRecords scriptedRemote testZone setBatch
            (freshSession setScriptAmbiguous))
     = Err (ErrMoreThanOne (testTXT "test_3" "test_value_3_new"))
  /\ log (snd (@SetRecords scriptedRemote testZone setBatch
                 (freshSession setScriptAmbiguous))) =
     (log (snd (@findRecords scriptedRemote testClient
                  (inwxRecord (testTXT "test_3" "test_value_3_new"))
                  (getDomain testZone) false (loggedIn setScriptAmbiguous)))
        ++ [logoutCall testClient])%list.
Proof.
  split; [| split].
  - pose proof
      (@SetRecords_match_policy scriptedRemote testZone setBatch
         (freshSession setScript) testClient (loggedIn setScript)
         [] (testTXT "test_3" "test_value_3_new")
         [testTXT "test_4" "test_value_4"] []
         (loggedIn setScript)
         [remoteTXT "103" "test_3" "test_value_3"]
         (snd (@findRecords scriptedRemote testClient
                 (inwxRecord (testTXT "test_3" "test_value_3_new"))
                 (getDomain testZone) false (loggedIn setScript)))
         eq_refl eq_refl eq_refl eq_refl) as H.
    destruct H as (_ & _ & _ & _ & Hone & _).
    destruct (Hone (remoteTXT "103" "test_3" "test_value_3") eq_refl)
      as [_ Hupdate].
    apply Hupdate. discriminate.
  - assert (Hpre :
      @forRange scriptedRemote _ _ [testTXT "test_3" "test_value_3_new"]
        (SetRecords_body testClient testZone) [] (loggedIn setScript)
      = (Ok [testTXT "test_3" "test_value_3_new"],
         snd (@forRange scriptedRemote _ _
                [testTXT "test_3" "test_value_3_new"]
                (SetRecords_body testClient testZone) []
                (loggedIn setScript))))
      by (vm_compute; reflexivity).
    assert (Hfind :
      @findRecords scriptedRemote testClient
        (inwxRecord (testTXT "test_4" "test_value_4")) (getDomain testZone)
        false
        (snd (@forRange scriptedRemote _ _
                [testTXT "test_3" "test_value_3_new"]
                (SetRecords_body testClient testZone) []
                (loggedIn setScript)))
      = (Ok [],
         snd (@findRecords scriptedRemote testClient
                (inwxRecord (testTXT "test_4" "test_value_4"))
                (getDomain testZone) false
                (snd (@forRange scriptedRemote _ _
                        [testTXT "test_3" "test_value_3_new"]
                        (SetRecords_body testClient testZone) []
                        (loggedIn setScript))))))
      by (vm_compute; reflexivity).
    pose proof
      (@SetRecords_match_policy scriptedRemote testZone setBatch
         (freshSession setScript) testClient (loggedIn setScript)
         [testTXT "test_3" "test_value_3_new"]
         (testTXT "test_4" "test_value_4") []
         [testTXT "test_3" "test_value_3_new"] _ [] _
         eq_refl eq_refl Hpre Hfind) as H.
    destruct H as (_ & _ & _ & Hzero & _).
    exact (proj1 (Hzero eq_refl)).
  - pose proof
      (@SetRecords_match_policy scriptedRemote testZone setBatch
         (freshSession setScriptAmbiguous) testClient
         (loggedIn setScriptAmbiguous)
         [] (testTXT "test_3" "test_value_3_new")
         [testTXT "test_4" "test_value_4"] []
         (loggedIn setScriptAmbiguous)
         [remoteTXT "103" "test_3" "test_value_3";
          remoteTXT "107" "test_3" "another value"]
         (snd (@findRecords scriptedRemote testClient
                 (inwxRecord (testTXT "test_3" "test_value_3_new"))
                 (getDomain testZone) false (loggedIn setScriptAmbiguous)))
         eq_refl eq_refl eq_refl eq_refl) as H.
    destruct H as (_ & _ & _ & _ & _ & Hmany).
    apply Hmany. simpl. lia.
Defined.

(** [DeleteRecords] in front of a zone that holds [test_3] four
    times, three times with the content asked for, and does not hold
    [test_9]: the three records with that content are the matches, all
    three are deleted and the record is reported three times; the step
    of [test_9] sends nothing after its lookup. On a scripted remote that refuses
    the second delete call: the error. *)
Lemma DeleteRecords_on_test_batch :
  (fst (@DeleteRecords_body zoneRemote zoneClient testZone
          (testTXT "test_3" "test_value_3") [] (zoneSession duplicatesZone))
   = Ok [testTXT "test_3" "test_value_3"; testTXT "test_3" "test_value_3";
        testTXT "test_3" "test_value_3"]
   /\ log (snd (@DeleteRecords_body zoneRemote zoneClient testZone
                  (testTXT "test_3" "test_value_3") []
                  (zoneSession duplicatesZone))) =
      (log (snd (@findRecords zoneRemote zoneClient
                   (inwxRecord (testTXT "test_3" "test_value_3"))
                   (getDomain testZone) true (zoneSession duplicatesZone)))
         ++ map (deleteCall zoneClient)
              [remoteTXT "103" "test_3" "test_value_3";
               remoteTXT "108" "test_3" "test_value_3";
               remoteTXT "109" "test_3" "test_value_3"])%list
   /\ [remoteTXT "103" "test_3" "test_value_3";
       remoteTXT "108" "test_3" "test_value_3";
       remoteTXT "109" "test_3" "test_value_3"]
      = filter (exactMatch (inwxRecord (testTXT "test_3" "test_value_3")))
          duplicatesZone)
  /\ @DeleteRecords_body zoneRemote zoneClient testZone
       (testTXT "test_9" "test_value_9")
       [testTXT "test_3" "test_value_3"; testTXT "test_3" "test_value_3";
        testTXT "test_3" "test_value_3"]
       (snd (@forRange zoneRemote _ _ [testTXT "test_3" "test_value_3"]
               (DeleteRecords_body zoneClient testZone) []
               (zoneSession duplicatesZone)))
     = (Ok [testTXT "test_3" "test_value_3"; testTXT "test_3" "test_value_3";
        testTXT "test_3" "test_value_3"],
        snd (@findRecords zoneRemote zoneClient
               (inwxRecord (testTXT "test_9" "test_value_9"))
               (getDomain testZone) true
               (snd (@forRange zoneRemote _ _
                       [testTXT "test_3" "test_value_3"]
                       (DeleteRecords_body zoneClient testZone) []
                       (zoneSession duplicatesZone)))))
  /\ fst (@DeleteRecords scriptedRemote testZone deleteBatch
            (freshSession deleteScriptSecondRefused))
     = Err (ErrResponse (errorResponse.mk 2303 "Object does not exist" "" "")).
Proof.
  split; [| split].
  - pose proof
      (@DeleteRecords_exact_matches zoneRemote testZone deleteBatch
         (zoneState duplicatesZone) zoneClient (zoneSession duplicatesZone)
         [] (testTXT "test_3" "test_value_3")
         [testTXT "test_9" "test_value_9"] []
         (zoneSession duplicatesZone)
         [remoteTXT "103" "test_3" "test_value_3";
          remoteTXT "108" "test_3" "test_value_3";
          remoteTXT "109" "test_3" "test_value_3"]
         (snd (@findRecords zoneRemote zoneClient
                 (inwxRecord (testTXT "test_3" "test_value_3"))
                 (getDomain testZone) true (zoneSession duplicatesZone)))
         eq_refl eq_refl eq_refl eq_refl) as H.
    destruct H as (_ & _ & _ & _ & _ & _ & Haccepted & _ & Hexact).
    destruct (Haccepted eq_refl) as [Hres Hlog].
    split; [exact Hres |]. split; [exact Hlog |].
    apply (fun Ht Hn Hc => Hexact Ht Hn Hc duplicatesZone);
      try discriminate.
    reflexivity.
  - assert (Hpre :
      @forRange zoneRemote _ _ [testTXT "test_3" "test_value_3"]
        (DeleteRecords_body zoneClient testZone) [] (zoneSession duplicatesZone)
      = (Ok [testTXT "test_3" "test_value_3"; testTXT "test_3" "test_value_3";
        testTXT "test_3" "test_value_3"],
         snd (@forRange zoneRemote _ _ [testTXT "test_3" "test_value_3"]
                (DeleteRecords_body zoneClient testZone) []
                (zoneSession duplicatesZone))))
      by (vm_compute; reflexivity).
    pose proof
      (@DeleteRecords_exact_matches zoneRemote testZone deleteBatch
         (zoneState duplicatesZone) zoneClient (zoneSession duplicatesZone)
         [testTXT "test_3" "test_value_3"] (testTXT "test_9" "test_value_9")
         []
         [testTXT "test_3" "test_value_3"; testTXT "test_3" "test_value_3";
        testTXT "test_3" "test_value_3"]
         (snd (@forRange zoneRemote _ _ [testTXT "test_3" "test_value_3"]
                 (DeleteRecords_body zoneClient testZone) []
                 (zoneSession duplicatesZone)))
         []
         (snd (@findRecords zoneRemote zoneClient
                 (inwxRecord (testTXT "test_9" "test_value_9"))
                 (getDomain testZone) true
                 (snd (@forRange zoneRemote _ _
                         [testTXT "test_3" "test_value_3"]
                         (DeleteRecords_body zoneClient testZone) []
                         (zoneSession duplicatesZone)))))
         eq_refl eq_refl Hpre eq_refl) as H.
    destruct H as (_ & _ & _ & _ & Hnone & _).
    exact (Hnone eq_refl).
  - pose proof
      (@DeleteRecords_exact_matches scriptedRemote testZone deleteBatch
         (freshSession deleteScriptSecondRefused) testClient
         (loggedIn deleteScriptSecondRefused)
         [] (testTXT "test_3" "test_value_3")
         [testTXT "test_9" "test_value_9"] []
         (loggedIn deleteScriptSecondRefused)
         [remoteTXT "103" "test_3" "test_value_3";
          remoteTXT "108" "test_3" "test_value_3"]
         (snd (@findRecords scriptedRemote testClient
                 (inwxRecord (testTXT "test_3" "test_value_3"))
                 (getDomain testZone) true
                 (loggedIn deleteScriptSecondRefused)))
         eq_refl eq_refl eq_refl eq_refl) as H.
    destruct H as (_ & _ & _ & _ & _ & _ & _ & Hrefused & _).
    exact (proj2 (proj2
      (Hrefused [remoteTXT "103" "test_3" "test_value_3"]
         (remoteTXT "108" "test_3" "test_value_3") []
         (ErrResponse (errorResponse.mk 2303 "Object does not exist" "" ""))
         eq_refl eq_refl eq_refl))).
Defined.

(** The claim as first stated fails for a record with empty content.
    The zone holds [test_3] twice, with two contents, neither of them
    empty, so no record of the zone has the type, the name and the
    content of the input. The content filter is left out of the lookup
    request, the remote returns both records, and [DeleteRecords]
    deletes both and reports the input twice. *)
Lemma DeleteRecords_empty_content_deletes_other_contents :
  filter (exactMatch (inwxRecord emptyTXT)) otherContentsZone = []
  /\ nameserverInfoRequest.Content
       (findRecordsRequest (inwxRecord emptyTXT) (getDomain testZone) true)
     = ""
  /\ fst (@DeleteRecords zoneRemote testZone [emptyTXT]
            (zoneState otherContentsZone))
     = Ok [emptyTXT; emptyTXT]
  /\ world (snd (@DeleteRecords zoneRemote testZone [emptyTXT]
                   (zoneState otherContentsZone)))
     = []
  /\ log (snd (@DeleteRecords zoneRemote testZone [emptyTXT]
                 (zoneState otherContentsZone)))
     = [loginCall zoneClient "user" "secret";
        findCall zoneClient testZone emptyTXT true;
        deleteCall zoneClient (remoteTXT "103" "test_3" "test_value_3");
        deleteCall zoneClient (remoteTXT "107" "test_3" "another value");
        logoutCall zoneClient].
Proof. repeat split; vm_compute; reflexivity. Qed.

(** The write requests for a record that asks for 60 seconds and for
    one that asks for an hour. *)
Lemma write_request_ttl_floor_on_records :
  nameserverCreateRecordRequest.TTL
    (createRecordRequest
       (nameserverRecord.mk "" "test_1" "TXT" "test_value_1" 60 0%N)
       "example.com") = 300
  /\ nameserverUpdateRecordRequest.TTL
       (updateRecordRequest
          (nameserverRecord.mk "103" "test_3" "TXT" "test_value_3" 3600 0%N))
     = 3600
  /\ exists request,
       log (snd (@createRecord scriptedRemote testClient
                   (nameserverRecord.mk "" "test_1" "TXT" "test_value_1" 60 0%N)
                   "example.com" (openState [okReply (JCreated "1")]))) =
       [mkCall "https://api.ote.domrobot.com/jsonrpc/"
               "nameserver.createRecord" (ParamsCreateRecord request)]
       /\ nameserverCreateRecordRequest.TTL request = 300.
Proof.
  pose proof
    (@write_request_ttl_floor scriptedRemote testClient
       (nameserverRecord.mk "" "test_1" "TXT" "test_value_1" 60 0%N)
       "example.com" (openState [okReply (JCreated "1")])) as H.
  destruct H as [(request & Hlog & Hbelow & _) _].
  split; [reflexivity |]. split; [reflexivity |].
  exists request. split; [exact Hlog |].
  apply Hbelow. simpl. lia.
Defined.

(** [updateRecord] without an id and with one. *)
Lemma updateRecord_id_guard_on_records :
  @updateRecord scriptedRemote testClient
    (remoteTXT "" "test_3" "test_value_3_new") (openState [okReply JNull])
  = (Err ErrIDNotSet, openState [okReply JNull])
  /\ log (snd (@updateRecord scriptedRemote testClient
                 (remoteTXT "103" "test_3" "test_value_3_new")
                 (openState [okReply JNull]))) =
     [mkCall "https://api.ote.domrobot.com/jsonrpc/" "nameserver.updateRecord"
        (ParamsUpdateRecord
           (updateRecordRequest (remoteTXT "103" "test_3" "test_value_3_new")))].
Proof.
  split.
  - exact (proj1
      (@updateRecord_id_guard scriptedRemote testClient
         (remoteTXT "" "test_3" "test_value_3_new")
         (openState [okReply JNull])) eq_refl).
  - refine (proj1 (proj1 (proj2
      (@updateRecord_id_guard scriptedRemote testClient
         (remoteTXT "103" "test_3" "test_value_3_new")
         (openState [okReply JNull]))) _)).
    discriminate.
Defined.

(** [login] when the account asks for a second factor, with a usable
    secret and with a malformed one, and when the credentials are
    rejected. *)
Lemma login_second_factor_on_accounts :
  log (snd (@login scriptedRemote testClient "user" "secret"
              "JBSWY3DPEHPK3PXP"
              (openState [okReply (JLogin "GOOGLE-AUTH"); okReply JNull]))) =
  [loginCall testClient "user" "secret"; unlockCall testClient "123456"]
  /\ @login scriptedRemote testClient "user" "secret" ""
       (openState [okReply (JLogin "GOOGLE-AUTH"); okReply JNull])
     = (Err (ErrLibrary "Decoding of secret as base32 failed."),
        snd (@call scriptedRemote testClient "account.login"
               (ParamsLogin (accountLoginRequest.mk "user" "secret"))
               (openState [okReply (JLogin "GOOGLE-AUTH"); okReply JNull])))
  /\ @login scriptedRemote testClient "user" "wrong" ""
       (openState [failReply 2200 "Authentication error"])
     = (Err (ErrResponse (errorResponse.mk 2200 "Authentication error" "" "")),
        snd (@call scriptedRemote testClient "account.login"
               (ParamsLogin (accountLoginRequest.mk "user" "wrong"))
               (openState [failReply 2200 "Authentication error"]))).
Proof.
  split; [| split].
  - pose proof
      (@login_second_factor scriptedRemote testClient "user" "secret"
         "JBSWY3DPEHPK3PXP"
         (openState [okReply (JLogin "GOOGLE-AUTH"); okReply JNull])) as H.
    destruct H as (_ & _ & _ & Hdata).
    destruct (Hdata (JLogin "GOOGLE-AUTH")
                (accountLoginResponse.mk "GOOGLE-AUTH") eq_refl eq_refl)
      as [_ Hchallenge].
    destruct (Hchallenge eq_refl) as [_ Hcode].
    exact (proj2 (Hcode "123456" eq_refl)).
  - pose proof
      (@login_second_factor scriptedRemote testClient "user" "secret" ""
         (openState [okReply (JLogin "GOOGLE-AUTH"); okReply JNull])) as H.
    destruct H as (_ & _ & _ & Hdata).
    destruct (Hdata (JLogin "GOOGLE-AUTH")
                (accountLoginResponse.mk "GOOGLE-AUTH") eq_refl eq_refl)
      as [_ Hchallenge].
    destruct (Hchallenge eq_refl) as [Hfail _].
    exact (Hfail (ErrLibrary "Decoding of secret as base32 failed.") eq_refl).
  - pose proof
      (@login_second_factor scriptedRemote testClient "user" "wrong" ""
         (openState [failReply 2200 "Authentication error"])) as H.
    destruct H as (_ & Hrejected & _).
    exact (Hrejected
             (ErrResponse (errorResponse.mk 2200 "Authentication error" "" ""))
             eq_refl).
Defined.

(** The four operations on a remote that refuses the logout: the
    client is gone all the same, and the result of the operation is the
    one of its work. *)
Lemma operations_release_session_on_refused_logout :
  Provider.client
    (provider (snd (@GetRecords scriptedRemote referenceLibDNS testZone
                      (freshSession
                         [okReply (JInfo [remoteTXT "1" "test_1" "test_value_1"]);
                          failReply 2400 "Command failed"]))))
  = None
  /\ fst (@GetRecords scriptedRemote referenceLibDNS testZone
            (freshSession
               [okReply (JInfo [remoteTXT "1" "test_1" "test_value_1"]);
                failReply 2400 "Command failed"]))
     = Ok [testTXT "test_1" "test_value_1"]
  /\ fst (@AppendRecords scriptedRemote testZone appendBatch
            (freshState [failReply 2200 "Authentication error"]))
     = Err (ErrResponse (errorResponse.mk 2200 "Authentication error" "" "")).
Proof.
  split; [| split].
  - exact (proj1 (proj1
      (@operations_release_session scriptedRemote referenceLibDNS testZone []
         (freshSession
            [okReply (JInfo [remoteTXT "1" "test_1" "test_value_1"]);
             failReply 2400 "Command failed"])))).
  - pose proof
      (@operations_release_session scriptedRemote referenceLibDNS testZone []
         (freshSession
            [okReply (JInfo [remoteTXT "1" "test_1" "test_value_1"]);
             failReply 2400 "Command failed"])) as H.
    destruct H as (_ & (Hresult & _) & _).
    rewrite Hresult. vm_compute. reflexivity.
  - pose proof
      (@operations_release_session scriptedRemote referenceLibDNS testZone
         appendBatch (freshState [failReply 2200 "Authentication error"])) as H.
    destruct H as (_ & _ & _ & _ & Herr).
    exact (proj1 (proj2
      (Herr (ErrResponse (errorResponse.mk 2200 "Authentication error" "" ""))
         (snd (@getClient scriptedRemote
                 (freshState [failReply 2200 "Authentication error"])))
         eq_refl))).
Defined.

(** A lookup whose one match has no id. *)
Lemma SetRecords_match_without_id_on_script :
  @SetRecords_body scriptedRemote testClient testZone
    (testTXT "test_3" "test_value_3_new") []
    (openState [okReply (JInfo [remoteTXT "" "test_3" "test_value_3"]);
                okReply JNull])
  = (Err ErrIDNotSet,
     snd (@findRecords scriptedRemote testClient
            (inwxRecord (testTXT "test_3" "test_value_3_new"))
            (getDomain testZone) false
            (openState [okReply (JInfo [remoteTXT "" "test_3" "test_value_3"]);
                        okReply JNull]))).
Proof.
  exact (@SetRecords_match_without_id scriptedRemote testClient testZone
           (testTXT "test_3" "test_value_3_new") []
           (openState [okReply (JInfo [remoteTXT "" "test_3" "test_value_3"]);
                       okReply JNull])
           (remoteTXT "" "test_3" "test_value_3") _
           eq_refl eq_refl eq_refl).
Defined.

(** A provider with an open session goes on with its client; a
    provider without one has nothing to log out of. *)
Lemma getClient_reuses_client_on_open_session :
  @getClient scriptedRemote (openState [okReply JNull])
  = (Ok testClient, openState [okReply JNull]).
Proof.
  exact (@getClient_reuses_client scriptedRemote testClient
           (openState [okReply JNull]) eq_refl).
Defined.

Lemma removeClient_without_client_on_fresh_provider :
  @removeClient scriptedRemote (freshState [okReply JNull])
  = (Ok tt, freshState [okReply JNull]).
Proof.
  exact (@removeClient_without_client scriptedRemote
           (freshState [okReply JNull]) eq_refl).
Defined.

(** The message of an [errorResponse], without and with a reason. *)
Example errorResponse_Error_messages :
  errorResponse_Error (errorResponse.mk 2302 "Object exists" "" "")
  = "(2302) Object exists"
  /\ errorResponse_Error
       (errorResponse.mk 2302 "Object exists" "EPP" "record is a duplicate")
     = "(2302) Object exists. Reason: (EPP) record is a duplicate".
Proof. split; reflexivity. Qed.

(** ** The operations as a whole, at work *)

(** [AppendRecords] called while a session is open. *)
Lemma operations_work_then_logout_on_open_session :
  exists work : list Call,
    log (snd (@AppendRecords scriptedRemote testZone appendBatch
                (openState appendScript))) =
    (log (openState appendScript) ++ work ++ [logoutCall testClient])%list
    /\ Forall (usesMethods ["nameserver.createRecord"]) work.
Proof.
  exact (proj1 (proj2 (proj1
    (@operations_work_then_logout scriptedRemote referenceLibDNS testZone
       appendBatch (openState appendScript) testClient
       (openState appendScript) eq_refl)))).
Defined.

(** A refused login, and a remote on which no HTTP client can be
    made. *)
Lemma operations_when_session_fails_on_scripts :
  (fst (@GetRecords scriptedRemote referenceLibDNS testZone
          (freshState loginRefusedScript))
   = Err (ErrResponse (errorResponse.mk 2200 "Authentication error" "" ""))
   /\ log (snd (@GetRecords scriptedRemote referenceLibDNS testZone
                  (freshState loginRefusedScript)))
      = [loginCall testClient "user" "secret"; logoutCall testClient])
  /\ (fst (@AppendRecords jarlessRemote testZone appendBatch jarlessState)
      = Err (ErrLibrary "cookiejar: no jar")
      /\ log (snd (@AppendRecords jarlessRemote testZone appendBatch
                     jarlessState)) = []).
Proof.
  split.
  - pose proof
      (@operations_when_session_fails scriptedRemote referenceLibDNS testZone
         appendBatch (freshState loginRefusedScript) eq_refl) as [_ H].
    destruct (H tt
                (ErrResponse
                   (errorResponse.mk 2200 "Authentication error" "" ""))
                (snd (@login scriptedRemote testClient "user" "secret" ""
                        (setClient (Some testClient)
                           (freshState loginRefusedScript))))
                eq_refl eq_refl) as [(Hres & _) (Hlog & _)].
    split; [exact Hres | exact Hlog].
  - pose proof
      (@operations_when_session_fails jarlessRemote referenceLibDNS testZone
         appendBatch jarlessState eq_refl) as [H _].
    destruct (H (ErrLibrary "cookiejar: no jar") eq_refl)
      as [(_ & Hres & _) (_ & Hlog & _)].
    split; [exact Hres | exact Hlog].
Defined.

(** [GetRecords] on the zone with a malformed record: one lookup and
    the logout. *)
Lemma GetRecords_sends_one_lookup_on_test_zone :
  log (snd (@GetRecords scriptedRemote referenceLibDNS testZone
              (freshSession listScript))) =
  (log (loggedIn listScript)
     ++ [mkCall "https://api.ote.domrobot.com/jsonrpc/" "nameserver.info"
           (ParamsInfo (nameserverInfoRequest.mk "example.com" "" "" "" 0 0%N));
         logoutCall testClient])%list.
Proof.
  exact (proj1
    (@GetRecords_sends_one_lookup scriptedRemote referenceLibDNS testZone
       (freshSession listScript) testClient (loggedIn listScript) eq_refl)).
Defined.

(** The three batch operations on an empty batch. *)
Lemma operations_on_empty_batch_on_script :
  fst (@SetRecords scriptedRemote testZone [] (freshSession [okReply JNull]))
  = Ok []
  /\ log (snd (@SetRecords scriptedRemote testZone []
                 (freshSession [okReply JNull]))) =
     (log (loggedIn [okReply JNull]) ++ [logoutCall testClient])%list.
Proof.
  exact (proj1 (proj2
    (@operations_on_empty_batch scriptedRemote testZone
       (freshSession [okReply JNull]) testClient (loggedIn [okReply JNull])
       eq_refl))).
Defined.

(** [SetRecords] on the batch of the tests, run to its end. *)
Lemma SetRecords_success_shape_on_test_batch :
  exists writes : list Call,
    Forall2 (setWrite testClient testZone) setBatch writes
    /\ log (snd (@SetRecords scriptedRemote testZone setBatch
                   (freshSession setScript))) =
       (log (loggedIn setScript) ++ setCalls testClient testZone setBatch writes
          ++ [logoutCall testClient])%list.
Proof.
  assert (Hout : fst (@SetRecords scriptedRemote testZone setBatch
                        (freshSession setScript)) = Ok setBatch)
    by (vm_compute; reflexivity).
  exact (proj2
    (@SetRecords_success_shape scriptedRemote testZone setBatch
       (freshSession setScript) testClient (loggedIn setScript) setBatch
       eq_refl Hout)).
Defined.

(** [DeleteRecords] on the batch of the tests in front of the zone
    with duplicates, run to its end. *)
Lemma DeleteRecords_success_shape_on_test_batch :
  fst (@DeleteRecords zoneRemote testZone deleteBatch
         (zoneState duplicatesZone))
  = Ok [testTXT "test_3" "test_value_3"; testTXT "test_3" "test_value_3";
        testTXT "test_3" "test_value_3"]
  /\ log (snd (@DeleteRecords zoneRemote testZone deleteBatch
                 (zoneState duplicatesZone))) =
     (log (zoneSession duplicatesZone)
        ++ [findCall zoneClient testZone (testTXT "test_3" "test_value_3") true;
            deleteCall zoneClient (remoteTXT "103" "test_3" "test_value_3");
            deleteCall zoneClient (remoteTXT "108" "test_3" "test_value_3");
            deleteCall zoneClient (remoteTXT "109" "test_3" "test_value_3");
            findCall zoneClient testZone (testTXT "test_9" "test_value_9") true;
            logoutCall zoneClient])%list.
Proof.
  pose (s_found1 :=
          snd (@findRecords zoneRemote zoneClient
                 (inwxRecord (testTXT "test_3" "test_value_3"))
                 (getDomain testZone) true (zoneSession duplicatesZone))).
  pose (matches1 := [remoteTXT "103" "test_3" "test_value_3";
                     remoteTXT "108" "test_3" "test_value_3";
                     remoteTXT "109" "test_3" "test_value_3"]).
  pose (s_found2 :=
          snd (@findRecords zoneRemote zoneClient
                 (inwxRecord (testTXT "test_9" "test_value_9"))
                 (getDomain testZone) true
                 (@afterDeletes zoneRemote zoneClient matches1 s_found1))).
  assert (Htrace :
            @deleteTrace zoneRemote zoneClient testZone deleteBatch
              (zoneSession duplicatesZone) [matches1; []] s_found2).
  { apply (@deleteTrace_cons zoneRemote zoneClient testZone _ _ _ matches1
             s_found1); [vm_compute; reflexivity | vm_compute; reflexivity |].
    apply (@deleteTrace_cons zoneRemote zoneClient testZone _ _ _ []
             s_found2); [vm_compute; reflexivity | reflexivity |].
    apply deleteTrace_nil. }
  exact (proj2
    (@DeleteRecords_success_shape zoneRemote testZone deleteBatch
       (zoneState duplicatesZone) zoneClient (zoneSession duplicatesZone)
       eq_refl) [matches1; []] s_found2 Htrace).
Defined.

(** [SetRecords] when the lookup of the first record fails. *)
Lemma batch_stops_at_first_failure_on_script :
  fst (@SetRecords scriptedRemote testZone setBatch
         (freshSession setScriptLookupFails))
  = Err (ErrResponse (errorResponse.mk 2400 "Command failed" "" ""))
  /\ log (snd (@SetRecords scriptedRemote testZone setBatch
                 (freshSession setScriptLookupFails))) =
     (log (loggedIn setScriptLookupFails)
        ++ [findCall testClient testZone
              (testTXT "test_3" "test_value_3_new") false;
            logoutCall testClient])%list.
Proof.
  pose proof
    (@batch_stops_at_first_failure scriptedRemote testZone setBatch
       (freshSession setScriptLookupFails) testClient
       (loggedIn setScriptLookupFails)
       [] (testTXT "test_3" "test_value_3_new")
       [testTXT "test_4" "test_value_4"] eq_refl eq_refl)
    as (_ & _ & Hlookup & _).
  exact (Hlookup [] (loggedIn setScriptLookupFails)
           (ErrResponse (errorResponse.mk 2400 "Command failed" "" ""))
           eq_refl eq_refl).
Defined.

(** [DeleteRecords] when the second of two delete calls is refused. *)
Lemma DeleteRecords_stops_between_matches_on_script :
  fst (@DeleteRecords scriptedRemote testZone deleteBatch
         (freshSession deleteScriptSecondRefused))
  = Err (ErrResponse (errorResponse.mk 2303 "Object does not exist" "" ""))
  /\ log (snd (@DeleteRecords scriptedRemote testZone deleteBatch
                 (freshSession deleteScriptSecondRefused))) =
     (log (snd (@findRecords scriptedRemote testClient
                  (inwxRecord (testTXT "test_3" "test_value_3"))
                  (getDomain testZone) true
                  (loggedIn deleteScriptSecondRefused)))
        ++ map (deleteCall testClient)
             [remoteTXT "103" "test_3" "test_value_3";
              remoteTXT "108" "test_3" "test_value_3"]
        ++ [logoutCall testClient])%list.
Proof.
  assert (Hfirst :
    @forRange scriptedRemote _ _ [remoteTXT "103" "test_3" "test_value_3"]
      (DeleteRecords_inner testClient (testTXT "test_3" "test_value_3")) []
      (snd (@findRecords scriptedRemote testClient
              (inwxRecord (testTXT "test_3" "test_value_3"))
              (getDomain testZone) true
              (loggedIn deleteScriptSecondRefused)))
    = (Ok [testTXT "test_3" "test_value_3"],
       snd (@forRange scriptedRemote _ _
              [remoteTXT "103" "test_3" "test_value_3"]
              (DeleteRecords_inner testClient
                 (testTXT "test_3" "test_value_3")) []
              (snd (@findRecords scriptedRemote testClient
                      (inwxRecord (testTXT "test_3" "test_value_3"))
                      (getDomain testZone) true
                      (loggedIn deleteScriptSecondRefused))))))
    by (vm_compute; reflexivity).
  refine
    (@DeleteRecords_stops_between_matches scriptedRemote testZone deleteBatch
       (freshSession deleteScriptSecondRefused) testClient
       (loggedIn deleteScriptSecondRefused)
       [] (testTXT "test_3" "test_value_3")
       [testTXT "test_9" "test_value_9"] []
       (loggedIn deleteScriptSecondRefused)
       [remoteTXT "103" "test_3" "test_value_3"]
       (remoteTXT "108" "test_3" "test_value_3") [] _
       [testTXT "test_3" "test_value_3"] _
       (ErrResponse (errorResponse.mk 2303 "Object does not exist" "" ""))
       eq_refl eq_refl eq_refl eq_refl Hfirst _).
  vm_compute. reflexivity.
Defined.

(** An MX record and a TXT record read from the remote and encoded
    again. *)
Lemma inwxRecord_of_libdnsRecord_on_records :
  inwxRecord testMX
  = nameserverRecord.mk "" "test_4" "MX" "mx.example.com" 300 10%N
  /\ inwxRecord (testTXT "test_1" "test_value_1")
     = nameserverRecord.mk "" "test_1" "TXT" "test_value_1" 300 0%N.
Proof.
  split.
  - refine (@inwxRecord_of_libdnsRecord referenceLibDNS
              (nameserverRecord.mk "7" "test_4" "MX" "mx.example.com" 300 10%N)
              testZone testMX eq_refl eq_refl eq_refl _).
    simpl. lia.
  - refine (@inwxRecord_of_libdnsRecord referenceLibDNS
              (remoteTXT "1" "test_1" "test_value_1")
              testZone (testTXT "test_1" "test_value_1")
              eq_refl eq_refl eq_refl _).
    simpl. lia.
Defined.

(** The first call of an operation on the provider of the tests. *)
Lemma operations_begin_with_login_on_fresh_provider :
  exists more : list Call,
    log (snd (@AppendRecords scriptedRemote testZone appendBatch
                (freshSession appendScript))) =
    (log (freshSession appendScript)
       ++ mkCall "https://api.ote.domrobot.com/jsonrpc/" "account.login"
            (ParamsLogin (accountLoginRequest.mk "user" "secret"))
       :: more)%list.
Proof.
  exact (proj1 (proj2
    (@operations_begin_with_login scriptedRemote referenceLibDNS testZone
       appendBatch (freshSession appendScript) tt eq_refl eq_refl))).
Defined.

(** [DeleteRecords] of a TXT record with empty text: both TXT records
    under the name are deleted, whatever their content. *)
Lemma DeleteRecords_unfiltered_on_empty_content_on_script :
  findCall testClient testZone emptyTXT true
  = findCall testClient testZone emptyTXT false
  /\ log (snd (@DeleteRecords_body scriptedRemote testClient testZone emptyTXT
                 [] (openState emptyContentScript))) =
     [findCall testClient testZone emptyTXT false;
      deleteCall testClient (remoteTXT "103" "test_3" "test_value_3");
      deleteCall testClient (remoteTXT "107" "test_3" "another value")].
Proof.
  pose proof
    (@DeleteRecords_unfiltered_on_empty_content scriptedRemote testClient
       testZone emptyTXT (openState emptyContentScript) eq_refl)
    as (Hcall & _ & Hbody).
  split; [exact Hcall |].
  rewrite (Hbody []
             [remoteTXT "103" "test_3" "test_value_3";
              remoteTXT "107" "test_3" "another value"]
             (snd (@findRecords scriptedRemote testClient
                     (inwxRecord emptyTXT) (getDomain testZone) false
                     (openState emptyContentScript)))
             eq_refl eq_refl).
  vm_compute. reflexivity.
Defined.
